(** * hishtory sync server: a shallow embedding of backend/server/server.go

    The server is a stateless HTTP front over five relational tables.  Every
    handler is embedded as a function on the table contents.  A table is a
    list of rows: no table written by these handlers has a primary key, so
    duplicates are kept and insertion appends.  A SELECT yields the matching
    rows in table order; the statements that count rows do not depend on
    that order.

    Conventions of the embedding:
    - a handler that panics keeps the writes it made before the panic (only
      the dump transaction rolls back), so a run yields the final tables and
      an outcome;
    - the store itself never fails ([result.Error] is always nil); the
      [read_count] column is 64 bits wide in the store and an integer here,
      so the embedding follows the store as long as no increment leaves that
      range: [read_counts_fit] states it, and the theorems that follow a row
      from its read count on assume it;
    - request bodies arrive already decoded from JSON;
    - [time.Now()] is one reading [now] per request. *)

From Stdlib Require Import String Ascii List ZArith Lia Bool DecimalString.
From Stdlib Require DecimalPos.
From Stdlib Require Import Sorted.
Import ListNotations.

#[local] Open Scope string_scope.
#[local] Open Scope list_scope.
#[local] Open Scope Z_scope.

(** ** Rows *)

(** Modelled from the spec: the record types of package [shared] are not part
    of the sources at hand.  Fields follow spec section 3 and the column
    names that server.go uses in its queries ([user_id], [device_id], [date],
    [read_count], [destination_device_id], [requesting_device_id]).  The
    encrypted payload, nonce and id of an entry are one opaque string. *)
Module EncHistoryEntry.
Record t : Type := mk
  { EncryptedData : string;
    DeviceId : string;
    UserId : string;
    Date : Z;
    ReadCount : Z }.

Definition eq_dec (x y : t) : {x = y} + {x <> y}.
Proof. decide equality; auto using string_dec, Z.eq_dec. Defined.

Definition withDeviceId (e : t) (d : string) : t :=
  mk (EncryptedData e) d (UserId e) (Date e) (ReadCount e).

Definition withReadCount (e : t) (n : Z) : t :=
  mk (EncryptedData e) (DeviceId e) (UserId e) (Date e) n.
End EncHistoryEntry.

Module Device.
Record t : Type := mk
  { UserId : string;
    DeviceId : string;
    RegistrationIp : string;
    RegistrationDate : Z }.

Definition eq_dec (x y : t) : {x = y} + {x <> y}.
Proof. decide equality; auto using string_dec, Z.eq_dec. Defined.
End Device.

Module DumpRequest.
Record t : Type := mk
  { UserId : string;
    RequestingDeviceId : string;
    RequestTime : Z }.

Definition eq_dec (x y : t) : {x = y} + {x <> y}.
Proof. decide equality; auto using string_dec, Z.eq_dec. Defined.
End DumpRequest.

Module MessageIdentifier.
Record t : Type := mk
  { DeviceId : string;
    Date : Z }.

Definition eq_dec (x y : t) : {x = y} + {x <> y}.
Proof. decide equality; auto using string_dec, Z.eq_dec. Defined.
End MessageIdentifier.

Module DeletionRequest.
Record t : Type := mk
  { UserId : string;
    DestinationDeviceId : string;
    SendTime : Z;
    Messages : list MessageIdentifier.t;
    ReadCount : Z }.

Definition eq_dec (x y : t) : {x = y} + {x <> y}.
Proof.
decide equality; auto using string_dec, Z.eq_dec.
apply list_eq_dec, MessageIdentifier.eq_dec.
Defined.

Definition withReadCount (r : t) (n : Z) : t :=
  mk (UserId r) (DestinationDeviceId r) (SendTime r) (Messages r) n.

Definition withDestinationDeviceId (r : t) (d : string) : t :=
  mk (UserId r) d (SendTime r) (Messages r) (ReadCount r).
End DeletionRequest.

(** [type UsageData struct] of server.go. *)
Module UsageData.
Record t : Type := mk
  { UserId : string;
    DeviceId : string;
    LastUsed : Z;
    NumEntriesHandled : Z }.

Definition eq_dec (x y : t) : {x = y} + {x <> y}.
Proof. decide equality; auto using string_dec, Z.eq_dec. Defined.
End UsageData.

(** ** The store and the process state *)

Record DB : Type := mkDB
  { enc_history_entries : list EncHistoryEntry.t;
    devices : list Device.t;
    usage_data : list UsageData.t;
    dump_requests : list DumpRequest.t;
    deletion_requests : list DeletionRequest.t }.

(** The two package-level variables of server.go. *)
Record Server : Type := mkServer
  { GLOBAL_DB : DB;
    ReleaseVersion : string }.

Definition set_entries (l : list EncHistoryEntry.t) (g : Server) : Server :=
  let db := GLOBAL_DB g in
  mkServer (mkDB l (devices db) (usage_data db) (dump_requests db)
              (deletion_requests db)) (ReleaseVersion g).

Definition set_devices (l : list Device.t) (g : Server) : Server :=
  let db := GLOBAL_DB g in
  mkServer (mkDB (enc_history_entries db) l (usage_data db) (dump_requests db)
              (deletion_requests db)) (ReleaseVersion g).

Definition set_usage_data (l : list UsageData.t) (g : Server) : Server :=
  let db := GLOBAL_DB g in
  mkServer (mkDB (enc_history_entries db) (devices db) l (dump_requests db)
              (deletion_requests db)) (ReleaseVersion g).

Definition set_dump_requests (l : list DumpRequest.t) (g : Server) : Server :=
  let db := GLOBAL_DB g in
  mkServer (mkDB (enc_history_entries db) (devices db) (usage_data db) l
              (deletion_requests db)) (ReleaseVersion g).

Definition set_deletion_requests (l : list DeletionRequest.t) (g : Server)
  : Server :=
  let db := GLOBAL_DB g in
  mkServer (mkDB (enc_history_entries db) (devices db) (usage_data db)
              (dump_requests db) l) (ReleaseVersion g).

Definition entries_of (g : Server) := enc_history_entries (GLOBAL_DB g).
Definition devices_of (g : Server) := devices (GLOBAL_DB g).
Definition usage_of (g : Server) := usage_data (GLOBAL_DB g).
Definition dump_requests_of (g : Server) := dump_requests (GLOBAL_DB g).
Definition deletion_requests_of (g : Server) :=
  deletion_requests (GLOBAL_DB g).

(** ** Handlers as state transformers that may panic *)

Inductive panic : Type :=
| MissingQueryParam (queryParam : string)
| NoDevices (userId : string)
| TransactionFailed (entryUserId userId : string).

Inductive outcome (A : Type) : Type :=
| Returned (a : A)
| Panicked (p : panic).
Arguments Returned {A} a.
Arguments Panicked {A} p.

Definition handler (A : Type) : Type := Server -> Server * outcome A.

Definition ret {A} (a : A) : handler A := fun g => (g, Returned a).

Definition bind {A B} (m : handler A) (k : A -> handler B) : handler B :=
  fun g =>
    match m g with
    | (g', Returned a) => k a g'
    | (g', Panicked p) => (g', Panicked p)
    end.

Definition raise {A} (p : panic) : handler A := fun g => (g, Panicked p).
Definition get : handler Server := fun g => (g, Returned g).
Definition modify (f : Server -> Server) : handler unit :=
  fun g => (f g, Returned tt).

Notation "x <- m ;; k" := (bind m (fun x => k))
  (at level 61, m at next level, right associativity).
Notation "m ;;; k" := (bind m (fun _ => k))
  (at level 61, right associativity).

(** [for _, x := range xs { body x }] with a body that may panic. *)
Fixpoint for_range {A} (xs : list A) (body : A -> handler unit)
  : handler unit :=
  match xs with
  | [] => ret tt
  | x :: xs' => body x ;;; for_range xs' body
  end.

Definition final {A} (r : Server * outcome A) : Server := fst r.
Definition result {A} (r : Server * outcome A) : outcome A := snd r.

Definition panicked {A} (r : Server * outcome A) : bool :=
  match snd r with Panicked _ => true | Returned _ => false end.

(** ** Janitor *)

(** [cleanDatabase]: two DELETE statements; the returned error is nil since
    the store does not fail. *)
Definition cleanDatabase (g : Server) : Server :=
  let g1 :=
    set_entries
      (filter (fun e => negb (10 <? EncHistoryEntry.ReadCount e))
         (entries_of g)) g in
  set_deletion_requests
    (filter (fun r => negb (100 <? DeletionRequest.ReadCount r))
       (deletion_requests_of g1)) g1.


(** ** Requests *)

(** What a handler reads of [*http.Request]: the query string as key/value
    pairs in order, and the peer address. *)
Record Request : Type := mkRequest
  { URL_Query : list (string * string);
    RemoteAddr : string }.

(** [r.URL.Query().Get(key)]: the first value of [key], or the empty string
    when the key is absent. *)
Definition Query_Get (r : Request) (key : string) : string :=
  match find (fun kv => String.eqb (fst kv) key) (URL_Query r) with
  | Some kv => snd kv
  | None => ""
  end.

Definition getRequiredQueryParam (r : Request) (queryParam : string)
  : handler string :=
  let val := Query_Get r queryParam in
  if String.eqb val "" then raise (MissingQueryParam queryParam)
  else ret val.

(** ** Usage telemetry *)

Definition usage_matches (userId deviceId : string) (u : UsageData.t) : bool :=
  String.eqb (UsageData.UserId u) userId
  && String.eqb (UsageData.DeviceId u) deviceId.

Definition touch_usage (now : Z) (userId deviceId : string)
  (u : UsageData.t) : UsageData.t :=
  if usage_matches userId deviceId u
  then UsageData.mk (UsageData.UserId u) (UsageData.DeviceId u) now
         (UsageData.NumEntriesHandled u)
  else u.

Definition count_usage (numEntries : Z) (userId deviceId : string)
  (u : UsageData.t) : UsageData.t :=
  if usage_matches userId deviceId u
  then UsageData.mk (UsageData.UserId u) (UsageData.DeviceId u)
         (UsageData.LastUsed u) (UsageData.NumEntriesHandled u + numEntries)
  else u.

Definition updateUsageData (now : Z) (userId deviceId : string)
  (numEntries : Z) : handler unit :=
  g <- get ;;
  let usageData := filter (usage_matches userId deviceId) (usage_of g) in
  if Nat.eqb (length usageData) 0 then
    modify (fun g =>
      set_usage_data
        (usage_of g ++ [UsageData.mk userId deviceId now numEntries]) g)
  else
    modify (fun g =>
      set_usage_data (map (touch_usage now userId deviceId) (usage_of g)) g) ;;;
    if 0 <? numEntries then
      modify (fun g =>
        set_usage_data
          (map (count_usage numEntries userId deviceId) (usage_of g)) g)
    else ret tt.

(** ** Store statements shared by the handlers *)

(** [GLOBAL_DB.Where("user_id = ?", userId).Find(&devices)] *)
Definition find_devices (userId : string) (g : Server) : list Device.t :=
  filter (fun d => String.eqb (Device.UserId d) userId) (devices_of g).

(** [GLOBAL_DB.Create(&entry)] *)
Definition create_entry (entry : EncHistoryEntry.t) (db : DB) : DB :=
  mkDB (enc_history_entries db ++ [entry]) (devices db) (usage_data db)
    (dump_requests db) (deletion_requests db).

Definition Create_entry (entry : EncHistoryEntry.t) : handler unit :=
  modify (fun g => mkServer (create_entry entry (GLOBAL_DB g))
                     (ReleaseVersion g)).

(** [UPDATE enc_history_entries SET read_count = read_count + 1
     WHERE device_id = ?], on a row whose read count is below the largest
    value of the column (see [read_counts_fit]). *)
Definition increment_read_count (deviceId : string) (e : EncHistoryEntry.t)
  : EncHistoryEntry.t :=
  if String.eqb (EncHistoryEntry.DeviceId e) deviceId
  then EncHistoryEntry.withReadCount e (EncHistoryEntry.ReadCount e + 1)
  else e.

(** One disjunct of the deletion: [user_id = ? AND device_id = ? AND date = ?]
    with the request's user and the message's device and date. *)
Definition message_matches (userId : string) (message : MessageIdentifier.t)
  (e : EncHistoryEntry.t) : bool :=
  String.eqb (EncHistoryEntry.UserId e) userId
  && String.eqb (EncHistoryEntry.DeviceId e) (MessageIdentifier.DeviceId message)
  && (EncHistoryEntry.Date e =? MessageIdentifier.Date message).

(** [Where("false")] followed by one [Or] per message. *)
Definition deletion_matches (request : DeletionRequest.t)
  (e : EncHistoryEntry.t) : bool :=
  existsb (fun message => message_matches (DeletionRequest.UserId request) message e)
    (DeletionRequest.Messages request).

(** [applyDeletionRequestsToBackend]: returns the number of deleted rows. *)
Definition applyDeletionRequestsToBackend (request : DeletionRequest.t)
  : handler Z :=
  g <- get ;;
  let rowsAffected := filter (deletion_matches request) (entries_of g) in
  modify (set_entries
            (filter (fun e => negb (deletion_matches request e))
               (entries_of g))) ;;;
  ret (Z.of_nat (length rowsAffected)).

(** ** Submission *)

(** The body of the outer loop of [apiSubmitHandler], for one entry. *)
Definition submit_entry (now : Z) (entry : EncHistoryEntry.t)
  : handler unit :=
  updateUsageData now (EncHistoryEntry.UserId entry)
    (EncHistoryEntry.DeviceId entry) 1 ;;;
  g <- get ;;
  let devices := find_devices (EncHistoryEntry.UserId entry) g in
  if Nat.eqb (length devices) 0 then
    raise (NoDevices (EncHistoryEntry.UserId entry))
  else
    for_range devices (fun device =>
      Create_entry
        (EncHistoryEntry.withDeviceId entry (Device.DeviceId device))).

Definition apiSubmitHandler (now : Z) (entries : list EncHistoryEntry.t)
  : handler unit :=
  for_range entries (submit_entry now).

(** ** Delivery *)

Definition apiBootstrapHandler (now : Z) (r : Request)
  : handler (list EncHistoryEntry.t) :=
  userId <- getRequiredQueryParam r "user_id" ;;
  deviceId <- getRequiredQueryParam r "device_id" ;;
  updateUsageData now userId deviceId 0 ;;;
  g <- get ;;
  ret (filter (fun e => String.eqb (EncHistoryEntry.UserId e) userId)
         (entries_of g)).

Definition pending_deletions (userId deviceId : string) (g : Server)
  : list DeletionRequest.t :=
  filter (fun q =>
            String.eqb (DeletionRequest.DestinationDeviceId q) deviceId
            && String.eqb (DeletionRequest.UserId q) userId)
    (deletion_requests_of g).

Definition in_window (deviceId : string) (e : EncHistoryEntry.t) : bool :=
  String.eqb (EncHistoryEntry.DeviceId e) deviceId
  && (EncHistoryEntry.ReadCount e <? 5).

Definition apiQueryHandler (now : Z) (r : Request)
  : handler (list EncHistoryEntry.t) :=
  userId <- getRequiredQueryParam r "user_id" ;;
  deviceId <- getRequiredQueryParam r "device_id" ;;
  updateUsageData now userId deviceId 0 ;;;
  (* Increment the count *)
  modify (fun g =>
    set_entries (map (increment_read_count deviceId) (entries_of g)) g) ;;;
  (* Delete any entries that match a pending deletion request *)
  g <- get ;;
  let deletionRequests := pending_deletions userId deviceId g in
  for_range deletionRequests (fun request =>
    _ <- applyDeletionRequestsToBackend request ;; ret tt) ;;;
  (* Then retrieve *)
  g <- get ;;
  ret (filter (in_window deviceId) (entries_of g)).

(** ** Registration *)

Definition apiRegisterHandler (now : Z) (r : Request) : handler unit :=
  userId <- getRequiredQueryParam r "user_id" ;;
  deviceId <- getRequiredQueryParam r "device_id" ;;
  g <- get ;;
  let existingDevicesCount := Z.of_nat (length (find_devices userId g)) in
  modify (fun g =>
    set_devices
      (devices_of g ++ [Device.mk userId deviceId (RemoteAddr r) now]) g) ;;;
  (if 0 <? existingDevicesCount then
     modify (fun g =>
       set_dump_requests
         (dump_requests_of g ++ [DumpRequest.mk userId deviceId now]) g)
   else ret tt) ;;;
  updateUsageData now userId deviceId 0.

(** ** Dump exchange *)

Definition apiGetPendingDumpRequestsHandler (r : Request)
  : handler (list DumpRequest.t) :=
  userId <- getRequiredQueryParam r "user_id" ;;
  deviceId <- getRequiredQueryParam r "device_id" ;;
  g <- get ;;
  (* Filter out ones requested by the hishtory instance that sent this
     request *)
  ret (filter (fun q =>
                 String.eqb (DumpRequest.UserId q) userId
                 && negb (String.eqb (DumpRequest.RequestingDeviceId q)
                            deviceId))
         (dump_requests_of g)).

(** The function handed to [GLOBAL_DB.Transaction]: it works on the
    transaction's view [tx] of the tables and reports an error or nil. *)
Fixpoint submitDump_tx (userId requestingDeviceId : string)
  (entries : list EncHistoryEntry.t) (tx : DB) : DB * option panic :=
  match entries with
  | [] => (tx, None)
  | entry :: rest =>
      let entry := EncHistoryEntry.withDeviceId entry requestingDeviceId in
      if negb (String.eqb (EncHistoryEntry.UserId entry) userId) then
        (tx, Some (TransactionFailed (EncHistoryEntry.UserId entry) userId))
      else
        submitDump_tx userId requestingDeviceId rest (create_entry entry tx)
  end.

(** [GLOBAL_DB.Transaction(fc)]: commit the view when [fc] returns nil, roll
    back to the tables as they were when it returns an error. *)
Definition Transaction (fc : DB -> DB * option panic)
  : handler (option panic) :=
  fun g =>
    match fc (GLOBAL_DB g) with
    | (tx, None) => (mkServer tx (ReleaseVersion g), Returned None)
    | (_, Some err) => (g, Returned (Some err))
    end.

Definition apiSubmitDumpHandler (now : Z) (r : Request)
  (entries : list EncHistoryEntry.t) : handler unit :=
  userId <- getRequiredQueryParam r "user_id" ;;
  srcDeviceId <- getRequiredQueryParam r "source_device_id" ;;
  requestingDeviceId <- getRequiredQueryParam r "requesting_device_id" ;;
  err <- Transaction (submitDump_tx userId requestingDeviceId entries) ;;
  match err with
  | Some p => raise p
  | None =>
      modify (fun g =>
        set_dump_requests
          (filter (fun q =>
                     negb (String.eqb (DumpRequest.UserId q) userId
                           && String.eqb (DumpRequest.RequestingDeviceId q)
                                requestingDeviceId))
             (dump_requests_of g)) g) ;;;
      updateUsageData now userId srcDeviceId (Z.of_nat (length entries))
  end.

(** ** Deletion propagation *)

Definition increment_request_read_count (userId deviceId : string)
  (q : DeletionRequest.t) : DeletionRequest.t :=
  if String.eqb (DeletionRequest.DestinationDeviceId q) deviceId
     && String.eqb (DeletionRequest.UserId q) userId
  then DeletionRequest.withReadCount q (DeletionRequest.ReadCount q + 1)
  else q.

Definition getDeletionRequestsHandler (r : Request)
  : handler (list DeletionRequest.t) :=
  userId <- getRequiredQueryParam r "user_id" ;;
  deviceId <- getRequiredQueryParam r "device_id" ;;
  modify (fun g =>
    set_deletion_requests
      (map (increment_request_read_count userId deviceId)
         (deletion_requests_of g)) g) ;;;
  g <- get ;;
  ret (filter (fun q =>
                 String.eqb (DeletionRequest.UserId q) userId
                 && String.eqb (DeletionRequest.DestinationDeviceId q)
                      deviceId)
         (deletion_requests_of g)).

(** The loop of [addDeletionRequestHandler] overwrites
    [request.DestinationDeviceId] at each turn; this is the value of
    [request] once the loop is over. *)
Definition request_after_fanout (request : DeletionRequest.t)
  (devices : list Device.t) : DeletionRequest.t :=
  fold_left
    (fun q device =>
       DeletionRequest.withDestinationDeviceId q (Device.DeviceId device))
    devices request.

Definition addDeletionRequestHandler (request : DeletionRequest.t)
  : handler Z :=
  let request := DeletionRequest.withReadCount request 0 in
  (* Store the deletion request so all the devices will get it *)
  g <- get ;;
  let devices := find_devices (DeletionRequest.UserId request) g in
  if Nat.eqb (length devices) 0 then
    raise (NoDevices (DeletionRequest.UserId request))
  else
    for_range devices (fun device =>
      modify (fun g =>
        set_deletion_requests
          (deletion_requests_of g
             ++ [DeletionRequest.withDestinationDeviceId request
                   (Device.DeviceId device)]) g)) ;;;
    (* Also delete anything currently in the DB matching it *)
    applyDeletionRequestsToBackend (request_after_fanout request devices).

Definition wipeDbHandler : handler unit := modify (set_entries []).

(** ** Release resolver *)

(** [strings.Split(s, ".")]: the pieces of [s] between the dots; always at
    least one piece. *)
Fixpoint Split_dot (s : string) : list string :=
  match s with
  | EmptyString => [EmptyString]
  | String ch rest =>
      if Ascii.eqb ch "." then EmptyString :: Split_dot rest
      else
        match Split_dot rest with
        | piece :: pieces => String ch piece :: pieces
        | [] => [String ch EmptyString]
        end
  end.

Definition minInt : Z := - 2 ^ 63.
Definition maxInt : Z := 2 ^ 63 - 1.

(** Go's [int] arithmetic on a 64-bit platform wraps around. *)
Definition wrap_int (n : Z) : Z := (n - minInt) mod 2 ^ 64 + minInt.

Definition digit_value (ch : ascii) : option Z :=
  let d := Z.of_nat (nat_of_ascii ch) - 48 in
  if (0 <=? d) && (d <=? 9) then Some d else None.

Fixpoint parse_digits (s : string) (n : Z) : option Z :=
  match s with
  | EmptyString => Some n
  | String ch rest =>
      match digit_value ch with
      | Some d => parse_digits rest (n * 10 + d)
      | None => None
      end
  end.

(** [strconv.Atoi] of the Go standard library: an optional sign, then one or
    more decimal digits; a value outside [int] is an error.  [None] stands
    for a non-nil error. *)
Definition Atoi (s : string) : option Z :=
  match s with
  | EmptyString => None
  | String ch rest =>
      let neg := Ascii.eqb ch "-" in
      let digits := if neg || Ascii.eqb ch "+" then rest else s in
      match digits with
      | EmptyString => None
      | _ =>
          match parse_digits digits 0 with
          | Some n =>
              let v := if neg then - n else n in
              if (minInt <=? v) && (v <=? maxInt) then Some v else None
          | None => None
          end
      end
  end.

(** [strconv.Itoa]: decimal digits, with a leading minus sign below zero. *)
Definition Itoa (n : Z) : string :=
  DecimalString.NilZero.string_of_int (Z.to_int n).

(** [decrementVersion]; [None] stands for a non-nil error. *)
Definition decrementVersion (version : string) : option string :=
  if String.eqb version "UNKNOWN" then None
  else
    let parts := Split_dot version in
    match parts with
    | [part0; part1] =>
        match Atoi part1 with
        | Some versionNumber =>
            Some (part0 ++ "." ++ Itoa (wrap_int (versionNumber - 1)))%string
        | None => None
        end
    | _ => None
    end.

(** Modelled from the spec: [shared.UpdateInfo] is declared outside the
    sources at hand; it is the per-platform download manifest, with the
    fields that [buildUpdateInfo] fills. *)
Module UpdateInfo.
Record t : Type := mk
  { LinuxAmd64Url : string;
    LinuxAmd64AttestationUrl : string;
    DarwinAmd64Url : string;
    DarwinAmd64UnsignedUrl : string;
    DarwinAmd64AttestationUrl : string;
    DarwinArm64Url : string;
    DarwinArm64UnsignedUrl : string;
    DarwinArm64AttestationUrl : string;
    Version : string }.
End UpdateInfo.

Definition release_url (version artifact : string) : string :=
  ("https://github.com/ddworken/hishtory/releases/download/" ++ version
   ++ "/" ++ artifact)%string.

Definition buildUpdateInfo (version : string) : UpdateInfo.t :=
  UpdateInfo.mk
    (release_url version "hishtory-linux-amd64")
    (release_url version "hishtory-linux-amd64.intoto.jsonl")
    (release_url version "hishtory-darwin-amd64")
    (release_url version "hishtory-darwin-amd64-unsigned")
    (release_url version "hishtory-darwin-amd64.intoto.jsonl")
    (release_url version "hishtory-darwin-arm64")
    (release_url version "hishtory-darwin-arm64-unsigned")
    (release_url version "hishtory-darwin-arm64.intoto.jsonl")
    version.

Inductive update_error : Type :=
| RetrieveFailed (url : string)
| Returned404 (url : string).

Section ReleaseResolver.

(** The network as an oracle: [http_Get url] is [None] when the request
    itself fails and the status code of the response otherwise. *)
Variable http_Get : string -> option Z.

Fixpoint probe_urls (urls : list string) : option update_error :=
  match urls with
  | [] => None
  | url :: rest =>
      match http_Get url with
      | None => Some (RetrieveFailed url)
      | Some status =>
          if status =? 404 then Some (Returned404 url) else probe_urls rest
      end
  end.

(** [assertValidUpdate]; [None] is the nil error. *)
Definition assertValidUpdate (updateInfo : UpdateInfo.t)
  : option update_error :=
  probe_urls
    [ UpdateInfo.LinuxAmd64Url updateInfo;
      UpdateInfo.LinuxAmd64AttestationUrl updateInfo;
      UpdateInfo.DarwinAmd64Url updateInfo;
      UpdateInfo.DarwinAmd64UnsignedUrl updateInfo;
      UpdateInfo.DarwinAmd64AttestationUrl updateInfo;
      UpdateInfo.DarwinArm64Url updateInfo;
      UpdateInfo.DarwinArm64UnsignedUrl updateInfo;
      UpdateInfo.DarwinArm64AttestationUrl updateInfo ].

Definition valid_version (version : string) : bool :=
  match assertValidUpdate (buildUpdateInfo version) with
  | None => true
  | Some _ => false
  end.

(** The loop [for i := 0; i < 5; i++] of [decrementVersionIfInvalid], with
    the turns that remain as the recursion argument. *)
Fixpoint decrement_loop (turns : nat) (initialVersion version : string)
  : string :=
  match turns with
  | O => initialVersion
  | S turns' =>
      match assertValidUpdate (buildUpdateInfo version) with
      | None => version
      | Some _ =>
          match decrementVersion version with
          | Some version' => decrement_loop turns' initialVersion version'
          | None => initialVersion
          end
      end
  end.

Definition decrementVersionIfInvalid (initialVersion : string) : string :=
  decrement_loop 5 initialVersion initialVersion.

End ReleaseResolver.

(** A network on which exactly the artifacts of release [good] exist. *)
Definition only_release (good : string) (url : string) : option Z :=
  if String.prefix (release_url good "") url then Some 200 else Some 404.

(** The versions that the loop of [decrementVersionIfInvalid] probes, in
    order: the initial one and its successive decrements, at most [turns] of
    them, fewer when a decrement fails. *)
Fixpoint candidates (turns : nat) (version : string) : list string :=
  match turns with
  | O => []
  | S turns' =>
      version ::
      match decrementVersion version with
      | Some version' => candidates turns' version'
      | None => []
      end
  end.

(** ** Vocabulary of the statements *)

(** The rows one entry is replicated into: one per Device row of its user. *)
Definition fan_out (g : Server) (entry : EncHistoryEntry.t)
  : list EncHistoryEntry.t :=
  map (fun device =>
         EncHistoryEntry.withDeviceId entry (Device.DeviceId device))
    (find_devices (EncHistoryEntry.UserId entry) g).

Definition has_devices (g : Server) (entry : EncHistoryEntry.t) : bool :=
  negb (Nat.eqb (length (find_devices (EncHistoryEntry.UserId entry) g)) 0).

(** The entries of a batch that precede the first one whose user has no
    device. *)
Fixpoint served (g : Server) (entries : list EncHistoryEntry.t)
  : list EncHistoryEntry.t :=
  match entries with
  | [] => []
  | entry :: rest =>
      if has_devices g entry then entry :: served g rest else []
  end.

(** What a submit of [entries] yields: the panic of the first entry whose
    user has no device, if there is one. *)
Definition submit_outcome (g : Server) (entries : list EncHistoryEntry.t)
  : outcome unit :=
  match find (fun e => negb (has_devices g e)) entries with
  | Some e => Panicked (NoDevices (EncHistoryEntry.UserId e))
  | None => Returned tt
  end.

(** Number of Device rows that register [deviceId] for [userId]. *)
Definition registrations (g : Server) (userId deviceId : string) : nat :=
  length
    (filter (fun d => String.eqb (Device.DeviceId d) deviceId)
       (find_devices userId g)).

Definition count_rows := count_occ EncHistoryEntry.eq_dec.

(** A row is named by a deletion request pending for [(userId, deviceId)]. *)
Definition named_by_pending (userId deviceId : string) (g : Server)
  (e : EncHistoryEntry.t) : bool :=
  existsb (fun q => deletion_matches q e) (pending_deletions userId deviceId g).

(** No deletion request stored for mailbox [deviceId] names the row [e]. *)
Definition unnamed (deviceId : string) (g : Server) (e : EncHistoryEntry.t)
  : Prop :=
  forall q,
    In q (deletion_requests_of g) ->
    DeletionRequest.DestinationDeviceId q = deviceId ->
    deletion_matches q e = false.

(** The read counts as the 64-bit column holds them: every stored row has a
    read count of the column, and the rows of mailbox [deviceId] can take
    [slack] more increments without leaving it. *)
Definition read_counts_fit (slack : Z) (deviceId : string) (g : Server)
  : Prop :=
  forall x,
    In x (entries_of g) ->
    minInt <= EncHistoryEntry.ReadCount x <= maxInt
    /\ (EncHistoryEntry.DeviceId x = deviceId ->
        EncHistoryEntry.ReadCount x + slack <= maxInt).

(** The entry table after a query of [(userId, deviceId)]: the read counts
    of the mailbox are incremented, then the rows named by the pending
    deletion requests of [(userId, deviceId)] are removed. *)
Definition query_entries (userId deviceId : string) (g : Server)
  : list EncHistoryEntry.t :=
  filter (fun e => negb (named_by_pending userId deviceId g e))
    (map (increment_read_count deviceId) (entries_of g)).

(** Successive polls, each with its clock reading and request. *)
Definition run_polls (polls : list (Z * Request)) (g : Server) : Server :=
  fold_left (fun g p => final (apiQueryHandler (fst p) (snd p) g)) polls g.

Definition query_request (userId deviceId : string) : Request :=
  mkRequest [("user_id", userId); ("device_id", deviceId)] "127.0.0.1:1".

Definition dump_request (userId sourceDeviceId requestingDeviceId : string)
  : Request :=
  mkRequest [("user_id", userId); ("source_device_id", sourceDeviceId);
             ("requesting_device_id", requestingDeviceId)] "127.0.0.1:1".

Definition empty_server : Server := mkServer (mkDB [] [] [] [] []) "UNKNOWN".

(** The calls that reach the tables, as routed by [main]; the janitor's
    [cleanDatabase] is one of them. *)
Inductive call : Type :=
| Submit (now : Z) (entries : list EncHistoryEntry.t)
| Bootstrap (now : Z) (r : Request)
| Query (now : Z) (r : Request)
| Register (now : Z) (r : Request)
| GetPendingDumpRequests (r : Request)
| SubmitDump (now : Z) (r : Request) (entries : list EncHistoryEntry.t)
| GetDeletionRequests (r : Request)
| AddDeletionRequest (request : DeletionRequest.t)
| WipeDb
| CleanDatabase.

(** The tables after a call, whether it returned or panicked. *)
Definition serve (c : call) (g : Server) : Server :=
  match c with
  | Submit now entries => final (apiSubmitHandler now entries g)
  | Bootstrap now r => final (apiBootstrapHandler now r g)
  | Query now r => final (apiQueryHandler now r g)
  | Register now r => final (apiRegisterHandler now r g)
  | GetPendingDumpRequests r => final (apiGetPendingDumpRequestsHandler r g)
  | SubmitDump now r entries => final (apiSubmitDumpHandler now r entries g)
  | GetDeletionRequests r => final (getDeletionRequestsHandler r g)
  | AddDeletionRequest request => final (addDeletionRequestHandler request g)
  | WipeDb => final (wipeDbHandler g)
  | CleanDatabase => cleanDatabase g
  end.

Definition serve_all (calls : list call) (g : Server) : Server :=
  fold_left (fun g c => serve c g) calls g.

(** The call is a registration of [deviceId] for [userId]. *)
Definition registers (userId deviceId : string) (c : call) : bool :=
  match c with
  | Register _ r =>
      String.eqb (Query_Get r "user_id") userId
      && String.eqb (Query_Get r "device_id") deviceId
  | _ => false
  end.

(** No DumpRequest row is stored for the pair. *)
Definition no_dump_request (userId requestingDeviceId : string) (g : Server)
  : Prop :=
  forall q,
    In q (dump_requests_of g) ->
    ~ (DumpRequest.UserId q = userId
       /\ DumpRequest.RequestingDeviceId q = requestingDeviceId).

(** A history the handlers can produce: user [u] registers the devices [A],
    [B] and [C], and one entry recorded on [A] is submitted. *)
Definition three_mailboxes : Server :=
  let g1 := final (apiRegisterHandler 1 (query_request "u" "A") empty_server) in
  let g2 := final (apiRegisterHandler 2 (query_request "u" "B") g1) in
  let g3 := final (apiRegisterHandler 3 (query_request "u" "C") g2) in
  final (apiSubmitHandler 4 [EncHistoryEntry.mk "payload" "A" "u" 7 0] g3).

(** A history the handlers can produce: user [u] registers device [A], asks
    for the deletion of the entry that [A] recorded at time 7, and a copy of
    that entry is submitted afterwards. *)
Definition late_entry : EncHistoryEntry.t :=
  EncHistoryEntry.mk "payload" "A" "u" 7 0.

Definition late_entry_state : Server :=
  let g1 := final (apiRegisterHandler 1 (query_request "u" "A") empty_server) in
  let g2 :=
    final (addDeletionRequestHandler
             (DeletionRequest.mk "u" "" 2 [MessageIdentifier.mk "A" 7] 0) g1) in
  final (apiSubmitHandler 3 [late_entry] g2).

(** ** The remaining handlers and helpers of server.go *)

Definition apiBannerHandler (r : Request) : handler string :=
  commitHash <- getRequiredQueryParam r "commit_hash" ;;
  deviceId <- getRequiredQueryParam r "device_id" ;;
  let forcedBanner := Query_Get r "forced_banner" in
  ret forcedBanner.

Definition apiDownloadHandler : handler UpdateInfo.t :=
  g <- get ;; ret (buildUpdateInfo (ReleaseVersion g)).

(** The first of [keys] that the request lacks ([Query().Get] yields the
    empty string), if any. *)
Definition first_missing (r : Request) (keys : list string) : option string :=
  find (fun key => String.eqb (Query_Get r key) "") keys.

(** The URLs of a manifest, in the order [assertValidUpdate] probes them. *)
Definition artifact_urls (version : string) : list string :=
  [ release_url version "hishtory-linux-amd64";
    release_url version "hishtory-linux-amd64.intoto.jsonl";
    release_url version "hishtory-darwin-amd64";
    release_url version "hishtory-darwin-amd64-unsigned";
    release_url version "hishtory-darwin-amd64.intoto.jsonl";
    release_url version "hishtory-darwin-arm64";
    release_url version "hishtory-darwin-arm64-unsigned";
    release_url version "hishtory-darwin-arm64.intoto.jsonl" ].

Fixpoint has_dot (s : string) : bool :=
  match s with
  | EmptyString => false
  | String ch rest => Ascii.eqb ch "." || has_dot rest
  end.

(** What the resolver reads of an [*http.Response]: the status code, and the
    body as [ioutil.ReadAll] returns it ([None] when reading fails). *)
Record Response : Type := mkResponse
  { StatusCode : Z;
    Body : option string }.

Inductive release_error : Type :=
| GetFailed
| ReadFailed
| BadStatus (status_code : Z) (body : string)
| ParseFailed.

(** [strings.Contains] *)
Definition Contains (s substr : string) : bool :=
  match String.index 0 substr s with
  | Some _ => true
  | None => false
  end.

Definition releases_latest : string :=
  "https://api.github.com/repos/ddworken/hishtory/releases/latest".

Section Cron.

(** The network, now with response bodies: [None] is a failed request. *)
Variable http_Get_response : string -> option Response.

(** [json.Unmarshal(respBody, &info)] followed by [info.Name]: the decoded
    name, or [None] when the body does not decode. *)
Variable json_Unmarshal_Name : string -> option string.

(** What [assertValidUpdate] sees of the same network. *)
Definition status_of (url : string) : option Z :=
  option_map StatusCode (http_Get_response url).

(** [updateReleaseVersion]: the error is [None] for nil. *)
Definition updateReleaseVersion (g : Server)
  : Server * option release_error :=
  match http_Get_response releases_latest with
  | None => (g, Some GetFailed)
  | Some resp =>
      match Body resp with
      | None => (g, Some ReadFailed)
      | Some respBody =>
          if (StatusCode resp =? 403)
             && Contains respBody "API rate limit exceeded for "
          then (g, None)
          else if negb (StatusCode resp =? 200)
          then (g, Some (BadStatus (StatusCode resp) respBody))
          else
            match json_Unmarshal_Name respBody with
            | None => (g, Some ParseFailed)
            | Some latestVersionTag =>
                (mkServer (GLOBAL_DB g)
                   (decrementVersionIfInvalid status_of latestVersionTag),
                 None)
            end
      end
  end.

(** [cron]: both errors are printed and dropped; [cleanDatabase] cannot
    fail here, and the result is always nil. *)
Definition cron (g : Server) : Server * option release_error :=
  let (g1, err) := updateReleaseVersion g in
  (cleanDatabase g1, None).

(** [triggerCronHandler] panics on an error of [cron]. *)
Definition triggerCronHandler (g : Server) : Server * option release_error :=
  cron g.

End Cron.

(** What [byteCountToString] hands to [fmt.Sprintf]: below one unit the
    text is ["%d B"]; above, the arguments of ["%.1f %cB"] are the quotient
    of [b] by [div] (as floats, not rendered here) and the unit letter; an
    exponent beyond the three letters is an index out of range. *)
Inductive byte_count : Type :=
| Bytes (text : string)
| Scaled (b div : Z) (unit_letter : ascii)
| IndexOutOfRange (exp : Z).

(** [for n := b / unit; n >= unit; n /= unit { div *= unit; exp++ }], with
    the number of turns left as the recursion argument ([None] when they
    run out). *)
Fixpoint byteCount_loop (turns : nat) (n div exp : Z) : option (Z * Z) :=
  match turns with
  | O => None
  | S turns' =>
      if n >=? 1000
      then byteCount_loop turns' (Z.quot n 1000) (wrap_int (div * 1000))
             (wrap_int (exp + 1))
      else Some (div, exp)
  end.

Definition byteCountToString (b : Z) : option byte_count :=
  if b <? 1000 then Some (Bytes (Itoa b ++ " B")%string)
  else
    match byteCount_loop 64 (Z.quot b 1000) 1000 0 with
    | Some (div, exp) =>
        match nth_error ["k"; "M"; "G"]%char (Z.to_nat exp) with
        | Some letter => Some (Scaled b div letter)
        | None => Some (IndexOutOfRange exp)
        end
    | None => None
    end.

(** The tag [prefix.n]. *)
Definition version_tag (prefix : string) (n : Z) : string :=
  (prefix ++ "." ++ Itoa n)%string.

(** The keys of the usage table, which [usageDataUniqueIndex] declares
    unique. *)
Definition usage_keys (g : Server) : list (string * string) :=
  map (fun u => (UsageData.UserId u, UsageData.DeviceId u)) (usage_of g).

(** Entries handled so far for [(userId, deviceId)], as the usage table
    has it. *)
Definition entries_handled (userId deviceId : string) (g : Server) : Z :=
  fold_right Z.add 0
    (map UsageData.NumEntriesHandled
       (filter (usage_matches userId deviceId) (usage_of g))).

(** What the two UPDATE statements of [updateUsageData] make of a row. *)
Definition touched (now numEntries : Z) (userId deviceId : string)
  (u : UsageData.t) : UsageData.t :=
  if 0 <? numEntries
  then count_usage numEntries userId deviceId (touch_usage now userId deviceId u)
  else touch_usage now userId deviceId u.

(** Successive polls of the deletion feed. *)
Definition run_deletion_polls (polls : list Request) (g : Server) : Server :=
  fold_left (fun g r => final (getDeletionRequestsHandler r g)) polls g.

(** The call is a dump submission for the pair. *)
Definition serves (userId requestingDeviceId : string) (c : call) : bool :=
  match c with
  | SubmitDump _ r _ =>
      String.eqb (Query_Get r "user_id") userId
      && String.eqb (Query_Get r "requesting_device_id") requestingDeviceId
  | _ => false
  end.


(** ** Helpers of client/tui/tui.go *)

Module Tui.

Definition max (a b : Z) : Z := if a >? b then a else b.

Definition len (s : string) : Z := Z.of_nat (String.length s).

(** [char == ' ' || char == '-'] *)
Definition breaking (char : ascii) : bool :=
  Ascii.eqb char " " || Ascii.eqb char "-".

(** The loop of [calculateWordBoundaries] over what is left of the input,
    with the index reached, the slice built so far and the flag.  The
    source ranges over runes with their byte offsets; both breaking
    characters are single bytes below 128, and every byte of a longer rune
    is 128 or more, so ranging over bytes appends the same offsets and ends
    with the same flag. *)
Fixpoint boundaries_loop (rest : string) (idx : Z) (ret : list Z)
  (prevWasBreaking : bool) : list Z * bool :=
  match rest with
  | EmptyString => (ret, prevWasBreaking)
  | String char rest' =>
      if breaking char then
        boundaries_loop rest' (idx + 1)
          (if negb prevWasBreaking then ret ++ [idx] else ret) true
      else boundaries_loop rest' (idx + 1) ret false
  end.

Definition calculateWordBoundaries (input : string) : list Z :=
  let (ret, prevWasBreaking) := boundaries_loop input 0 [0] false in
  if negb prevWasBreaking then ret ++ [len input] else ret.

(** [neededColumnWidth[i] = max(neededColumnWidth[i], len(v))]; [None] is
    the index-out-of-range panic. *)
Fixpoint widen (neededColumnWidth : list Z) (i : nat) (v : string)
  : option (list Z) :=
  match neededColumnWidth, i with
  | [], _ => None
  | w :: ws, O => Some (max w (len v) :: ws)
  | w :: ws, S i' =>
      match widen ws i' v with
      | Some ws' => Some (w :: ws')
      | None => None
      end
  end.

(** [for i, v := range row], from index [i] on. *)
Fixpoint widen_row (row : list string) (i : nat) (neededColumnWidth : list Z)
  : option (list Z) :=
  match row with
  | [] => Some neededColumnWidth
  | v :: rest =>
      match widen neededColumnWidth i v with
      | Some widths => widen_row rest (S i) widths
      | None => None
      end
  end.

Fixpoint widen_rows (rows : list (list string)) (neededColumnWidth : list Z)
  : option (list Z) :=
  match rows with
  | [] => Some neededColumnWidth
  | row :: rest =>
      match widen_row row 0 neededColumnWidth with
      | Some widths => widen_rows rest widths
      | None => None
      end
  end.

(** [calculateColumnWidths]; [None] is a run-time panic: [make] with a
    negative length, or an index out of range. *)
Definition calculateColumnWidths (rows : list (list string))
  (numColumns : Z) : option (list Z) :=
  if numColumns <? 0 then None
  else widen_rows rows (repeat 0 (Z.to_nat numColumns)).

(** [strings.Split(s, " ")] *)
Fixpoint Split_space (s : string) : list string :=
  match s with
  | EmptyString => [EmptyString]
  | String ch rest =>
      if Ascii.eqb ch " " then EmptyString :: Split_space rest
      else
        match Split_space rest with
        | piece :: pieces => String ch piece :: pieces
        | [] => [String ch EmptyString]
        end
  end.

Definition splitQueryArray (initialQueryArray : list string) : list string :=
  fold_left (fun splitQueryArray queryChunk =>
               splitQueryArray ++ Split_space queryChunk)
    initialQueryArray [].

End Tui.




Fixpoint has_space (s : string) : bool :=
  match s with
  | EmptyString => false
  | String ch rest => Ascii.eqb ch " " || has_space rest
  end.

(** The entries of a batch that submit starts to process: those before the
    first one whose user has no device, and that one. *)
Fixpoint attempted (g : Server) (entries : list EncHistoryEntry.t)
  : list EncHistoryEntry.t :=
  match entries with
  | [] => []
  | entry :: rest =>
      entry :: (if has_devices g entry then attempted g rest else [])
  end.

(** The entry was sent by device [deviceId] of user [userId]. *)
Definition sent_by (userId deviceId : string) (e : EncHistoryEntry.t) : bool :=
  String.eqb (EncHistoryEntry.UserId e) userId
  && String.eqb (EncHistoryEntry.DeviceId e) deviceId.

(** * Properties *)

(** ** Lists *)

Lemma count_occ_filter {A} (dec : forall x y : A, {x = y} + {x <> y})
  (p : A -> bool) (l : list A) (x : A) :
  count_occ dec (filter p l) x = if p x then count_occ dec l x else 0%nat.
Proof.
  induction l as [|a l IH]; simpl.
  - now destruct (p x).
  - destruct (p a) eqn:Hpa; simpl; destruct (dec a x) as [->|Hne];
      rewrite ?IH; try rewrite Hpa; auto.
Qed.

Lemma filter_nil_iff {A} (p : A -> bool) (l : list A) :
  filter p l = [] <-> forall x, In x l -> p x = false.
Proof.
  induction l as [|a l IH]; simpl.
  - tauto.
  - destruct (p a) eqn:Hpa.
    + split; [discriminate|]. intros H. specialize (H a (or_introl eq_refl)).
      congruence.
    + rewrite IH. split; intros H x; [intros [<-|Hx]|]; auto.
Qed.

Lemma find_ext' {A} (p q : A -> bool) (l : list A) :
  (forall x, p x = q x) -> find p l = find q l.
Proof.
  intros H. induction l as [|a l IH]; simpl; [reflexivity|].
  now rewrite H, IH.
Qed.

Lemma length_zero_nil {A} (l : list A) :
  Nat.eqb (length l) 0 = true <-> l = [].
Proof. destruct l; simpl; split; congruence. Qed.

(** ** Running handlers *)

Lemma bind_returned {A B} (m : handler A) (k : A -> handler B) g g' a :
  m g = (g', Returned a) -> bind m k g = k a g'.
Proof. unfold bind. now intros ->. Qed.

Lemma bind_panicked {A B} (m : handler A) (k : A -> handler B) g g' p :
  m g = (g', Panicked p) -> bind m k g = (g', Panicked p).
Proof. unfold bind. now intros ->. Qed.

Lemma getRequiredQueryParam_present r queryParam g :
  Query_Get r queryParam <> "" ->
  getRequiredQueryParam r queryParam g
  = (g, Returned (Query_Get r queryParam)).
Proof.
  intros H. unfold getRequiredQueryParam.
  destruct (String.eqb_spec (Query_Get r queryParam) ""); [contradiction|].
  reflexivity.
Qed.

Lemma getRequiredQueryParam_missing r queryParam g :
  Query_Get r queryParam = "" ->
  getRequiredQueryParam r queryParam g
  = (g, Panicked (MissingQueryParam queryParam)).
Proof. intros H. unfold getRequiredQueryParam. now rewrite H. Qed.

(** [updateUsageData] returns and writes the usage table only. *)
Lemma updateUsageData_run now userId deviceId numEntries g :
  exists usage,
    updateUsageData now userId deviceId numEntries g
    = (set_usage_data usage g, Returned tt).
Proof.
  unfold updateUsageData, bind, get, modify, ret.
  destruct (Nat.eqb _ 0); [eexists; reflexivity|].
  destruct (0 <? numEntries); eexists; unfold set_usage_data; simpl;
    reflexivity.
Qed.

Lemma for_range_app {A} (xs ys : list A) (body : A -> handler unit) g :
  for_range (xs ++ ys) body g
  = (for_range xs body ;;; for_range ys body) g.
Proof.
  revert g. induction xs as [|x xs IH]; intros g; simpl.
  - reflexivity.
  - unfold bind in *. destruct (body x g) as [g1 [[]|p]]; [|reflexivity].
    apply IH.
Qed.

Ltac run_param :=
  match goal with
  | |- context [bind (getRequiredQueryParam ?r ?k) ?f ?g] =>
      rewrite (bind_returned _ f g _ _
                 (getRequiredQueryParam_present r k g ltac:(assumption)))
  end.

Arguments updateUsageData : simpl never.

(** ** Janitor *)

(** C9. One [cleanDatabase] removes exactly the entry rows whose read count
    exceeds 10 and exactly the deletion requests whose read count exceeds
    100: every other row of those two tables keeps its multiplicity, and the
    Device, UsageData and DumpRequest tables (and the release version) are
    left as they were. *)
Theorem cleanDatabase_frame (g : Server) :
  (forall e,
     count_rows (entries_of (cleanDatabase g)) e
     = if 10 <? EncHistoryEntry.ReadCount e then 0%nat
       else count_rows (entries_of g) e)
  /\ (forall q,
        count_occ DeletionRequest.eq_dec
          (deletion_requests_of (cleanDatabase g)) q
        = if 100 <? DeletionRequest.ReadCount q then 0%nat
          else count_occ DeletionRequest.eq_dec (deletion_requests_of g) q)
  /\ entries_of (cleanDatabase g)
     = filter (fun e => EncHistoryEntry.ReadCount e <=? 10) (entries_of g)
  /\ deletion_requests_of (cleanDatabase g)
     = filter (fun q => DeletionRequest.ReadCount q <=? 100)
         (deletion_requests_of g)
  /\ devices_of (cleanDatabase g) = devices_of g
  /\ usage_of (cleanDatabase g) = usage_of g
  /\ dump_requests_of (cleanDatabase g) = dump_requests_of g
  /\ ReleaseVersion (cleanDatabase g) = ReleaseVersion g.
Proof.
  unfold cleanDatabase, count_rows, entries_of, deletion_requests_of,
    devices_of, usage_of, dump_requests_of; simpl.
  repeat split.
  - intros e. rewrite count_occ_filter. now destruct (10 <? _).
  - intros q. rewrite count_occ_filter. now destruct (100 <? _).
  - apply filter_ext. intros e. rewrite Z.leb_antisym. reflexivity.
  - apply filter_ext. intros q. rewrite Z.leb_antisym. reflexivity.
Qed.

(** ** Registration *)

Lemma app_singleton_neq {A} (l : list A) (x : A) : l ++ [x] <> l.
Proof.
  intros H. apply (f_equal (@length A)) in H. rewrite length_app in H.
  simpl in H. lia.
Qed.

Ltac run_usage :=
  match goal with
  | |- context [updateUsageData ?a ?b ?c ?d ?s] =>
      let usage := fresh "usage" in
      destruct (updateUsageData_run a b c d s) as [usage ->]
  end.

Lemma apiRegisterHandler_run now r g :
  Query_Get r "user_id" <> "" ->
  Query_Get r "device_id" <> "" ->
  let userId := Query_Get r "user_id" in
  let deviceId := Query_Get r "device_id" in
  let g1 :=
    set_devices
      (devices_of g ++ [Device.mk userId deviceId (RemoteAddr r) now]) g in
  let g2 :=
    if 0 <? Z.of_nat (length (find_devices userId g))
    then set_dump_requests
           (dump_requests_of g1 ++ [DumpRequest.mk userId deviceId now]) g1
    else g1 in
  exists usage,
    apiRegisterHandler now r g = (set_usage_data usage g2, Returned tt).
Proof.
  intros Hu Hd. unfold apiRegisterHandler. do 2 run_param.
  unfold bind, get, modify, ret. cbv beta iota zeta.
  destruct (0 <? _); run_usage; eexists; reflexivity.
Qed.

(** C7. A register request that carries both parameters returns without
    panic and appends one Device row, whatever the tables held before (the
    same user and device may be registered already); it appends the
    DumpRequest of the new device exactly when the user had at least one
    Device row before the insertion, and no DumpRequest otherwise. *)
Theorem apiRegisterHandler_seeding (now : Z) (r : Request) (g : Server) :
  Query_Get r "user_id" <> "" ->
  Query_Get r "device_id" <> "" ->
  let userId := Query_Get r "user_id" in
  let deviceId := Query_Get r "device_id" in
  let existingDevicesCount := Z.of_nat (length (find_devices userId g)) in
  let g' := final (apiRegisterHandler now r g) in
  result (apiRegisterHandler now r g) = Returned tt
  /\ devices_of g'
     = devices_of g ++ [Device.mk userId deviceId (RemoteAddr r) now]
  /\ (0 < existingDevicesCount <->
      dump_requests_of g'
      = dump_requests_of g ++ [DumpRequest.mk userId deviceId now])
  /\ (existingDevicesCount = 0 <-> dump_requests_of g' = dump_requests_of g)
  /\ entries_of g' = entries_of g
  /\ deletion_requests_of g' = deletion_requests_of g.
Proof.
  intros Hu Hd userId deviceId existingDevicesCount g'. subst g'.
  destruct (apiRegisterHandler_run now r g Hu Hd) as [usage ->].
  fold userId deviceId existingDevicesCount.
  assert (Hnn : 0 <= existingDevicesCount) by apply Nat2Z.is_nonneg.
  unfold final, result. simpl fst. simpl snd.
  destruct (0 <? existingDevicesCount) eqn:Hc;
    [apply Z.ltb_lt in Hc | apply Z.ltb_ge in Hc];
    (split; [reflexivity|]); (split; [reflexivity|]);
    (split; [|split; [|split; reflexivity]]); simpl;
    split; intros H; try lia; try reflexivity; exfalso.
  - exact (app_singleton_neq _ _ H).
  - symmetry in H. exact (app_singleton_neq _ _ H).
Qed.

(** Registering the same device twice leaves two Device rows and, from the
    second registration, one DumpRequest. *)
Lemma apiRegisterHandler_seeding_witness :
  let r := query_request "u" "A" in
  let g1 := final (apiRegisterHandler 1 r empty_server) in
  let g2 := final (apiRegisterHandler 2 r g1) in
  result (apiRegisterHandler 2 r g1) = Returned tt
  /\ devices_of g2 = [Device.mk "u" "A" "127.0.0.1:1" 1;
                      Device.mk "u" "A" "127.0.0.1:1" 2]
  /\ dump_requests_of g1 = []
  /\ dump_requests_of g2 = [DumpRequest.mk "u" "A" 2].
Proof.
  intros r g1 g2.
  assert (Hu : Query_Get r "user_id" <> "") by (vm_compute; discriminate).
  assert (Hd : Query_Get r "device_id" <> "") by (vm_compute; discriminate).
  destruct (apiRegisterHandler_seeding 2 r g1 Hu Hd)
    as (Hres & Hdev & _ & _).
  split; [exact Hres|].
  split; [exact Hdev|].
  split; reflexivity.
Defined.

(** ** Submission *)

Lemma set_entries_id g : set_entries (entries_of g) g = g.
Proof. destruct g as [[? ? ? ? ?] ?]. reflexivity. Qed.

Lemma fan_out_loop (entry : EncHistoryEntry.t) (devs : list Device.t) g :
  for_range devs
    (fun device =>
       Create_entry
         (EncHistoryEntry.withDeviceId entry (Device.DeviceId device))) g
  = (set_entries
       (entries_of g
        ++ map (fun device =>
                  EncHistoryEntry.withDeviceId entry (Device.DeviceId device))
             devs) g,
     Returned tt).
Proof.
  revert g. induction devs as [|device devs IH]; intros g; simpl.
  - rewrite app_nil_r, set_entries_id. reflexivity.
  - unfold bind. unfold Create_entry at 1, modify. rewrite IH.
    unfold set_entries, entries_of, create_entry; simpl.
    rewrite <- app_assoc. reflexivity.
Qed.

Lemma submit_entry_run now entry g :
  exists usage,
    submit_entry now entry g
    = if has_devices g entry
      then (set_entries (entries_of g ++ fan_out g entry)
              (set_usage_data usage g), Returned tt)
      else (set_usage_data usage g,
            Panicked (NoDevices (EncHistoryEntry.UserId entry))).
Proof.
  unfold submit_entry. unfold bind at 1. run_usage. exists usage.
  unfold bind, get. unfold has_devices.
  change (find_devices (EncHistoryEntry.UserId entry) (set_usage_data usage g))
    with (find_devices (EncHistoryEntry.UserId entry) g).
  destruct (Nat.eqb _ 0); simpl negb; cbv iota.
  - reflexivity.
  - rewrite fan_out_loop. reflexivity.
Qed.

Lemma fan_out_ext g g' :
  devices_of g = devices_of g' -> forall entry, fan_out g entry = fan_out g' entry.
Proof. intros H entry. unfold fan_out, find_devices. now rewrite H. Qed.

Lemma has_devices_ext g g' :
  devices_of g = devices_of g' ->
  forall entry, has_devices g entry = has_devices g' entry.
Proof. intros H entry. unfold has_devices, find_devices. now rewrite H. Qed.

Lemma served_ext g g' :
  devices_of g = devices_of g' ->
  forall entries, served g entries = served g' entries.
Proof.
  intros H entries. induction entries as [|e l IH]; simpl; [reflexivity|].
  rewrite (has_devices_ext g g' H), IH. reflexivity.
Qed.

Lemma apiSubmitHandler_run now entries g :
  exists usage,
    apiSubmitHandler now entries g
    = (set_entries
         (entries_of g ++ flat_map (fan_out g) (served g entries))
         (set_usage_data usage g),
       submit_outcome g entries).
Proof.
  unfold apiSubmitHandler, submit_outcome.
  revert g. induction entries as [|entry entries IH]; intros g.
  - exists (usage_of g). simpl. rewrite app_nil_r.
    destruct g as [[? ? ? ? ?] ?]. reflexivity.
  - cbn [for_range find served]. unfold bind.
    destruct (submit_entry_run now entry g) as [usage ->].
    destruct (has_devices g entry) eqn:Hd; cbn [negb].
    + match goal with |- context [for_range entries _ ?s] =>
        destruct (IH s) as [usage' ->];
        assert (Hdev : devices_of s = devices_of g) by reflexivity
      end.
      exists usage'.
      rewrite (served_ext _ _ Hdev).
      rewrite (flat_map_ext _ _ (fan_out_ext _ _ Hdev)).
      rewrite (find_ext' _ (fun e => negb (has_devices g e)))
        by (intros e; now rewrite (has_devices_ext _ _ Hdev)).
      cbn [flat_map]. unfold set_entries, set_usage_data, entries_of; simpl.
      rewrite <- app_assoc. reflexivity.
    + exists usage. cbn [flat_map]. rewrite app_nil_r.
      unfold set_entries, set_usage_data, entries_of; simpl. reflexivity.
Qed.

Lemma has_devices_true g entry :
  has_devices g entry = true
  <-> find_devices (EncHistoryEntry.UserId entry) g <> [].
Proof.
  unfold has_devices.
  destruct (find_devices (EncHistoryEntry.UserId entry) g); simpl;
    split; congruence.
Qed.

Lemma has_devices_false g entry :
  has_devices g entry = false
  <-> find_devices (EncHistoryEntry.UserId entry) g = [].
Proof.
  unfold has_devices.
  destruct (find_devices (EncHistoryEntry.UserId entry) g); simpl;
    split; congruence.
Qed.

Lemma in_fan_out g entry x :
  In x (fan_out g entry) <->
  exists device,
    In device (devices_of g)
    /\ Device.UserId device = EncHistoryEntry.UserId entry
    /\ x = EncHistoryEntry.withDeviceId entry (Device.DeviceId device).
Proof.
  unfold fan_out, find_devices. rewrite in_map_iff. split.
  - intros (device & <- & Hin). apply filter_In in Hin as [Hin Hu].
    apply String.eqb_eq in Hu. eauto.
  - intros (device & Hin & Hu & ->). exists device. split; [reflexivity|].
    apply filter_In. split; [assumption|]. now apply String.eqb_eq.
Qed.

Lemma served_all g entries :
  (forall entry, In entry entries -> has_devices g entry = true) ->
  served g entries = entries.
Proof.
  induction entries as [|e l IH]; intros H; simpl; [reflexivity|].
  rewrite (H e (or_introl eq_refl)), IH; [reflexivity|].
  intros entry Hin. apply H. now right.
Qed.

Lemma in_served g entries entry :
  In entry (served g entries) -> In entry entries /\ has_devices g entry = true.
Proof.
  induction entries as [|e l IH]; simpl; [tauto|].
  destruct (has_devices g e) eqn:He; simpl; [|tauto].
  intros [<-|Hin]; [tauto|]. destruct (IH Hin). tauto.
Qed.

Lemma submit_outcome_returned g entries :
  (forall entry, In entry entries -> has_devices g entry = true) ->
  submit_outcome g entries = Returned tt.
Proof.
  intros H. unfold submit_outcome.
  destruct (find _ entries) as [e|] eqn:Hf; [|reflexivity].
  apply find_some in Hf as [Hin He]. rewrite (H e Hin) in He. discriminate.
Qed.

Lemma submit_outcome_panicked g entries entry :
  In entry entries -> has_devices g entry = false ->
  exists e,
    In e entries /\ has_devices g e = false
    /\ submit_outcome g entries
       = Panicked (NoDevices (EncHistoryEntry.UserId e)).
Proof.
  intros Hin He. unfold submit_outcome.
  destruct (find _ entries) as [e|] eqn:Hf.
  - apply find_some in Hf as [Hin' He']. exists e.
    apply negb_true_iff in He'. auto.
  - apply (find_none _ _ Hf) in Hin. rewrite He in Hin. discriminate.
Qed.

(** C6. The loop body of submit panics on an entry whose user has no Device
    row, after writing nothing to the entry table.  A submit of a batch
    panics as soon as it reaches such an entry, so it panics whenever the
    batch holds one, and the entry table gains no row of that entry's user;
    a batch in which every entry's user has a Device row returns without
    panic. *)
Theorem apiSubmitHandler_zero_devices (now : Z)
  (entries : list EncHistoryEntry.t) (g : Server) :
  let run := apiSubmitHandler now entries g in
  result run = submit_outcome g entries
  /\ (forall entry,
        find_devices (EncHistoryEntry.UserId entry) g = [] ->
        result (submit_entry now entry g)
        = Panicked (NoDevices (EncHistoryEntry.UserId entry))
        /\ entries_of (final (submit_entry now entry g)) = entries_of g)
  /\ (forall entry,
        In entry entries ->
        find_devices (EncHistoryEntry.UserId entry) g = [] ->
        (exists userId,
           result run = Panicked (NoDevices userId)
           /\ find_devices userId g = [])
        /\ forall x,
             EncHistoryEntry.UserId x = EncHistoryEntry.UserId entry ->
             count_rows (entries_of (final run)) x
             = count_rows (entries_of g) x)
  /\ ((forall entry,
         In entry entries ->
         find_devices (EncHistoryEntry.UserId entry) g <> []) ->
      result run = Returned tt).
Proof.
  intros run. subst run.
  destruct (apiSubmitHandler_run now entries g) as [usage ->].
  unfold result, final; cbn [fst snd].
  split; [reflexivity|]. split; [|split].
  - intros entry Hnone.
    destruct (submit_entry_run now entry g) as [usage' ->].
    apply has_devices_false in Hnone. rewrite Hnone. split; reflexivity.
  - intros entry Hin Hnone. split.
    + apply has_devices_false in Hnone.
      destruct (submit_outcome_panicked g entries entry Hin Hnone)
        as (e & _ & He & ->).
      exists (EncHistoryEntry.UserId e). split; [reflexivity|].
      now apply has_devices_false.
    + intros x Hx.
      change (entries_of (set_entries ?l _)) with l.
      unfold count_rows. rewrite count_occ_app.
      replace (count_occ _ (flat_map _ _) x) with 0%nat; [lia|].
      symmetry. apply count_occ_not_In. intros Hx'.
      apply in_flat_map in Hx' as (e & He & Hxe).
      apply in_served in He as [_ He]. apply has_devices_true in He.
      apply in_fan_out in Hxe as (device & _ & Hu & ->).
      apply He. unfold EncHistoryEntry.withDeviceId in Hx; simpl in Hx.
      rewrite Hx. exact Hnone.
  - intros Hall. apply submit_outcome_returned.
    intros entry Hin. apply has_devices_true. auto.
Qed.

(** On a server without any device, a submit panics and stores nothing;
    once the user has registered a device, the same submit returns. *)
Lemma apiSubmitHandler_zero_devices_witness :
  let entry := EncHistoryEntry.mk "payload" "A" "u" 7 0 in
  let g := final (apiRegisterHandler 1 (query_request "u" "A") empty_server) in
  (result (apiSubmitHandler 2 [entry] empty_server)
   = Panicked (NoDevices "u")
   /\ count_rows (entries_of (final (apiSubmitHandler 2 [entry] empty_server)))
        entry = 0%nat)
  /\ result (apiSubmitHandler 2 [entry] g) = Returned tt.
Proof.
  intros entry g.
  destruct (apiSubmitHandler_zero_devices 2 [entry] empty_server)
    as (Hres & _ & Hzero & _).
  destruct (apiSubmitHandler_zero_devices 2 [entry] g) as (_ & _ & _ & Hok).
  split; [split|].
  - rewrite Hres. reflexivity.
  - destruct (Hzero entry (or_introl eq_refl) eq_refl) as [_ Hcount].
    rewrite (Hcount entry eq_refl). reflexivity.
  - apply Hok. intros e [<-|[]]. vm_compute. discriminate.
Defined.

Lemma withDeviceId_inj entry d d' :
  EncHistoryEntry.withDeviceId entry d = EncHistoryEntry.withDeviceId entry d'
  -> d = d'.
Proof. unfold EncHistoryEntry.withDeviceId. congruence. Qed.

Lemma count_fan_out g entry deviceId :
  count_rows (fan_out g entry) (EncHistoryEntry.withDeviceId entry deviceId)
  = registrations g (EncHistoryEntry.UserId entry) deviceId.
Proof.
  unfold count_rows, fan_out, registrations.
  induction (find_devices (EncHistoryEntry.UserId entry) g) as [|dev l IH];
    cbn [map count_occ filter length]; [reflexivity|].
  destruct (EncHistoryEntry.eq_dec
              (EncHistoryEntry.withDeviceId entry (Device.DeviceId dev))
              (EncHistoryEntry.withDeviceId entry deviceId)) as [Heq|Hne];
    destruct (String.eqb_spec (Device.DeviceId dev) deviceId) as [Hd|Hd];
    cbn [length]; rewrite IH; try reflexivity.
  - apply withDeviceId_inj in Heq. contradiction.
  - subst deviceId. contradiction.
Qed.

(** C3 (as the code has it). A submit whose every entry belongs to a user
    with at least one Device row returns without panic and appends, for
    each entry in turn, one copy per Device row of the entry's user, with
    the copy's device id set to that row's device id, and nothing else.  The
    mailbox of a device therefore gains as many copies of an entry as the
    device has Device rows for that user: exactly one when the device is
    registered once. *)
Theorem apiSubmitHandler_fan_out (now : Z)
  (entries : list EncHistoryEntry.t) (g : Server) :
  (forall entry,
     In entry entries ->
     find_devices (EncHistoryEntry.UserId entry) g <> []) ->
  let run := apiSubmitHandler now entries g in
  result run = Returned tt
  /\ entries_of (final run) = entries_of g ++ flat_map (fan_out g) entries
  /\ devices_of (final run) = devices_of g
  /\ (forall entry,
        length (fan_out g entry)
        = length (find_devices (EncHistoryEntry.UserId entry) g))
  /\ (forall entry x,
        In x (fan_out g entry) <->
        exists device,
          In device (devices_of g)
          /\ Device.UserId device = EncHistoryEntry.UserId entry
          /\ x = EncHistoryEntry.withDeviceId entry (Device.DeviceId device))
  /\ (forall entry deviceId,
        entries = [entry] ->
        count_rows (entries_of (final run))
          (EncHistoryEntry.withDeviceId entry deviceId)
        = (count_rows (entries_of g)
             (EncHistoryEntry.withDeviceId entry deviceId)
           + registrations g (EncHistoryEntry.UserId entry) deviceId)%nat).
Proof.
  intros Hall run. subst run.
  destruct (apiSubmitHandler_run now entries g) as [usage ->].
  unfold result, final; cbn [fst snd].
  assert (Hd : forall entry, In entry entries -> has_devices g entry = true)
    by (intros entry Hin; apply has_devices_true; auto).
  rewrite (served_all g entries Hd).
  split; [now apply submit_outcome_returned|].
  split; [reflexivity|]. split; [reflexivity|].
  split; [intros entry; apply length_map|].
  split; [intros entry x; apply in_fan_out|].
  intros entry deviceId ->.
  change (entries_of (set_entries ?l _)) with l.
  cbn [flat_map]. rewrite app_nil_r.
  unfold count_rows. rewrite count_occ_app. f_equal. apply count_fan_out.
Qed.

(** Three devices registered once each: one submitted entry lands once in
    each of the three mailboxes. *)
Lemma apiSubmitHandler_fan_out_witness :
  let g1 := final (apiRegisterHandler 1 (query_request "u" "A") empty_server) in
  let g2 := final (apiRegisterHandler 2 (query_request "u" "B") g1) in
  let g := final (apiRegisterHandler 3 (query_request "u" "C") g2) in
  let entry := EncHistoryEntry.mk "payload" "A" "u" 7 0 in
  entries_of (final (apiSubmitHandler 4 [entry] g))
  = [EncHistoryEntry.withDeviceId entry "A";
     EncHistoryEntry.withDeviceId entry "B";
     EncHistoryEntry.withDeviceId entry "C"].
Proof.
  intros g1 g2 g entry.
  assert (H : forall e, In e [entry] ->
                find_devices (EncHistoryEntry.UserId e) g <> []).
  { intros e [<-|[]]. vm_compute. discriminate. }
  destruct (apiSubmitHandler_fan_out 4 [entry] g H) as (_ & -> & _).
  reflexivity.
Defined.

(** A device that registered twice has two Device rows, and one submitted
    entry is stored twice in its mailbox.  In a batch that opens with an
    entry of a user without device, the entry that follows is not stored at
    all, although its user has a device. *)
Lemma fan_out_duplicate_registration :
  let r := query_request "u" "A" in
  let g := final (apiRegisterHandler 2 r
                    (final (apiRegisterHandler 1 r empty_server))) in
  let entry := EncHistoryEntry.mk "payload" "A" "u" 7 0 in
  let run := apiSubmitHandler 3 [entry] g in
  (forall device, In device (find_devices "u" g) -> Device.DeviceId device = "A")
  /\ find_devices "u" g <> []
  /\ result run = Returned tt
  /\ count_rows (entries_of (final run)) (EncHistoryEntry.withDeviceId entry "A")
     = 2%nat
  /\ ~ (count_rows (entries_of (final run))
          (EncHistoryEntry.withDeviceId entry "A") = 1%nat)
  /\ (let orphan := EncHistoryEntry.mk "payload" "Z" "nobody" 6 0 in
      let aborted := apiSubmitHandler 3 [orphan; entry] g in
      result aborted = Panicked (NoDevices "nobody")
      /\ entries_of (final aborted) = []).
Proof.
  intros r g entry run.
  split; [|split; [|split; [|split; [|split]]]].
  - intros device [<-|[<-|[]]]; reflexivity.
  - vm_compute. discriminate.
  - reflexivity.
  - vm_compute. reflexivity.
  - vm_compute. discriminate.
  - split; reflexivity.
Qed.

(** ** Dump exchange *)

Lemma submitDump_tx_reject userId requestingDeviceId entries tx :
  (exists entry,
     In entry entries /\ EncHistoryEntry.UserId entry <> userId) ->
  exists tx' entryUserId,
    submitDump_tx userId requestingDeviceId entries tx
    = (tx', Some (TransactionFailed entryUserId userId))
    /\ entryUserId <> userId.
Proof.
  revert tx. induction entries as [|e l IH]; intros tx (entry & Hin & Hne).
  - destruct Hin.
  - cbn [submitDump_tx].
    change (EncHistoryEntry.UserId
              (EncHistoryEntry.withDeviceId e requestingDeviceId))
      with (EncHistoryEntry.UserId e).
    destruct (String.eqb_spec (EncHistoryEntry.UserId e) userId) as [He|He];
      cbn [negb].
    + apply IH. destruct Hin as [<-|Hin]; [contradiction|]. eauto.
    + eauto.
Qed.

Lemma submitDump_tx_accept userId requestingDeviceId entries tx :
  (forall entry, In entry entries -> EncHistoryEntry.UserId entry = userId) ->
  submitDump_tx userId requestingDeviceId entries tx
  = (mkDB (enc_history_entries tx
           ++ map (fun e => EncHistoryEntry.withDeviceId e requestingDeviceId)
                entries)
       (devices tx) (usage_data tx) (dump_requests tx) (deletion_requests tx),
     None).
Proof.
  revert tx. induction entries as [|e l IH]; intros tx Hall.
  - cbn. rewrite app_nil_r. destruct tx; reflexivity.
  - cbn [submitDump_tx map].
    change (EncHistoryEntry.UserId
              (EncHistoryEntry.withDeviceId e requestingDeviceId))
      with (EncHistoryEntry.UserId e).
    rewrite (Hall e (or_introl eq_refl)), String.eqb_refl. cbn [negb].
    rewrite IH by (intros entry Hin; apply Hall; now right).
    unfold create_entry; cbn. rewrite <- app_assoc. reflexivity.
Qed.

Lemma batch_users_cases (userId : string) (entries : list EncHistoryEntry.t) :
  (forall entry, In entry entries -> EncHistoryEntry.UserId entry = userId)
  \/ (exists entry,
        In entry entries /\ EncHistoryEntry.UserId entry <> userId).
Proof.
  induction entries as [|e l [IH|IH]].
  - left. intros entry [].
  - destruct (string_dec (EncHistoryEntry.UserId e) userId) as [He|He].
    + left. intros entry [<-|Hin]; auto.
    + right. exists e. split; [now left|assumption].
  - right. destruct IH as (entry & Hin & Hne). exists entry.
    split; [now right|assumption].
Qed.

(** C4. A dump submission that carries its three parameters and whose batch
    holds an entry of another user than the [user_id] parameter panics with
    the transaction's error, and leaves every table as it was: no entry row
    is inserted (the rows created before the offending entry are rolled
    back) and no DumpRequest row is deleted. *)
Theorem apiSubmitDumpHandler_tenant_isolation (now : Z) (r : Request)
  (entries : list EncHistoryEntry.t) (g : Server) :
  Query_Get r "user_id" <> "" ->
  Query_Get r "source_device_id" <> "" ->
  Query_Get r "requesting_device_id" <> "" ->
  (exists entry,
     In entry entries
     /\ EncHistoryEntry.UserId entry <> Query_Get r "user_id") ->
  let run := apiSubmitDumpHandler now r entries g in
  (exists entryUserId,
     result run
     = Panicked (TransactionFailed entryUserId (Query_Get r "user_id"))
     /\ entryUserId <> Query_Get r "user_id")
  /\ final run = g
  /\ entries_of (final run) = entries_of g
  /\ dump_requests_of (final run) = dump_requests_of g.
Proof.
  intros Hu Hs Hq Hbad run. subst run.
  unfold apiSubmitDumpHandler. do 3 run_param.
  destruct (submitDump_tx_reject _ (Query_Get r "requesting_device_id")
              _ (GLOBAL_DB g) Hbad) as (tx' & entryUserId & Htx & Hne).
  unfold bind, Transaction. rewrite Htx. unfold raise, result, final.
  cbn [fst snd]. eauto 6.
Qed.

(** A batch of two entries, the second of another user: the first row is
    created inside the transaction, and none is left afterwards. *)
Lemma apiSubmitDumpHandler_tenant_isolation_witness :
  let g1 := final (apiRegisterHandler 1 (query_request "u" "A") empty_server) in
  let g := final (apiRegisterHandler 2 (query_request "u" "B") g1) in
  let mine := EncHistoryEntry.mk "mine" "A" "u" 7 0 in
  let other := EncHistoryEntry.mk "other" "A" "v" 8 0 in
  let run := apiSubmitDumpHandler 3 (dump_request "u" "A" "B") [mine; other] g in
  enc_history_entries
    (fst (submitDump_tx "u" "B" [mine; other] (GLOBAL_DB g)))
  = [EncHistoryEntry.withDeviceId mine "B"]
  /\ panicked run = true
  /\ entries_of (final run) = []
  /\ dump_requests_of (final run) = [DumpRequest.mk "u" "B" 2].
Proof.
  intros g1 g mine other run.
  assert (Hbad : exists entry,
             In entry [mine; other]
             /\ EncHistoryEntry.UserId entry
                <> Query_Get (dump_request "u" "A" "B") "user_id").
  { exists other. split; [right; left; reflexivity|]. vm_compute. discriminate. }
  destruct (apiSubmitDumpHandler_tenant_isolation 3 (dump_request "u" "A" "B")
              [mine; other] g
              ltac:(vm_compute; discriminate) ltac:(vm_compute; discriminate)
              ltac:(vm_compute; discriminate) Hbad)
    as ((entryUserId & Hres & _) & _ & Hent & Hdump).
  split; [reflexivity|]. split; [|split].
  - unfold panicked. fold run in Hres. unfold result in Hres.
    rewrite Hres. reflexivity.
  - fold run in Hent. rewrite Hent. reflexivity.
  - fold run in Hdump. rewrite Hdump. reflexivity.
Defined.

(** ** Delivery *)

Lemma filter_filter {A} (p q : A -> bool) (l : list A) :
  filter p (filter q l) = filter (fun x => q x && p x) l.
Proof.
  induction l as [|a l IH]; simpl; [reflexivity|].
  destruct (q a); simpl; [destruct (p a)|]; now rewrite IH.
Qed.

Lemma filter_true {A} (l : list A) : filter (fun _ => true) l = l.
Proof. induction l as [|a l IH]; simpl; [reflexivity|now rewrite IH]. Qed.

Lemma apply_pending_loop (requests : list DeletionRequest.t) g :
  for_range requests
    (fun request => _ <- applyDeletionRequestsToBackend request ;; ret tt) g
  = (set_entries
       (filter (fun e => negb (existsb (fun q => deletion_matches q e) requests))
          (entries_of g)) g,
     Returned tt).
Proof.
  revert g. induction requests as [|q l IH]; intros g.
  - cbn [for_range existsb negb]. rewrite filter_true, set_entries_id.
    reflexivity.
  - cbn [for_range existsb].
    unfold bind at 1. unfold bind at 1.
    unfold applyDeletionRequestsToBackend at 1.
    unfold bind, get, modify, ret. rewrite IH.
    change (entries_of (set_entries ?x _)) with x.
    rewrite filter_filter.
    rewrite (filter_ext _ (fun e => negb (deletion_matches q e
               || existsb (fun q0 => deletion_matches q0 e) l)))
      by (intros e; now rewrite negb_orb).
    f_equal.
Qed.

Lemma apiQueryHandler_run now r g :
  Query_Get r "user_id" <> "" ->
  Query_Get r "device_id" <> "" ->
  let userId := Query_Get r "user_id" in
  let deviceId := Query_Get r "device_id" in
  exists usage,
    apiQueryHandler now r g
    = (set_entries (query_entries userId deviceId g) (set_usage_data usage g),
       Returned (filter (in_window deviceId) (query_entries userId deviceId g))).
Proof.
  intros Hu Hd userId deviceId. unfold apiQueryHandler. do 2 run_param.
  fold userId deviceId.
  unfold bind at 1. run_usage. exists usage.
  unfold bind at 1, modify at 1. unfold bind at 1, get at 1.
  unfold bind at 1. rewrite apply_pending_loop.
  unfold bind, get, ret. reflexivity.
Qed.

Lemma apiQueryHandler_missing now r g :
  Query_Get r "user_id" = "" \/ Query_Get r "device_id" = "" ->
  exists p, apiQueryHandler now r g = (g, Panicked p).
Proof.
  intros H. unfold apiQueryHandler.
  destruct (String.eqb_spec (Query_Get r "user_id") "") as [Hu|Hu].
  - rewrite (bind_panicked _ _ _ _ _ (getRequiredQueryParam_missing _ _ _ Hu)).
    eauto.
  - run_param. destruct H as [H|H]; [contradiction|].
    rewrite (bind_panicked _ _ _ _ _ (getRequiredQueryParam_missing _ _ _ H)).
    eauto.
Qed.

Lemma deletion_matches_spec q e :
  deletion_matches q e = true <->
  exists message,
    In message (DeletionRequest.Messages q)
    /\ EncHistoryEntry.UserId e = DeletionRequest.UserId q
    /\ EncHistoryEntry.DeviceId e = MessageIdentifier.DeviceId message
    /\ EncHistoryEntry.Date e = MessageIdentifier.Date message.
Proof.
  unfold deletion_matches, message_matches. rewrite existsb_exists.
  split; intros (message & Hin & H); exists message; (split; [assumption|]).
  - apply andb_true_iff in H as [H Hdate].
    apply andb_true_iff in H as [Huser Hdev].
    apply String.eqb_eq in Huser, Hdev. apply Z.eqb_eq in Hdate. auto.
  - destruct H as (Huser & Hdev & Hdate).
    rewrite Huser, Hdev, Hdate, !String.eqb_refl, Z.eqb_refl. reflexivity.
Qed.

Lemma named_by_pending_user userId deviceId g e :
  named_by_pending userId deviceId g e = true ->
  EncHistoryEntry.UserId e = userId.
Proof.
  unfold named_by_pending, pending_deletions. rewrite existsb_exists.
  intros (q & Hin & Hm). apply filter_In in Hin as [_ Hq].
  apply andb_true_iff in Hq as [_ Hq]. apply String.eqb_eq in Hq.
  apply deletion_matches_spec in Hm as (_ & _ & Hu & _). congruence.
Qed.




Lemma apiBootstrapHandler_run now r g :
  Query_Get r "user_id" <> "" ->
  Query_Get r "device_id" <> "" ->
  exists usage,
    apiBootstrapHandler now r g
    = (set_usage_data usage g,
       Returned
         (filter (fun e =>
                    String.eqb (EncHistoryEntry.UserId e)
                      (Query_Get r "user_id"))
            (entries_of g))).
Proof.
  intros Hu Hd. unfold apiBootstrapHandler. do 2 run_param.
  unfold bind at 1. run_usage. exists usage. reflexivity.
Qed.

Lemma increment_own_row deviceId e :
  EncHistoryEntry.DeviceId e = deviceId ->
  increment_read_count deviceId e
  = EncHistoryEntry.withReadCount e (EncHistoryEntry.ReadCount e + 1).
Proof.
  intros H. unfold increment_read_count. now rewrite H, String.eqb_refl.
Qed.

Lemma not_named_by_pending userId deviceId g e :
  (forall q,
     In q (deletion_requests_of g) ->
     DeletionRequest.DestinationDeviceId q = deviceId ->
     deletion_matches q e = false) ->
  named_by_pending userId deviceId g e = false.
Proof.
  intros H. unfold named_by_pending.
  destruct (existsb _ _) eqn:Hex; [|reflexivity].
  apply existsb_exists in Hex as (q & Hin & Hm).
  unfold pending_deletions in Hin. apply filter_In in Hin as [Hin Hq].
  apply andb_true_iff in Hq as [Hq _]. apply String.eqb_eq in Hq.
  rewrite (H q Hin Hq) in Hm. discriminate.
Qed.

Lemma query_keeps_unnamed now r g e :
  Query_Get r "user_id" <> "" ->
  Query_Get r "device_id" <> "" ->
  In e (entries_of g) ->
  EncHistoryEntry.DeviceId e = Query_Get r "device_id" ->
  unnamed (Query_Get r "device_id") g e ->
  let g' := final (apiQueryHandler now r g) in
  let e' := EncHistoryEntry.withReadCount e (EncHistoryEntry.ReadCount e + 1) in
  In e' (entries_of g')
  /\ unnamed (Query_Get r "device_id") g' e'.
Proof.
  intros Hu Hd Hin He Hun g' e'. subst g' e'.
  destruct (apiQueryHandler_run now r g Hu Hd) as [usage ->].
  unfold final; cbn [fst]. split.
  - change (entries_of (set_entries ?x _)) with x.
    unfold query_entries. apply filter_In. split.
    + rewrite <- (increment_own_row _ e He). now apply in_map.
    + rewrite not_named_by_pending; [reflexivity|].
      intros q Hq Hdest. exact (Hun q Hq Hdest).
  - intros q Hq Hdest. exact (Hun q Hq Hdest).
Qed.

Lemma polls_keep_unnamed deviceId polls : forall g e,
  deviceId <> "" ->
  (forall p, In p polls ->
     Query_Get (snd p) "device_id" = deviceId
     /\ Query_Get (snd p) "user_id" <> "") ->
  In e (entries_of g) ->
  EncHistoryEntry.DeviceId e = deviceId ->
  unnamed deviceId g e ->
  let e' :=
    EncHistoryEntry.withReadCount e
      (EncHistoryEntry.ReadCount e + Z.of_nat (length polls)) in
  In e' (entries_of (run_polls polls g))
  /\ unnamed deviceId (run_polls polls g) e'.
Proof.
  induction polls as [|p polls IH]; intros g e Hd Hall Hin He Hun.
  - cbn [length Z.of_nat run_polls fold_left]. rewrite Z.add_0_r.
    destruct e; split; assumption.
  - cbn [run_polls fold_left].
    destruct (Hall p (or_introl eq_refl)) as [Hpd Hpu].
    assert (Hpd' : Query_Get (snd p) "device_id" <> "") by congruence.
    rewrite <- Hpd in He, Hun.
    destruct (query_keeps_unnamed (fst p) (snd p) g e Hpu Hpd' Hin He Hun)
      as [Hin1 Hun1].
    rewrite Hpd in Hun1.
    specialize (IH _ _ Hd (fun q Hq => Hall q (or_intror Hq)) Hin1
                  (eq_trans He Hpd) Hun1).
    cbn [length]. rewrite Nat2Z.inj_succ.
    unfold EncHistoryEntry.withReadCount in IH |- *. cbn in IH |- *.
    replace (EncHistoryEntry.ReadCount e + Z.succ (Z.of_nat (length polls)))
      with (EncHistoryEntry.ReadCount e + 1 + Z.of_nat (length polls)) by lia.
    exact IH.
Qed.

(** The increments of a query stay within the column when the mailbox has
    room for them. *)
Lemma increment_read_count_fits deviceId slack x :
  0 <= slack ->
  minInt <= EncHistoryEntry.ReadCount x <= maxInt ->
  (EncHistoryEntry.DeviceId x = deviceId ->
   EncHistoryEntry.ReadCount x + (slack + 1) <= maxInt) ->
  minInt <= EncHistoryEntry.ReadCount (increment_read_count deviceId x)
         <= maxInt
  /\ (EncHistoryEntry.DeviceId (increment_read_count deviceId x) = deviceId ->
      EncHistoryEntry.ReadCount (increment_read_count deviceId x) + slack
      <= maxInt).
Proof.
  intros Hs Hrange Hroom. unfold increment_read_count.
  destruct (String.eqb_spec (EncHistoryEntry.DeviceId x) deviceId) as [Hd|Hd].
  - specialize (Hroom Hd). destruct x; cbn in *. split; [lia|]. intros _. lia.
  - split; [exact Hrange|]. intros H. contradiction.
Qed.

Lemma read_counts_fit_weaken slack slack' deviceId g :
  slack' <= slack ->
  read_counts_fit slack deviceId g ->
  read_counts_fit slack' deviceId g.
Proof.
  intros Hle Hfit x Hx. destruct (Hfit x Hx) as [Hrange Hroom].
  split; [exact Hrange|]. intros Hd. specialize (Hroom Hd). lia.
Qed.

Lemma apiQueryHandler_fits now r g slack :
  0 <= slack ->
  read_counts_fit (slack + 1) (Query_Get r "device_id") g ->
  read_counts_fit slack (Query_Get r "device_id")
    (final (apiQueryHandler now r g)).
Proof.
  intros Hs Hfit.
  destruct (String.eqb_spec (Query_Get r "user_id") "") as [Hu|Hu];
    [|destruct (String.eqb_spec (Query_Get r "device_id") "") as [Hd|Hd]].
  - destruct (apiQueryHandler_missing now r g (or_introl Hu)) as [p ->].
    unfold final; cbn [fst].
    apply (read_counts_fit_weaken (slack + 1)); [lia|exact Hfit].
  - destruct (apiQueryHandler_missing now r g (or_intror Hd)) as [p ->].
    unfold final; cbn [fst].
    apply (read_counts_fit_weaken (slack + 1)); [lia|exact Hfit].
  - destruct (apiQueryHandler_run now r g Hu Hd) as [usage ->].
    unfold final; cbn [fst]. intros x Hx.
    change (entries_of (set_entries ?l _)) with l in Hx.
    unfold query_entries in Hx. apply filter_In in Hx as [Hx _].
    apply in_map_iff in Hx as (y & <- & Hy).
    destruct (Hfit y Hy) as [Hrange Hroom].
    apply increment_read_count_fits; assumption.
Qed.

Lemma run_polls_fits deviceId polls : forall g slack,
  0 <= slack ->
  (forall p, In p polls -> Query_Get (snd p) "device_id" = deviceId) ->
  read_counts_fit (Z.of_nat (length polls) + slack) deviceId g ->
  read_counts_fit slack deviceId (run_polls polls g).
Proof.
  induction polls as [|p polls IH]; intros g slack Hs Hall Hfit.
  - cbn [run_polls fold_left]. cbn [length Z.of_nat] in Hfit.
    rewrite Z.add_0_l in Hfit. exact Hfit.
  - cbn [run_polls fold_left].
    apply IH; [exact Hs|intros q Hq; apply Hall; right; exact Hq|].
    rewrite <- (Hall p (or_introl eq_refl)).
    apply apiQueryHandler_fits; [lia|].
    rewrite (Hall p (or_introl eq_refl)).
    cbn [length] in Hfit. rewrite Nat2Z.inj_succ in Hfit.
    replace (Z.of_nat (length polls) + slack + 1)
      with (Z.succ (Z.of_nat (length polls)) + slack) by lia.
    exact Hfit.
Qed.

(** C2 (as the code has it). A query increments the read counts of the
    mailbox, removes the rows named by the deletion requests pending for the
    caller on that mailbox, and returns exactly the rows of the mailbox left
    with a read count below 5.  In a store whose read counts are those of
    the 64-bit column, with room in mailbox [D] for the [k] increments, and
    for a row stored in mailbox [D] with read count 0 that no deletion
    request stored for [D] names: after [k-1] earlier polls of [D], poll
    [k] finds the row with read count [k], returns it when [k <= 4] and not
    when [k >= 5]; the row stays stored, a bootstrap of its user returns
    it, the janitor keeps it exactly while [k <= 10], and every read count
    stored after poll [k] is still one of the column. *)
Theorem apiQueryHandler_window (now : Z) (r : Request)
  (polls : list (Z * Request)) (g : Server) (e : EncHistoryEntry.t) :
  Query_Get r "user_id" <> "" ->
  Query_Get r "device_id" <> "" ->
  (forall p, In p polls ->
     Query_Get (snd p) "device_id" = Query_Get r "device_id"
     /\ Query_Get (snd p) "user_id" <> "") ->
  In e (entries_of g) ->
  EncHistoryEntry.DeviceId e = Query_Get r "device_id" ->
  EncHistoryEntry.ReadCount e = 0 ->
  unnamed (Query_Get r "device_id") g e ->
  read_counts_fit (Z.of_nat (length polls) + 1) (Query_Get r "device_id") g ->
  let deviceId := Query_Get r "device_id" in
  let k := Z.of_nat (length polls) + 1 in
  let before := run_polls polls g in
  let run := apiQueryHandler now r before in
  let row := EncHistoryEntry.withReadCount e k in
  exists rows,
    result run = Returned rows
    /\ entries_of (final run)
       = query_entries (Query_Get r "user_id") deviceId before
    /\ (forall x,
          In x rows <->
          In x (entries_of (final run))
          /\ EncHistoryEntry.DeviceId x = deviceId
          /\ EncHistoryEntry.ReadCount x < 5)
    /\ In row (entries_of (final run))
    /\ (k <= 4 -> In row rows)
    /\ (5 <= k -> ~ In row rows)
    /\ (forall now' rb,
          Query_Get rb "user_id" = EncHistoryEntry.UserId e ->
          Query_Get rb "user_id" <> "" ->
          Query_Get rb "device_id" <> "" ->
          exists all,
            result (apiBootstrapHandler now' rb (final run)) = Returned all
            /\ In row all)
    /\ (In row (entries_of (cleanDatabase (final run))) <-> k <= 10)
    /\ read_counts_fit 0 deviceId (final run).
Proof.
  intros Hu Hd Hall Hin He Hrc Hun Hfit deviceId k before run row.
  destruct (polls_keep_unnamed deviceId polls g e Hd Hall Hin He Hun)
    as [Hin1 Hun1].
  rewrite Hrc, Z.add_0_l in Hin1, Hun1.
  destruct (query_keeps_unnamed now r before _ Hu Hd Hin1 He Hun1)
    as [Hin2 _].
  cbn [EncHistoryEntry.withReadCount EncHistoryEntry.ReadCount] in Hin2.
  change (In row (entries_of (final run))) in Hin2.
  assert (Hrun := apiQueryHandler_run now r before Hu Hd).
  cbv zeta in Hrun. destruct Hrun as [usage Hrun].
  fold run deviceId in Hrun.
  exists (filter (in_window deviceId)
            (query_entries (Query_Get r "user_id") deviceId before)).
  assert (Hent : entries_of (final run)
                 = query_entries (Query_Get r "user_id") deviceId before)
    by (rewrite Hrun; reflexivity).
  assert (Hwin : forall x,
             In x (filter (in_window deviceId)
                     (query_entries (Query_Get r "user_id") deviceId before))
             <-> In x (entries_of (final run))
                 /\ EncHistoryEntry.DeviceId x = deviceId
                 /\ EncHistoryEntry.ReadCount x < 5).
  { intros x. rewrite filter_In, Hent. unfold in_window.
    rewrite andb_true_iff, String.eqb_eq, Z.ltb_lt. reflexivity. }
  split; [rewrite Hrun; reflexivity|].
  split; [exact Hent|]. split; [exact Hwin|]. split; [exact Hin2|].
  split; [|split; [|split; [|split]]].
  - intros Hk. apply Hwin. split; [exact Hin2|]. split; [exact He|].
    subst row; cbn. lia.
  - intros Hk Hrow. apply Hwin in Hrow as (_ & _ & Hlt).
    subst row; cbn in Hlt. lia.
  - intros now' rb Hbu Hbu' Hbd.
    destruct (apiBootstrapHandler_run now' rb (final run) Hbu' Hbd)
      as [usage' ->].
    eexists. split; [reflexivity|]. apply filter_In. split; [exact Hin2|].
    rewrite Hbu. subst row; cbn. apply String.eqb_refl.
  - unfold cleanDatabase, entries_of at 1; cbn.
    fold (entries_of (final run)). rewrite filter_In.
    subst row; cbn. split.
    + intros [_ H]. apply negb_true_iff, Z.ltb_ge in H. exact H.
    + intros H. split; [exact Hin2|]. apply negb_true_iff, Z.ltb_ge. exact H.
  - subst run deviceId. apply apiQueryHandler_fits; [lia|].
    apply run_polls_fits; [lia|intros p Hp; apply (Hall p Hp)|].
    rewrite Z.add_0_l. exact Hfit.
Qed.

(** One device, one submitted entry, no deletion request: the fourth poll
    still returns the row, now with read count 4, and the fifth does not. *)
Lemma apiQueryHandler_window_witness :
  let g1 := final (apiRegisterHandler 1 (query_request "u" "A") empty_server) in
  let g := final (apiSubmitHandler 2 [late_entry] g1) in
  let poll := (3, query_request "u" "A") in
  (exists rows,
     result (apiQueryHandler 3 (query_request "u" "A")
               (run_polls [poll; poll; poll] g)) = Returned rows
     /\ In (EncHistoryEntry.withReadCount late_entry 4) rows)
  /\ (exists rows,
        result (apiQueryHandler 3 (query_request "u" "A")
                  (run_polls [poll; poll; poll; poll] g)) = Returned rows
        /\ ~ In (EncHistoryEntry.withReadCount late_entry 5) rows).
Proof.
  intros g1 g poll.
  assert (Hu : Query_Get (query_request "u" "A") "user_id" <> "")
    by (vm_compute; discriminate).
  assert (Hd : Query_Get (query_request "u" "A") "device_id" <> "")
    by (vm_compute; discriminate).
  assert (Hall : forall n p, In p (repeat poll n) ->
            Query_Get (snd p) "device_id"
            = Query_Get (query_request "u" "A") "device_id"
            /\ Query_Get (snd p) "user_id" <> "").
  { intros n p Hp. apply repeat_spec in Hp. subst p. split; [reflexivity|].
    exact Hu. }
  assert (Hin : In late_entry (entries_of g)) by (left; reflexivity).
  assert (Hun : unnamed (Query_Get (query_request "u" "A") "device_id") g
                  late_entry) by (intros q []).
  assert (Hfit : forall slack, slack <= 5 ->
            read_counts_fit slack
              (Query_Get (query_request "u" "A") "device_id") g).
  { intros slack Hslack x [<-|[]]. cbn. unfold minInt, maxInt.
    split; [lia|]. intros _. lia. }
  split.
  - destruct (apiQueryHandler_window 3 (query_request "u" "A")
                [poll; poll; poll] g late_entry Hu Hd (Hall 3%nat) Hin
                eq_refl eq_refl Hun (Hfit 4 ltac:(lia)))
      as (rows & Hres & _ & _ & _ & Hret & _).
    exists rows. split; [exact Hres|]. apply Hret. cbn. lia.
  - destruct (apiQueryHandler_window 3 (query_request "u" "A")
                [poll; poll; poll; poll] g late_entry Hu Hd (Hall 4%nat) Hin
                eq_refl eq_refl Hun (Hfit 5 ltac:(lia)))
      as (rows & Hres & _ & _ & _ & _ & Hexcl & _).
    exists rows. split; [exact Hres|]. apply Hexcl. cbn. lia.
Defined.

(** In [late_entry_state] the row of mailbox [A] was created with read count
    0, and the first poll of [A] by its user returns nothing: the poll
    deletes the row, which a bootstrap no longer finds although no janitor
    ran. *)
Lemma pending_deletion_closes_window :
  let poll1 := apiQueryHandler 4 (query_request "u" "A") late_entry_state in
  entries_of late_entry_state = [late_entry]
  /\ EncHistoryEntry.DeviceId late_entry = "A"
  /\ EncHistoryEntry.ReadCount late_entry = 0
  /\ result poll1 = Returned []
  /\ ~ (exists rows,
          result poll1 = Returned rows
          /\ In (EncHistoryEntry.withReadCount late_entry 1) rows)
  /\ result (apiBootstrapHandler 5 (query_request "u" "A") (final poll1))
     = Returned [].
Proof.
  intros poll1.
  split; [reflexivity|]. split; [reflexivity|]. split; [reflexivity|].
  split; [reflexivity|]. split; [|reflexivity].
  intros (rows & Hres & Hin).
  assert (H : result poll1 = Returned []) by reflexivity.
  rewrite H in Hres. injection Hres as <-. destruct Hin.
Qed.

(** ** Deletion propagation *)

Lemma request_fan_out_loop (request : DeletionRequest.t)
  (devs : list Device.t) g :
  for_range devs
    (fun device =>
       modify (fun g =>
         set_deletion_requests
           (deletion_requests_of g
            ++ [DeletionRequest.withDestinationDeviceId request
                  (Device.DeviceId device)]) g)) g
  = (set_deletion_requests
       (deletion_requests_of g
        ++ map (fun device =>
                  DeletionRequest.withDestinationDeviceId request
                    (Device.DeviceId device)) devs) g,
     Returned tt).
Proof.
  revert g. induction devs as [|device devs IH]; intros g; cbn [for_range map].
  - rewrite app_nil_r. destruct g as [[? ? ? ? ?] ?]. reflexivity.
  - unfold bind. unfold modify at 1. rewrite IH.
    unfold set_deletion_requests, deletion_requests_of; cbn.
    rewrite <- app_assoc. reflexivity.
Qed.

Lemma request_after_fanout_fields devs : forall request,
  DeletionRequest.UserId (request_after_fanout request devs)
  = DeletionRequest.UserId request
  /\ DeletionRequest.Messages (request_after_fanout request devs)
     = DeletionRequest.Messages request.
Proof.
  unfold request_after_fanout.
  induction devs as [|device devs IH]; intros request; cbn [fold_left].
  - split; reflexivity.
  - destruct (IH (DeletionRequest.withDestinationDeviceId request
                    (Device.DeviceId device))) as [-> ->].
    split; reflexivity.
Qed.

Lemma deletion_matches_fields q q' e :
  DeletionRequest.UserId q = DeletionRequest.UserId q' ->
  DeletionRequest.Messages q = DeletionRequest.Messages q' ->
  deletion_matches q e = deletion_matches q' e.
Proof. intros Hu Hm. unfold deletion_matches. now rewrite Hu, Hm. Qed.

Lemma addDeletionRequestHandler_run request g :
  find_devices (DeletionRequest.UserId request) g <> [] ->
  addDeletionRequestHandler request g
  = (set_entries
       (filter (fun e => negb (deletion_matches request e)) (entries_of g))
       (set_deletion_requests
          (deletion_requests_of g
           ++ map (fun device =>
                     DeletionRequest.withDestinationDeviceId
                       (DeletionRequest.withReadCount request 0)
                       (Device.DeviceId device))
                (find_devices (DeletionRequest.UserId request) g)) g),
     Returned
       (Z.of_nat
          (length (filter (deletion_matches request) (entries_of g))))).
Proof.
  intros Hdev. unfold addDeletionRequestHandler.
  unfold bind at 1, get.
  change (DeletionRequest.UserId (DeletionRequest.withReadCount request 0))
    with (DeletionRequest.UserId request).
  destruct (find_devices (DeletionRequest.UserId request) g) as [|d devs] eqn:E;
    [contradiction|].
  cbn [length Nat.eqb]. unfold bind at 1. rewrite request_fan_out_loop.
  unfold applyDeletionRequestsToBackend, bind, get, modify, ret.
  change (entries_of (set_deletion_requests ?x ?s)) with (entries_of s).
  destruct (request_after_fanout_fields (d :: devs)
              (DeletionRequest.withReadCount request 0)) as [Hu Hm].
  set (q := request_after_fanout _ _) in *.
  assert (Heq : forall e, deletion_matches q e = deletion_matches request e)
    by (intros e; now apply deletion_matches_fields).
  rewrite (filter_ext (deletion_matches q) (deletion_matches request) Heq).
  rewrite (filter_ext (fun e => negb (deletion_matches q e))
             (fun e => negb (deletion_matches request e)))
    by (intros e; now rewrite Heq).
  reflexivity.
Qed.

Lemma addDeletionRequestHandler_no_devices request g :
  find_devices (DeletionRequest.UserId request) g = [] ->
  addDeletionRequestHandler request g
  = (g, Panicked (NoDevices (DeletionRequest.UserId request))).
Proof.
  intros Hdev. unfold addDeletionRequestHandler, bind, get.
  change (DeletionRequest.UserId (DeletionRequest.withReadCount request 0))
    with (DeletionRequest.UserId request).
  rewrite Hdev. reflexivity.
Qed.

(** C1 (as the code has it). For a user with at least one Device row, an
    add-deletion request returns after deleting exactly the entry rows
    whose user is the request's user and whose own device id and date are
    those of one of the named messages; the destination of the request
    plays no part.  The device id compared is the one stored in the row,
    that is the mailbox holding the copy: a copy in a mailbox that no
    message names stays stored. *)
Theorem addDeletionRequestHandler_eager (request : DeletionRequest.t)
  (g : Server) :
  find_devices (DeletionRequest.UserId request) g <> [] ->
  let run := addDeletionRequestHandler request g in
  result run
  = Returned
      (Z.of_nat (length (filter (deletion_matches request) (entries_of g))))
  /\ entries_of (final run)
     = filter (fun e => negb (deletion_matches request e)) (entries_of g)
  /\ (forall e,
        count_rows (entries_of (final run)) e
        = if deletion_matches request e then 0%nat
          else count_rows (entries_of g) e)
  /\ (forall e,
        deletion_matches request e = true <->
        exists message,
          In message (DeletionRequest.Messages request)
          /\ EncHistoryEntry.UserId e = DeletionRequest.UserId request
          /\ EncHistoryEntry.DeviceId e = MessageIdentifier.DeviceId message
          /\ EncHistoryEntry.Date e = MessageIdentifier.Date message)
  /\ (forall e,
        In e (entries_of g) ->
        (forall message,
           In message (DeletionRequest.Messages request) ->
           MessageIdentifier.DeviceId message <> EncHistoryEntry.DeviceId e) ->
        In e (entries_of (final run)))
  /\ deletion_requests_of (final run)
     = deletion_requests_of g
       ++ map (fun device =>
                 DeletionRequest.withDestinationDeviceId
                   (DeletionRequest.withReadCount request 0)
                   (Device.DeviceId device))
            (find_devices (DeletionRequest.UserId request) g).
Proof.
  intros Hdev run. subst run.
  rewrite (addDeletionRequestHandler_run request g Hdev).
  unfold result, final; cbn [fst snd].
  change (entries_of (set_entries ?x _)) with x.
  split; [reflexivity|]. split; [reflexivity|].
  split; [|split; [|split]].
  - intros e. unfold count_rows. rewrite count_occ_filter.
    now destruct (deletion_matches request e).
  - intros e. apply deletion_matches_spec.
  - intros e Hin Hother. apply filter_In. split; [assumption|].
    destruct (deletion_matches request e) eqn:Hm; [|reflexivity].
    apply deletion_matches_spec in Hm as (message & Hmsg & _ & Hd & _).
    exfalso. apply (Hother message Hmsg). now symmetry.
  - reflexivity.
Qed.

(** With the entry fanned out to [A], [B] and [C], a request that names the
    three mailboxes removes the three copies. *)
Lemma addDeletionRequestHandler_eager_witness :
  let request :=
    DeletionRequest.mk "u" "" 5
      [MessageIdentifier.mk "A" 7; MessageIdentifier.mk "B" 7;
       MessageIdentifier.mk "C" 7] 0 in
  length (entries_of three_mailboxes) = 3%nat
  /\ entries_of (final (addDeletionRequestHandler request three_mailboxes))
     = [].
Proof.
  intros request. split; [reflexivity|].
  destruct (addDeletionRequestHandler_eager request three_mailboxes
              ltac:(vm_compute; discriminate)) as (_ & -> & _).
  reflexivity.
Defined.

(** With the entry fanned out to [A], [B] and [C], a request that names the
    entry once, by the device that recorded it and its date, removes the
    copy of mailbox [A] only.  And for a user without any Device row (its
    row came through a dump submission), the request panics before it
    deletes the row it names. *)
Lemma deletion_leaves_other_mailboxes :
  let entry := EncHistoryEntry.mk "payload" "A" "u" 7 0 in
  let request := DeletionRequest.mk "u" "" 5 [MessageIdentifier.mk "A" 7] 0 in
  let run := addDeletionRequestHandler request three_mailboxes in
  entries_of three_mailboxes
  = [EncHistoryEntry.withDeviceId entry "A";
     EncHistoryEntry.withDeviceId entry "B";
     EncHistoryEntry.withDeviceId entry "C"]
  /\ result run = Returned 1
  /\ entries_of (final run)
     = [EncHistoryEntry.withDeviceId entry "B";
        EncHistoryEntry.withDeviceId entry "C"]
  /\ ~ (forall deviceId,
          In deviceId ["A"; "B"; "C"] ->
          ~ In (EncHistoryEntry.withDeviceId entry deviceId)
              (entries_of (final run)))
  /\ (let dumped :=
        final (apiSubmitDumpHandler 1 (dump_request "u" "B" "A") [entry]
                 empty_server) in
      entries_of dumped = [entry]
      /\ result (addDeletionRequestHandler request dumped)
         = Panicked (NoDevices "u")
      /\ entries_of (final (addDeletionRequestHandler request dumped))
         = [entry]).
Proof.
  intros entry request run.
  split; [reflexivity|]. split; [reflexivity|]. split; [reflexivity|].
  split.
  - intros H. apply (H "B"); [right; left; reflexivity|].
    left. reflexivity.
  - split; [reflexivity|]. split; reflexivity.
Qed.

(** ** Dump requests along a history *)

Lemma getRequiredQueryParam_cases r queryParam g :
  (Query_Get r queryParam <> ""
   /\ getRequiredQueryParam r queryParam g
      = (g, Returned (Query_Get r queryParam)))
  \/ getRequiredQueryParam r queryParam g
     = (g, Panicked (MissingQueryParam queryParam)).
Proof.
  destruct (String.eqb_spec (Query_Get r queryParam) "") as [H|H].
  - right. now apply getRequiredQueryParam_missing.
  - left. split; [assumption|]. now apply getRequiredQueryParam_present.
Qed.

Ltac case_param :=
  match goal with
  | |- context [bind (getRequiredQueryParam ?r ?k) ?f ?g] =>
      let H := fresh in
      let Hp := fresh "Hparam" in
      destruct (getRequiredQueryParam_cases r k g) as [[Hp H]|H];
      [rewrite (bind_returned _ f g _ _ H)
      |rewrite (bind_panicked _ f g _ _ H)];
      clear H
  end.

Lemma apiGetPendingDumpRequestsHandler_final r g :
  final (apiGetPendingDumpRequestsHandler r g) = g.
Proof.
  unfold apiGetPendingDumpRequestsHandler.
  case_param; [case_param|]; reflexivity.
Qed.

Lemma apiGetPendingDumpRequestsHandler_run r g :
  Query_Get r "user_id" <> "" ->
  Query_Get r "device_id" <> "" ->
  apiGetPendingDumpRequestsHandler r g
  = (g,
     Returned
       (filter (fun q =>
                  String.eqb (DumpRequest.UserId q) (Query_Get r "user_id")
                  && negb (String.eqb (DumpRequest.RequestingDeviceId q)
                             (Query_Get r "device_id")))
          (dump_requests_of g))).
Proof.
  intros Hu Hd. unfold apiGetPendingDumpRequestsHandler. do 2 run_param.
  reflexivity.
Qed.

Lemma apiSubmitDumpHandler_cases now r entries g :
  (exists p, apiSubmitDumpHandler now r entries g = (g, Panicked p))
  \/ (exists usage,
        apiSubmitDumpHandler now r entries g
        = (set_usage_data usage
             (set_dump_requests
                (filter (fun q =>
                           negb (String.eqb (DumpRequest.UserId q)
                                   (Query_Get r "user_id")
                                 && String.eqb
                                      (DumpRequest.RequestingDeviceId q)
                                      (Query_Get r "requesting_device_id")))
                   (dump_requests_of g))
                (set_entries
                   (entries_of g
                    ++ map (fun e =>
                              EncHistoryEntry.withDeviceId e
                                (Query_Get r "requesting_device_id"))
                         entries) g)),
           Returned tt)).
Proof.
  unfold apiSubmitDumpHandler.
  case_param; [|left; eauto]. case_param; [|left; eauto].
  case_param; [|left; eauto].
  destruct (batch_users_cases (Query_Get r "user_id") entries) as [Hok|Hbad].
  - right. unfold bind, Transaction, modify.
    rewrite (submitDump_tx_accept _ _ _ _ Hok). cbv beta iota.
    run_usage. exists usage. reflexivity.
  - left. unfold bind, Transaction.
    destruct (submitDump_tx_reject _ (Query_Get r "requesting_device_id")
                _ (GLOBAL_DB g) Hbad) as (tx' & u & -> & _).
    eexists. reflexivity.
Qed.

Lemma apiSubmitDumpHandler_returned now r entries g :
  result (apiSubmitDumpHandler now r entries g) = Returned tt ->
  dump_requests_of (final (apiSubmitDumpHandler now r entries g))
  = filter (fun q =>
              negb (String.eqb (DumpRequest.UserId q) (Query_Get r "user_id")
                    && String.eqb (DumpRequest.RequestingDeviceId q)
                         (Query_Get r "requesting_device_id")))
      (dump_requests_of g).
Proof.
  destruct (apiSubmitDumpHandler_cases now r entries g)
    as [[p ->]|[usage ->]].
  - discriminate.
  - reflexivity.
Qed.

Lemma apiSubmitDumpHandler_dump_requests now r entries g :
  incl (dump_requests_of (final (apiSubmitDumpHandler now r entries g)))
    (dump_requests_of g).
Proof.
  destruct (apiSubmitDumpHandler_cases now r entries g)
    as [[p ->]|[usage ->]].
  - apply incl_refl.
  - apply incl_filter.
Qed.

Lemma apiBootstrapHandler_dump_requests now r g :
  dump_requests_of (final (apiBootstrapHandler now r g)) = dump_requests_of g.
Proof.
  unfold apiBootstrapHandler.
  case_param; [|reflexivity]. case_param; [|reflexivity].
  unfold bind at 1. run_usage. reflexivity.
Qed.

Lemma apiQueryHandler_dump_requests now r g :
  dump_requests_of (final (apiQueryHandler now r g)) = dump_requests_of g.
Proof.
  destruct (String.eqb_spec (Query_Get r "user_id") "") as [Hu|Hu].
  - destruct (apiQueryHandler_missing now r g (or_introl Hu)) as [p ->].
    reflexivity.
  - destruct (String.eqb_spec (Query_Get r "device_id") "") as [Hd|Hd].
    + destruct (apiQueryHandler_missing now r g (or_intror Hd)) as [p ->].
      reflexivity.
    + destruct (apiQueryHandler_run now r g Hu Hd) as [usage ->].
      reflexivity.
Qed.

Lemma getDeletionRequestsHandler_dump_requests r g :
  dump_requests_of (final (getDeletionRequestsHandler r g))
  = dump_requests_of g.
Proof.
  unfold getDeletionRequestsHandler.
  case_param; [|reflexivity]. case_param; reflexivity.
Qed.

Lemma addDeletionRequestHandler_dump_requests request g :
  dump_requests_of (final (addDeletionRequestHandler request g))
  = dump_requests_of g.
Proof.
  destruct (find_devices (DeletionRequest.UserId request) g) eqn:Hdev.
  - rewrite (addDeletionRequestHandler_no_devices _ _ Hdev). reflexivity.
  - rewrite addDeletionRequestHandler_run by congruence. reflexivity.
Qed.

Lemma apiRegisterHandler_dump_requests now r g q :
  In q (dump_requests_of (final (apiRegisterHandler now r g))) ->
  In q (dump_requests_of g)
  \/ q = DumpRequest.mk (Query_Get r "user_id") (Query_Get r "device_id") now.
Proof.
  destruct (String.eqb_spec (Query_Get r "user_id") "") as [Hu|Hu];
    [|destruct (String.eqb_spec (Query_Get r "device_id") "") as [Hd|Hd]].
  - unfold apiRegisterHandler.
    rewrite (bind_panicked _ _ _ _ _ (getRequiredQueryParam_missing _ _ _ Hu)).
    auto.
  - unfold apiRegisterHandler. run_param.
    rewrite (bind_panicked _ _ _ _ _ (getRequiredQueryParam_missing _ _ _ Hd)).
    auto.
  - destruct (apiRegisterHandler_run now r g Hu Hd) as [usage ->].
    unfold final; cbn [fst].
    destruct (0 <? _); cbn; [|auto].
    intros Hin. apply in_app_or in Hin as [Hin|[<-|[]]]; auto.
Qed.

(** Only a registration of the pair can store a DumpRequest for it. *)
Lemma serve_no_dump_request userId requestingDeviceId c g :
  registers userId requestingDeviceId c = false ->
  no_dump_request userId requestingDeviceId g ->
  no_dump_request userId requestingDeviceId (serve c g).
Proof.
  intros Hreg Hno. destruct c as [now entries|now r|now r|now r|r|now r entries
                                 |r|request| |]; cbn [serve].
  - destruct (apiSubmitHandler_run now entries g) as [usage ->]. exact Hno.
  - intros q. rewrite apiBootstrapHandler_dump_requests. apply Hno.
  - intros q. rewrite apiQueryHandler_dump_requests. apply Hno.
  - intros q Hin [Hu Hd].
    apply apiRegisterHandler_dump_requests in Hin as [Hin| ->].
    + exact (Hno q Hin (conj Hu Hd)).
    + cbn in Hu, Hd. cbn [registers] in Hreg.
      rewrite Hu, Hd, !String.eqb_refl in Hreg. discriminate.
  - rewrite apiGetPendingDumpRequestsHandler_final. exact Hno.
  - intros q Hin. apply apiSubmitDumpHandler_dump_requests in Hin.
    exact (Hno q Hin).
  - intros q. rewrite getDeletionRequestsHandler_dump_requests. apply Hno.
  - intros q. rewrite addDeletionRequestHandler_dump_requests. apply Hno.
  - exact Hno.
  - exact Hno.
Qed.

Lemma serve_all_no_dump_request userId requestingDeviceId calls : forall g,
  (forall c, In c calls -> registers userId requestingDeviceId c = false) ->
  no_dump_request userId requestingDeviceId g ->
  no_dump_request userId requestingDeviceId (serve_all calls g).
Proof.
  induction calls as [|c calls IH]; intros g Hreg Hno; cbn; [exact Hno|].
  apply IH.
  - intros c' Hc'. apply Hreg. now right.
  - apply serve_no_dump_request; [|exact Hno]. apply Hreg. now left.
Qed.

(** C8 (as the code has it). A poll of the dump exchange that carries both
    parameters changes no table and returns exactly the DumpRequest rows of
    the user whose requesting device is not the polling device.  Once a dump
    submission for a pair (user, requesting device) has returned, no
    DumpRequest row of that pair is stored, and no poll by any device is
    answered with a request of that pair until that device is registered
    for that user again: whatever the calls in between, as long as none of
    them is such a registration. *)
Theorem dump_exchange_converges (now : Z) (r : Request)
  (entries : list EncHistoryEntry.t) (g : Server) :
  result (apiSubmitDumpHandler now r entries g) = Returned tt ->
  let userId := Query_Get r "user_id" in
  let requestingDeviceId := Query_Get r "requesting_device_id" in
  let g' := final (apiSubmitDumpHandler now r entries g) in
  (forall g0 poll,
     Query_Get poll "user_id" <> "" ->
     Query_Get poll "device_id" <> "" ->
     exists rows,
       apiGetPendingDumpRequestsHandler poll g0 = (g0, Returned rows)
       /\ forall q,
            In q rows <->
            In q (dump_requests_of g0)
            /\ DumpRequest.UserId q = Query_Get poll "user_id"
            /\ DumpRequest.RequestingDeviceId q <> Query_Get poll "device_id")
  /\ dump_requests_of g'
     = filter (fun q =>
                 negb (String.eqb (DumpRequest.UserId q) userId
                       && String.eqb (DumpRequest.RequestingDeviceId q)
                            requestingDeviceId))
         (dump_requests_of g)
  /\ no_dump_request userId requestingDeviceId g'
  /\ (forall calls poll rows,
        (forall c, In c calls ->
           registers userId requestingDeviceId c = false) ->
        result (apiGetPendingDumpRequestsHandler poll (serve_all calls g'))
        = Returned rows ->
        forall q,
          In q rows ->
          ~ (DumpRequest.UserId q = userId
             /\ DumpRequest.RequestingDeviceId q = requestingDeviceId)).
Proof.
  intros Hret userId requestingDeviceId g'.
  assert (Hdump := apiSubmitDumpHandler_returned now r entries g Hret).
  fold g' userId requestingDeviceId in Hdump.
  assert (Hno : no_dump_request userId requestingDeviceId g').
  { intros q Hin [Hu Hd]. rewrite Hdump in Hin.
    apply filter_In in Hin as [_ Hq].
    rewrite Hu, Hd, !String.eqb_refl in Hq. discriminate. }
  split; [|split; [exact Hdump|split; [exact Hno|]]].
  - intros g0 poll Hu Hd.
    rewrite (apiGetPendingDumpRequestsHandler_run poll g0 Hu Hd).
    eexists. split; [reflexivity|]. intros q.
    rewrite filter_In, andb_true_iff, negb_true_iff, String.eqb_eq,
      String.eqb_neq.
    reflexivity.
  - intros calls poll rows Hreg Hres q Hin.
    assert (Hno' := serve_all_no_dump_request userId requestingDeviceId
                      calls g' Hreg Hno).
    apply Hno'.
    revert Hres. unfold apiGetPendingDumpRequestsHandler.
    case_param; [|discriminate]. case_param; [|discriminate].
    unfold bind, get, ret, result; cbn [snd]. intros Hres.
    injection Hres as <-. apply filter_In in Hin as [Hin _]. exact Hin.
Qed.

(** Device [B] joins user [u], who has device [A]: [A] sees the request of
    [B] and [B] does not; once [A] has submitted its dump, and after a poll
    and a janitor run, [A] sees no request. *)
Lemma dump_exchange_converges_witness :
  let g1 := final (apiRegisterHandler 1 (query_request "u" "A") empty_server) in
  let g := final (apiRegisterHandler 2 (query_request "u" "B") g1) in
  let entry := EncHistoryEntry.mk "payload" "A" "u" 7 0 in
  let g' := final (apiSubmitDumpHandler 3 (dump_request "u" "A" "B") [entry] g) in
  result (apiGetPendingDumpRequestsHandler (query_request "u" "A") g)
  = Returned [DumpRequest.mk "u" "B" 2]
  /\ result (apiGetPendingDumpRequestsHandler (query_request "u" "B") g)
     = Returned []
  /\ forall rows q,
       result (apiGetPendingDumpRequestsHandler (query_request "u" "A")
                 (serve_all [Query 4 (query_request "u" "B"); CleanDatabase] g'))
       = Returned rows ->
       In q rows ->
       ~ (DumpRequest.UserId q = "u"
          /\ DumpRequest.RequestingDeviceId q = "B").
Proof.
  intros g1 g entry g'.
  destruct (dump_exchange_converges 3 (dump_request "u" "A" "B") [entry] g
              eq_refl) as (_ & _ & _ & Hlater).
  split; [reflexivity|]. split; [reflexivity|].
  intros rows q Hres Hin.
  refine (Hlater [Query 4 (query_request "u" "B"); CleanDatabase]
            (query_request "u" "A") rows _ Hres q Hin).
  intros c [<-|[<-|[]]]; reflexivity.
Defined.

(** Device [B] joins user [u], device [A] submits its dump and the call
    returns: the next poll of [A] is answered with no request.  [B] then
    registers once more, and the poll of [A] after that is answered with a
    request of the pair [(u, B)], although the dump submission for that pair
    had returned. *)
Lemma repeated_registration_reopens_dump_request :
  let g1 := final (apiRegisterHandler 1 (query_request "u" "A") empty_server) in
  let g := final (apiRegisterHandler 2 (query_request "u" "B") g1) in
  let entry := EncHistoryEntry.mk "payload" "A" "u" 7 0 in
  let submitted :=
    apiSubmitDumpHandler 3 (dump_request "u" "A" "B") [entry] g in
  let again :=
    final (apiRegisterHandler 4 (query_request "u" "B") (final submitted)) in
  let poll := apiGetPendingDumpRequestsHandler (query_request "u" "A") in
  result submitted = Returned tt
  /\ result (poll (final submitted)) = Returned []
  /\ result (poll again) = Returned [DumpRequest.mk "u" "B" 4]
  /\ ~ (forall rows q,
          result (poll again) = Returned rows ->
          In q rows ->
          ~ (DumpRequest.UserId q = "u"
             /\ DumpRequest.RequestingDeviceId q = "B")).
Proof.
  intros g1 g entry submitted again poll.
  split; [reflexivity|]. split; [reflexivity|]. split; [reflexivity|].
  intros H.
  apply (H [DumpRequest.mk "u" "B" 4] (DumpRequest.mk "u" "B" 4) eq_refl
           (or_introl eq_refl)).
  split; reflexivity.
Qed.

(** ** Release resolver *)

Section ReleaseResolverProperties.

Variable http_Get : string -> option Z.

Lemma decrement_loop_find turns : forall initialVersion version,
  decrement_loop http_Get turns initialVersion version
  = match find (valid_version http_Get) (candidates turns version) with
    | Some found => found
    | None => initialVersion
    end.
Proof.
  induction turns as [|turns IH]; intros initialVersion version;
    cbn [decrement_loop candidates find]; [reflexivity|].
  unfold valid_version at 1.
  destruct (assertValidUpdate http_Get (buildUpdateInfo version));
    [|reflexivity].
  destruct (decrementVersion version) as [version'|]; [apply IH|reflexivity].
Qed.

Example decrementVersion_examples :
  decrementVersion "v0.50" = Some "v0.49"
  /\ decrementVersion "v0.0" = Some "v0.-1"
  /\ decrementVersion "v0.+7" = Some "v0.6"
  /\ decrementVersion "v0.-9223372036854775808"
     = Some "v0.9223372036854775807"
  /\ decrementVersion "v0.9223372036854775808" = None
  /\ decrementVersion "v1.2.3" = None
  /\ decrementVersion "v050" = None
  /\ decrementVersion "v0.5a" = None
  /\ decrementVersion "UNKNOWN" = None.
Proof. repeat split; reflexivity. Qed.

Example Split_dot_examples :
  Split_dot "v0.50" = ["v0"; "50"]
  /\ Split_dot "" = [""]
  /\ Split_dot "a.b." = ["a"; "b"; ""].
Proof. repeat split; reflexivity. Qed.

Lemma candidates_v0_50 :
  candidates 5 "v0.50" = ["v0.50"; "v0.49"; "v0.48"; "v0.47"; "v0.46"].
Proof. reflexivity. Qed.

Lemma decrementVersion_two_parts version :
  length (Split_dot version) <> 2%nat -> decrementVersion version = None.
Proof.
  intros H. unfold decrementVersion.
  destruct (String.eqb version "UNKNOWN"); [reflexivity|].
  destruct (Split_dot version) as [|p0 [|p1 [|p2 l]]]; try reflexivity.
  now contradiction H.
Qed.

Lemma decrementVersion_number version part0 part1 :
  Split_dot version = [part0; part1] -> Atoi part1 = None ->
  decrementVersion version = None.
Proof.
  intros Hs Ha. unfold decrementVersion.
  destruct (String.eqb version "UNKNOWN"); [reflexivity|].
  now rewrite Hs, Ha.
Qed.

(** C5. With the network as an oracle: if the artifacts of v0.50 and of
    v0.49 fail the probe and those of v0.48 pass it, then
    [decrementVersionIfInvalid "v0.50"] is ["v0.48"].  In general the result
    is the first valid version among the at most five that the loop probes
    (the input and its successive decrements), and the input itself when
    none of them is valid; the input is also returned when it cannot be
    decremented, which is the case of ["UNKNOWN"], of a tag that does not
    split into two parts at dots, and of a tag whose second part is not a
    number. *)
Theorem decrementVersionIfInvalid_fallback :
  (valid_version http_Get "v0.50" = false ->
   valid_version http_Get "v0.49" = false ->
   valid_version http_Get "v0.48" = true ->
   decrementVersionIfInvalid http_Get "v0.50" = "v0.48")
  /\ (forall version,
        decrementVersionIfInvalid http_Get version
        = match find (valid_version http_Get) (candidates 5 version) with
          | Some found => found
          | None => version
          end)
  /\ (forall version,
        (forall c,
           In c (candidates 5 version) -> valid_version http_Get c = false) ->
        decrementVersionIfInvalid http_Get version = version)
  /\ (forall version,
        decrementVersion version = None ->
        decrementVersionIfInvalid http_Get version = version)
  /\ decrementVersion "UNKNOWN" = None
  /\ (forall version,
        length (Split_dot version) <> 2%nat ->
        decrementVersion version = None)
  /\ (forall version part0 part1,
        Split_dot version = [part0; part1] -> Atoi part1 = None ->
        decrementVersion version = None)
  /\ (forall version, (length (candidates 5 version) <= 5)%nat).
Proof.
  unfold decrementVersionIfInvalid.
  split; [|split; [|split; [|split; [|split; [|split; [|split]]]]]].
  - intros H50 H49 H48. rewrite decrement_loop_find, candidates_v0_50.
    cbn [find]. now rewrite H50, H49, H48.
  - intros version. apply decrement_loop_find.
  - intros version Hall. rewrite decrement_loop_find.
    destruct (find (valid_version http_Get) (candidates 5 version))
      as [c|] eqn:Hf;
      [|reflexivity].
    apply find_some in Hf as [Hin Hv]. rewrite (Hall c Hin) in Hv.
    discriminate.
  - intros version Hdec. rewrite decrement_loop_find.
    cbn [candidates find]. rewrite Hdec. cbn [find].
    now destruct (valid_version http_Get version).
  - reflexivity.
  - apply decrementVersion_two_parts.
  - apply decrementVersion_number.
  - intros version. cbn [candidates].
    repeat (match goal with
            | |- context [decrementVersion ?v] =>
                destruct (decrementVersion v)
            end; cbn [length]; try lia).
Qed.

End ReleaseResolverProperties.

(** On a network where only release v0.48 has its artifacts, v0.50 resolves
    to v0.48; where only v0.45 has them, v0.50 is kept. *)
Lemma decrementVersionIfInvalid_fallback_witness :
  decrementVersionIfInvalid (only_release "v0.48") "v0.50" = "v0.48"
  /\ decrementVersionIfInvalid (only_release "v0.45") "v0.50" = "v0.50"
  /\ decrementVersionIfInvalid (only_release "v0.48") "UNKNOWN" = "UNKNOWN".
Proof.
  destruct (decrementVersionIfInvalid_fallback (only_release "v0.48"))
    as (H48 & _ & _ & Hdec & Hunknown & _).
  destruct (decrementVersionIfInvalid_fallback (only_release "v0.45"))
    as (_ & _ & Hnone & _).
  split; [|split].
  - apply H48; reflexivity.
  - apply Hnone. intros c Hin. rewrite candidates_v0_50 in Hin.
    destruct Hin as [<-|[<-|[<-|[<-|[<-|[]]]]]]; reflexivity.
  - apply Hdec. exact Hunknown.
Defined.

(** * Further properties of the server *)

(** ** Numbers and tags *)

Ltac digit_step :=
  match goal with
  | |- context [digit_value ?c] =>
      let v := eval vm_compute in (digit_value c) in
      change (digit_value c) with v; cbv beta iota
  end.

Lemma parse_digits_acc (d : Decimal.uint) : forall acc : positive,
  parse_digits (NilEmpty.string_of_uint d) (Z.pos acc)
  = Some (Z.pos (Pos.of_uint_acc d acc)).
Proof.
  induction d; intros acc;
    cbn [NilEmpty.string_of_uint parse_digits Pos.of_uint_acc];
    try reflexivity; digit_step; rewrite <- IHd; f_equal; lia.
Qed.

Lemma parse_digits_uint (d : Decimal.uint) :
  parse_digits (NilEmpty.string_of_uint d) 0 = Some (Z.of_N (Pos.of_uint d)).
Proof.
  induction d; cbn [NilEmpty.string_of_uint parse_digits Pos.of_uint];
    try reflexivity; digit_step;
    first [exact IHd | cbn [Z.of_N]; rewrite <- parse_digits_acc; reflexivity].
Qed.

Lemma digits_of_positive (p : positive) :
  exists ch rest,
    NilZero.string_of_uint (Pos.to_uint p) = String ch rest
    /\ Ascii.eqb ch "-" = false /\ Ascii.eqb ch "+" = false
    /\ parse_digits (String ch rest) 0 = Some (Z.pos p).
Proof.
  assert (Hnil := DecimalPos.Unsigned.to_uint_nonnil p).
  assert (Hparse := parse_digits_uint (Pos.to_uint p)).
  rewrite DecimalPos.Unsigned.of_to in Hparse. cbn [Z.of_N] in Hparse.
  destruct (Pos.to_uint p) eqn:E; [contradiction| ..];
    cbn [NilZero.string_of_uint NilEmpty.string_of_uint] in *;
    do 2 eexists; (split; [reflexivity|]); repeat split; try reflexivity;
    exact Hparse.
Qed.

Lemma Atoi_Itoa_id (n : Z) :
  minInt <= n <= maxInt -> Atoi (Itoa n) = Some n.
Proof.
  intros Hn. destruct n as [|p|p]; [reflexivity| |].
  - destruct (digits_of_positive p) as (ch & rest & Hs & Hm & Hp & Hparse).
    unfold Itoa. cbn [Z.to_int NilZero.string_of_int]. rewrite Hs.
    unfold Atoi. rewrite Hm, Hp. cbn [orb]. rewrite Hparse.
    destruct (Z.leb_spec minInt (Z.pos p)); [|lia].
    destruct (Z.leb_spec (Z.pos p) maxInt); [|lia]. reflexivity.
  - destruct (digits_of_positive p) as (ch & rest & Hs & Hm & Hp & Hparse).
    unfold Itoa. cbn [Z.to_int NilZero.string_of_int]. rewrite Hs.
    unfold Atoi. cbn [Ascii.eqb Bool.eqb orb andb]. rewrite Hparse.
    change (- Z.pos p) with (Z.neg p).
    destruct (Z.leb_spec minInt (Z.neg p)); [|lia].
    destruct (Z.leb_spec (Z.neg p) maxInt); [|lia]. reflexivity.
Qed.

(** X1. Round trip of the two number conversions: [strconv.Atoi] reads back
    every [int] that [strconv.Itoa] prints. *)
Theorem Atoi_Itoa (n : Z) :
  minInt <= n <= maxInt -> Atoi (Itoa n) = Some n.
Proof. apply Atoi_Itoa_id. Qed.

Lemma Atoi_Itoa_witness : Atoi (Itoa (-42)) = Some (-42).
Proof. apply Atoi_Itoa. unfold minInt, maxInt. lia. Defined.

Lemma has_dot_app s t : has_dot (s ++ t) = has_dot s || has_dot t.
Proof.
  induction s as [|ch s IH]; cbn [String.append has_dot]; [reflexivity|].
  now rewrite IH, orb_assoc.
Qed.

Lemma has_dot_digits (d : Decimal.uint) :
  has_dot (NilEmpty.string_of_uint d) = false.
Proof. induction d; cbn [NilEmpty.string_of_uint has_dot]; auto. Qed.

Lemma has_dot_Itoa n : has_dot (Itoa n) = false.
Proof.
  unfold Itoa. destruct n as [|p|p]; [reflexivity| |];
    cbn [Z.to_int NilZero.string_of_int];
    assert (Hnil := DecimalPos.Unsigned.to_uint_nonnil p);
    assert (Hd := has_dot_digits (Pos.to_uint p));
    destruct (Pos.to_uint p); try contradiction;
    cbn [NilZero.string_of_uint has_dot] in *; exact Hd.
Qed.

Lemma Split_dot_no_dot s : has_dot s = false -> Split_dot s = [s].
Proof.
  induction s as [|ch s IH]; cbn [has_dot Split_dot]; [reflexivity|].
  destruct (Ascii.eqb ch "."); cbn [orb]; [discriminate|].
  intros H. now rewrite (IH H).
Qed.

Lemma Split_dot_app prefix rest :
  has_dot prefix = false ->
  Split_dot (prefix ++ "." ++ rest) = prefix :: Split_dot rest.
Proof.
  induction prefix as [|ch s IH]; cbn [has_dot String.append Split_dot].
  - reflexivity.
  - destruct (Ascii.eqb ch "."); cbn [orb]; [discriminate|].
    intros H. change (s ++ String "." rest)%string with (s ++ "." ++ rest)%string.
    now rewrite (IH H).
Qed.

Lemma Split_dot_pieces s : forall piece,
  In piece (Split_dot s) -> has_dot piece = false.
Proof.
  induction s as [|ch s IH]; cbn [Split_dot]; intros piece.
  - intros [<-|[]]. reflexivity.
  - destruct (Ascii.eqb ch ".") eqn:E.
    + intros [<-|Hin]; [reflexivity|auto].
    + destruct (Split_dot s) as [|p ps].
      * intros [<-|[]]. cbn [has_dot]. now rewrite E.
      * intros [<-|Hin].
        -- cbn [has_dot]. rewrite E. apply IH. now left.
        -- apply IH. now right.
Qed.

Lemma wrap_int_range n : minInt <= wrap_int n <= maxInt.
Proof.
  unfold wrap_int, minInt, maxInt.
  assert (H := Z.mod_pos_bound (n - - 2 ^ 63) (2 ^ 64) ltac:(lia)). lia.
Qed.

Lemma wrap_int_pred n :
  minInt <= n <= maxInt ->
  wrap_int (n - 1) = if n =? minInt then maxInt else n - 1.
Proof.
  unfold wrap_int, minInt, maxInt. intros Hn.
  destruct (Z.eqb_spec n (- 2 ^ 63)) as [->|Hne].
  - reflexivity.
  - rewrite Z.mod_small by lia. lia.
Qed.

Lemma version_tag_not_UNKNOWN prefix n :
  String.eqb (version_tag prefix n) "UNKNOWN" = false.
Proof.
  destruct (String.eqb_spec (version_tag prefix n) "UNKNOWN") as [H|H];
    [|reflexivity].
  apply (f_equal has_dot) in H. unfold version_tag in H.
  rewrite has_dot_app in H. cbn in H. rewrite orb_true_r in H. discriminate.
Qed.

Lemma decrementVersion_on_tag (prefix : string) (n : Z) :
  has_dot prefix = false ->
  minInt <= n <= maxInt ->
  decrementVersion (version_tag prefix n)
  = Some (version_tag prefix (if n =? minInt then maxInt else n - 1)).
Proof.
  intros Hp Hn. unfold decrementVersion.
  rewrite version_tag_not_UNKNOWN. unfold version_tag at 1.
  rewrite (Split_dot_app _ _ Hp), (Split_dot_no_dot _ (has_dot_Itoa n)).
  rewrite (Atoi_Itoa_id n Hn), (wrap_int_pred n Hn). reflexivity.
Qed.

(** X2. On a tag [prefix.n], with a prefix free of dots and [n] an [int],
    [decrementVersion] succeeds and yields [prefix.(n-1)]; at the least
    [int] the subtraction wraps around to the greatest. *)
Theorem decrementVersion_tag (prefix : string) (n : Z) :
  has_dot prefix = false ->
  minInt <= n <= maxInt ->
  decrementVersion (version_tag prefix n)
  = Some (version_tag prefix (if n =? minInt then maxInt else n - 1)).
Proof. apply decrementVersion_on_tag. Qed.

Lemma decrementVersion_tag_witness :
  decrementVersion (version_tag "v0" 50) = Some (version_tag "v0" 49).
Proof.
  apply (decrementVersion_tag "v0" 50); [reflexivity|].
  unfold minInt, maxInt. lia.
Defined.

Lemma Atoi_range s n : Atoi s = Some n -> minInt <= n <= maxInt.
Proof.
  unfold Atoi. destruct s as [|ch rest]; [discriminate|].
  destruct (if Ascii.eqb ch "-" || Ascii.eqb ch "+" then rest
            else String ch rest); [discriminate|].
  destruct (parse_digits _ 0) as [m|]; [|discriminate].
  destruct (Z.leb_spec minInt (if Ascii.eqb ch "-" then - m else m))
    as [Hlo|Hlo]; [|discriminate].
  destruct (Z.leb_spec (if Ascii.eqb ch "-" then - m else m) maxInt)
    as [Hhi|Hhi]; [|discriminate].
  cbn [andb]. intros H. injection H as <-. lia.
Qed.

Lemma decrementVersion_shape version version' :
  decrementVersion version = Some version' ->
  exists prefix n,
    has_dot prefix = false /\ minInt <= n <= maxInt
    /\ version' = version_tag prefix n.
Proof.
  unfold decrementVersion. destruct (String.eqb version "UNKNOWN");
    [discriminate|].
  destruct (Split_dot version) as [|p0 [|p1 [|p2 l]]] eqn:Hs; try discriminate.
  destruct (Atoi p1) as [k|]; [|discriminate].
  intros H. injection H as <-.
  exists p0, (wrap_int (k - 1)). split; [|split].
  - apply (Split_dot_pieces version). rewrite Hs. now left.
  - apply wrap_int_range.
  - reflexivity.
Qed.

(** X3. A tag that [decrementVersion] produced can always be decremented
    again: after a first successful decrement, the loop of
    [decrementVersionIfInvalid] never gives up for want of a predecessor. *)
Theorem decrementVersion_again (version version' : string) :
  decrementVersion version = Some version' ->
  exists version'', decrementVersion version' = Some version''.
Proof.
  intros H. apply decrementVersion_shape in H as (prefix & n & Hp & Hn & ->).
  rewrite (decrementVersion_on_tag prefix n Hp Hn). eauto.
Qed.

Lemma decrementVersion_again_witness :
  exists version'', decrementVersion "release-7.0" = Some version''.
Proof.
  apply (decrementVersion_again "release-7.1" "release-7.0"). reflexivity.
Defined.

(** ** Release resolver and janitor *)

Lemma probe_urls_nil http_Get urls :
  probe_urls http_Get urls = None <->
  forall url, In url urls ->
    exists status, http_Get url = Some status /\ status <> 404.
Proof.
  induction urls as [|u l IH]; cbn [probe_urls].
  - split; [intros _ url []|reflexivity].
  - destruct (http_Get u) as [status|] eqn:Hu.
    + destruct (Z.eqb_spec status 404) as [->|Hne].
      * split; [discriminate|]. intros H.
        destruct (H u (or_introl eq_refl)) as (st & Hst & Hne).
        congruence.
      * rewrite IH. split.
        -- intros H url [<-|Hin]; eauto.
        -- intros H url Hin. apply H. now right.
    + split; [discriminate|]. intros H.
      destruct (H u (or_introl eq_refl)) as (st & Hst & _). congruence.
Qed.

(** X4. A version is valid exactly when each of its eight artifact URLs
    answers, and with a status other than 404: a failed request or a 404 on
    any artifact makes it invalid, and any other status (a 500, a 403)
    counts as present. *)
Theorem valid_version_iff (http_Get : string -> option Z) (version : string) :
  valid_version http_Get version = true <->
  forall url, In url (artifact_urls version) ->
    exists status, http_Get url = Some status /\ status <> 404.
Proof.
  rewrite <- probe_urls_nil. unfold valid_version, assertValidUpdate.
  change (probe_urls http_Get _) with
    (probe_urls http_Get (artifact_urls version)).
  destruct (probe_urls http_Get (artifact_urls version));
    split; congruence.
Qed.

Lemma find_map {A B} (p : B -> bool) (f : A -> B) (l : list A) :
  find p (map f l) = option_map f (find (fun x => p (f x)) l).
Proof.
  induction l as [|a l IH]; cbn [map find option_map]; [reflexivity|].
  destruct (p (f a)); [reflexivity|exact IH].
Qed.

Lemma candidates_tag prefix n :
  has_dot prefix = false ->
  minInt + 4 <= n <= maxInt ->
  candidates 5 (version_tag prefix n)
  = map (fun k => version_tag prefix (n - k)) [0; 1; 2; 3; 4].
Proof.
  intros Hp Hn.
  assert (Hstep : forall m, minInt + 1 <= m <= maxInt ->
            decrementVersion (version_tag prefix m)
            = Some (version_tag prefix (m - 1))).
  { intros m Hm. rewrite decrementVersion_on_tag; [|assumption|lia].
    destruct (Z.eqb_spec m minInt); [lia|reflexivity]. }
  cbn [map]. rewrite Z.sub_0_r.
  replace (n - 2) with (n - 1 - 1) by lia.
  replace (n - 3) with (n - 1 - 1 - 1) by lia.
  replace (n - 4) with (n - 1 - 1 - 1 - 1) by lia.
  cbn [candidates].
  rewrite (Hstep n), (Hstep (n - 1)), (Hstep (n - 1 - 1)),
    (Hstep (n - 1 - 1 - 1)) by lia.
  destruct (decrementVersion (version_tag prefix (n - 1 - 1 - 1 - 1)));
    reflexivity.
Qed.

(** X5. On a tag [prefix.n] (prefix free of dots, [n] at least four above
    the least [int]), [decrementVersionIfInvalid] answers [prefix.(n-k)] for
    the least [k] among 0..4 whose version is valid, and the tag itself
    when there is none: the number is lowered by at most four, and a valid
    version five or more below is not found. *)
Theorem decrementVersionIfInvalid_tag (http_Get : string -> option Z)
  (prefix : string) (n : Z) :
  has_dot prefix = false ->
  minInt + 4 <= n <= maxInt ->
  decrementVersionIfInvalid http_Get (version_tag prefix n)
  = match find (fun k => valid_version http_Get (version_tag prefix (n - k)))
            [0; 1; 2; 3; 4] with
    | Some k => version_tag prefix (n - k)
    | None => version_tag prefix n
    end.
Proof.
  intros Hp Hn. unfold decrementVersionIfInvalid.
  rewrite decrement_loop_find, (candidates_tag prefix n Hp Hn), find_map.
  destruct (find _ [0; 1; 2; 3; 4]); reflexivity.
Qed.

(** With only release v0.45 published, v0.50 is out of reach of the four
    decrements, and v0.49 is not. *)
Lemma decrementVersionIfInvalid_tag_witness :
  decrementVersionIfInvalid (only_release "v0.45") (version_tag "v0" 50)
  = version_tag "v0" 50
  /\ decrementVersionIfInvalid (only_release "v0.45") (version_tag "v0" 49)
     = version_tag "v0" 45.
Proof.
  split.
  - rewrite (decrementVersionIfInvalid_tag (only_release "v0.45") "v0" 50
               eq_refl); [reflexivity|].
    unfold minInt, maxInt. lia.
  - rewrite (decrementVersionIfInvalid_tag (only_release "v0.45") "v0" 49
               eq_refl); [reflexivity|].
    unfold minInt, maxInt. lia.
Defined.

Section CronProperties.

Variable http_Get_response : string -> option Response.
Variable json_Unmarshal_Name : string -> option string.

(** X6. One janitor cycle never fails and never panics the trigger
    handler, whatever the release feed answers; it leaves the tables as
    [cleanDatabase] alone would.  When the feed answers 200 with a body
    that decodes, the update reports no error and the release version
    becomes what [decrementVersionIfInvalid] makes of the decoded tag; in
    every other case the version is kept: so it is kept when the update
    reports an error, and it changes only on such an answer.  A rate-limit
    answer (403 with the rate-limit text) is no error at all. *)
Theorem cron_effect (g : Server) :
  let update := updateReleaseVersion http_Get_response json_Unmarshal_Name g in
  let g' := fst (cron http_Get_response json_Unmarshal_Name g) in
  snd (cron http_Get_response json_Unmarshal_Name g) = None
  /\ snd (triggerCronHandler http_Get_response json_Unmarshal_Name g) = None
  /\ GLOBAL_DB g' = GLOBAL_DB (cleanDatabase g)
  /\ (snd update <> None -> ReleaseVersion g' = ReleaseVersion g)
  /\ (ReleaseVersion g' <> ReleaseVersion g ->
      exists respBody latestVersionTag,
        http_Get_response releases_latest
        = Some (mkResponse 200 (Some respBody))
        /\ json_Unmarshal_Name respBody = Some latestVersionTag
        /\ ReleaseVersion g'
           = decrementVersionIfInvalid (status_of http_Get_response)
               latestVersionTag)
  /\ (forall respBody,
        http_Get_response releases_latest
        = Some (mkResponse 403 (Some respBody)) ->
        Contains respBody "API rate limit exceeded for " = true ->
        snd update = None /\ ReleaseVersion g' = ReleaseVersion g)
  /\ (forall respBody latestVersionTag,
        http_Get_response releases_latest
        = Some (mkResponse 200 (Some respBody)) ->
        json_Unmarshal_Name respBody = Some latestVersionTag ->
        snd update = None
        /\ ReleaseVersion g'
           = decrementVersionIfInvalid (status_of http_Get_response)
               latestVersionTag).
Proof.
  intros update g'.
  match goal with
  | |- ?A /\ ?B /\ ?C /\ ?D /\ ?E /\ ?F /\ _ =>
      assert (Hkept : A /\ B /\ C /\ D /\ E /\ F)
  end; [|destruct Hkept as (H1 & H2 & H3 & H4 & H5 & H6);
         repeat (split; [assumption|]);
         intros respBody latestVersionTag Hfeed Hname; subst update g';
         unfold cron, updateReleaseVersion; rewrite Hfeed;
         cbn [Body StatusCode Z.eqb Pos.eqb andb negb]; rewrite Hname;
         split; reflexivity].
  subst update g'.
  unfold triggerCronHandler, cron, updateReleaseVersion.
  destruct (http_Get_response releases_latest) as [[status [respBody|]]|];
    cbn [Body StatusCode fst snd];
    [|repeat split; try reflexivity; try congruence;
      intros H; exfalso; apply H; reflexivity ..].
  destruct ((status =? 403) && Contains respBody _) eqn:Hrate; cbn [fst snd].
  { repeat split; try reflexivity; try congruence.
    intros H; exfalso; apply H; reflexivity. }
  assert (Hnot : forall b,
            Some (mkResponse status (Some respBody))
            = Some (mkResponse 403 (Some b)) ->
            Contains b "API rate limit exceeded for " = true -> False).
  { intros b Hb Hc. injection Hb as -> ->. rewrite Hc in Hrate.
    discriminate. }
  destruct (Z.eqb_spec status 200) as [->|Hne]; cbn [negb fst snd];
    [destruct (json_Unmarshal_Name respBody) as [tag|] eqn:Hj;
     cbn [fst snd]|];
    repeat split;
    first [ reflexivity
          | congruence
          | intros H; exfalso; apply H; reflexivity
          | intros; exfalso; eauto; fail
          | intros _; exists respBody, tag; repeat split; auto ].
Qed.

End CronProperties.

(** A feed that answers every request with 200 and a body that decodes to
    [v0.50]: the janitor cycle publishes [v0.50]. *)
Lemma cron_effect_witness :
  let feed := fun _ : string => Some (mkResponse 200 (Some "{}")) in
  let decode := fun _ : string => Some "v0.50" in
  ReleaseVersion (fst (cron feed decode empty_server)) = "v0.50"
  /\ ReleaseVersion empty_server = "UNKNOWN".
Proof.
  intros feed decode.
  destruct (cron_effect feed decode empty_server)
    as (_ & _ & _ & _ & _ & _ & Hpublished).
  destruct (Hpublished "{}" "v0.50" eq_refl eq_refl) as [_ Hversion].
  split; [|reflexivity].
  etransitivity; [exact Hversion|]. vm_compute. reflexivity.
Defined.

(** ** Response sizes *)

Lemma byteCount_loop_stop turns n div exp :
  n < 1000 -> byteCount_loop (S turns) n div exp = Some (div, exp).
Proof.
  intros H. cbn [byteCount_loop].
  destruct (Z.geb_spec n 1000); [lia|reflexivity].
Qed.

Lemma byteCount_loop_turn turns n div exp :
  1000 <= n ->
  byteCount_loop (S turns) n div exp
  = byteCount_loop turns (Z.quot n 1000) (wrap_int (div * 1000))
      (wrap_int (exp + 1)).
Proof.
  intros H. cbn [byteCount_loop].
  destruct (Z.geb_spec n 1000); [reflexivity|lia].
Qed.

Lemma quot_1000_bounds n lo hi :
  0 <= lo -> lo * 1000 <= n < hi * 1000 -> lo <= Z.quot n 1000 < hi.
Proof.
  intros Hlo Hn. rewrite Z.quot_div_nonneg by lia. split.
  - apply Z.div_le_lower_bound; lia.
  - apply Z.div_lt_upper_bound; lia.
Qed.

Ltac byteCount_turn :=
  match goal with
  | Hn : ?lo * 1000 <= ?n < ?hi * 1000
    |- context [byteCount_loop (S ?t) (Z.quot ?n 1000) ?d ?e] =>
      let H := fresh "Hq" in
      assert (H := quot_1000_bounds n lo hi ltac:(lia) Hn);
      first
        [ rewrite (byteCount_loop_stop t (Z.quot n 1000) d e) by lia
        | rewrite (byteCount_loop_turn t (Z.quot n 1000) d e) by lia ]
  end.

(** X7. Unit selection of [byteCountToString] for every [int]: below one
    thousand the text is the number followed by [" B"]; from a thousand on,
    the divisor and letter handed to the float format are 10^3 and [k]
    below a million, 10^6 and [M] below a billion, 10^9 and [G] below
    10^12; from 10^12 on the lookup of the unit letter is out of range. *)
Theorem byteCountToString_units (b : Z) :
  minInt <= b <= maxInt ->
  (b < 1000 -> byteCountToString b = Some (Bytes (Itoa b ++ " B")%string))
  /\ (1000 <= b < 10 ^ 6 -> byteCountToString b = Some (Scaled b 1000 "k"))
  /\ (10 ^ 6 <= b < 10 ^ 9 ->
      byteCountToString b = Some (Scaled b (10 ^ 6) "M"))
  /\ (10 ^ 9 <= b < 10 ^ 12 ->
      byteCountToString b = Some (Scaled b (10 ^ 9) "G"))
  /\ (10 ^ 12 <= b ->
      exists exp, 3 <= exp <= 5
        /\ byteCountToString b = Some (IndexOutOfRange exp)).
Proof.
  intros Hb. unfold byteCountToString.
  change 64%nat with (S (S (S (S (S (S (S 57))))))).
  change (10 ^ 6) with 1000000. change (10 ^ 9) with 1000000000.
  change (10 ^ 12) with 1000000000000.
  split; [|split; [|split; [|split]]]; intros Hr.
  - destruct (Z.ltb_spec b 1000); [reflexivity|lia].
  - destruct (Z.ltb_spec b 1000); [lia|].
    assert (Hn : 1 * 1000 <= b < 1000 * 1000) by lia.
    byteCount_turn. reflexivity.
  - destruct (Z.ltb_spec b 1000); [lia|].
    assert (Hn : 1000 * 1000 <= b < 1000000 * 1000) by lia.
    byteCount_turn.
    assert (Hn1 : 1 * 1000 <= Z.quot b 1000 < 1000 * 1000) by lia.
    byteCount_turn. reflexivity.
  - destruct (Z.ltb_spec b 1000); [lia|].
    assert (Hn : 1000000 * 1000 <= b < 1000000000 * 1000) by lia.
    byteCount_turn.
    assert (Hn1 : 1000 * 1000 <= Z.quot b 1000 < 1000000 * 1000) by lia.
    byteCount_turn.
    assert (Hn2 : 1 * 1000 <= Z.quot (Z.quot b 1000) 1000 < 1000 * 1000)
      by lia.
    byteCount_turn. reflexivity.
  - destruct (Z.ltb_spec b 1000); [lia|].
    unfold maxInt in Hb.
    assert (Hn : 1000000000 * 1000 <= b < 9223372036854776 * 1000) by lia.
    byteCount_turn.
    assert (Hn1 : 1000000 * 1000 <= Z.quot b 1000 < 9223372036855 * 1000)
      by lia.
    byteCount_turn.
    assert (Hn2 : 1000 * 1000 <= Z.quot (Z.quot b 1000) 1000
                  < 9223372037 * 1000) by lia.
    byteCount_turn.
    set (n3 := Z.quot (Z.quot (Z.quot b 1000) 1000) 1000) in *.
    assert (Hn3 : 1 * 1000 <= n3 < 9223373 * 1000) by lia.
    assert (Hq3 := quot_1000_bounds n3 1 9223373 ltac:(lia) Hn3).
    set (n4 := Z.quot n3 1000) in *.
    destruct (Z.lt_ge_cases n4 1000) as [H4|H4].
    { rewrite byteCount_loop_stop by lia. exists 3. split; [lia|reflexivity]. }
    rewrite byteCount_loop_turn by lia.
    assert (Hn4 : 1 * 1000 <= n4 < 9224 * 1000) by lia.
    assert (Hq4 := quot_1000_bounds n4 1 9224 ltac:(lia) Hn4).
    set (n5 := Z.quot n4 1000) in *.
    destruct (Z.lt_ge_cases n5 1000) as [H5|H5].
    { rewrite byteCount_loop_stop by lia. exists 4. split; [lia|reflexivity]. }
    rewrite byteCount_loop_turn by lia.
    assert (Hn5 : 1 * 1000 <= n5 < 10 * 1000) by lia.
    assert (Hq5 := quot_1000_bounds n5 1 10 ltac:(lia) Hn5).
    rewrite byteCount_loop_stop by lia.
    exists 5. split; [lia|reflexivity].
Qed.

Lemma byteCountToString_units_witness :
  byteCountToString 999 = Some (Bytes "999 B")
  /\ byteCountToString 1000 = Some (Scaled 1000 1000 "k")
  /\ byteCountToString 2500000 = Some (Scaled 2500000 1000000 "M")
  /\ byteCountToString 1000000000000 = Some (IndexOutOfRange 3).
Proof.
  assert (Hint : forall b, 0 <= b <= 1000000000000 -> minInt <= b <= maxInt)
    by (unfold minInt, maxInt; intros; lia).
  split; [|split; [|split]].
  - apply (byteCountToString_units 999 (Hint 999 ltac:(lia))). lia.
  - apply (byteCountToString_units 1000 (Hint 1000 ltac:(lia))). lia.
  - apply (byteCountToString_units 2500000 (Hint 2500000 ltac:(lia))). lia.
  - reflexivity.
Defined.

(** ** Required query parameters *)

Ltac abort_on_missing H :=
  unfold first_missing in H; cbn [find] in H;
  repeat
    match type of H with
    | context [String.eqb (Query_Get ?r ?k) ""] =>
        let Hk := fresh "Hk" in
        destruct (String.eqb_spec (Query_Get r k) "") as [Hk|Hk];
        [ injection H as <-;
          repeat run_param;
          rewrite (bind_panicked _ _ _ _ _
                     (getRequiredQueryParam_missing _ _ _ Hk));
          reflexivity
        | ]
    end;
  discriminate H.

(** X8. A request that lacks a required query parameter (absent, or given
    with an empty value) makes its handler panic on the first parameter
    missing, in the order the handler reads them, before any table is
    touched: not even the usage telemetry records the call. *)
Theorem missing_parameter_aborts (now : Z) (r : Request)
  (entries : list EncHistoryEntry.t) (g : Server) (key : string) :
  (first_missing r ["user_id"; "device_id"] = Some key ->
   apiQueryHandler now r g = (g, Panicked (MissingQueryParam key))
   /\ apiBootstrapHandler now r g = (g, Panicked (MissingQueryParam key))
   /\ apiRegisterHandler now r g = (g, Panicked (MissingQueryParam key))
   /\ apiGetPendingDumpRequestsHandler r g
      = (g, Panicked (MissingQueryParam key))
   /\ getDeletionRequestsHandler r g = (g, Panicked (MissingQueryParam key)))
  /\ (first_missing r ["user_id"; "source_device_id"; "requesting_device_id"]
      = Some key ->
      apiSubmitDumpHandler now r entries g
      = (g, Panicked (MissingQueryParam key)))
  /\ (first_missing r ["commit_hash"; "device_id"] = Some key ->
      apiBannerHandler r g = (g, Panicked (MissingQueryParam key))).
Proof.
  split; [|split]; intros H.
  - repeat split.
    + unfold apiQueryHandler. abort_on_missing H.
    + unfold apiBootstrapHandler. abort_on_missing H.
    + unfold apiRegisterHandler. abort_on_missing H.
    + unfold apiGetPendingDumpRequestsHandler. abort_on_missing H.
    + unfold getDeletionRequestsHandler. abort_on_missing H.
  - unfold apiSubmitDumpHandler. abort_on_missing H.
  - unfold apiBannerHandler. abort_on_missing H.
Qed.

(** A dump submission without [requesting_device_id] changes nothing, even
    though its batch is acceptable. *)
Lemma missing_parameter_aborts_witness :
  let r := mkRequest [("user_id", "u"); ("source_device_id", "A");
                      ("requesting_device_id", "")] "127.0.0.1:1" in
  apiSubmitDumpHandler 5 r [late_entry] late_entry_state
  = (late_entry_state, Panicked (MissingQueryParam "requesting_device_id")).
Proof.
  intros r.
  apply (missing_parameter_aborts 5 r [late_entry] late_entry_state
           "requesting_device_id").
  reflexivity.
Defined.

(** ** Usage telemetry *)

Lemma updateUsageData_usage now userId deviceId numEntries g :
  usage_of (final (updateUsageData now userId deviceId numEntries g))
  = if Nat.eqb (length (filter (usage_matches userId deviceId) (usage_of g))) 0
    then usage_of g ++ [UsageData.mk userId deviceId now numEntries]
    else if 0 <? numEntries
         then map (count_usage numEntries userId deviceId)
                (map (touch_usage now userId deviceId) (usage_of g))
         else map (touch_usage now userId deviceId) (usage_of g).
Proof.
  unfold updateUsageData, bind, get, modify, ret, final.
  destruct (Nat.eqb _ 0); [reflexivity|].
  destruct (0 <? numEntries); reflexivity.
Qed.

Lemma updateUsageData_final now userId deviceId numEntries g :
  final (updateUsageData now userId deviceId numEntries g)
  = set_usage_data
      (usage_of (final (updateUsageData now userId deviceId numEntries g))) g.
Proof.
  unfold updateUsageData, bind, get, modify, ret, final.
  destruct (Nat.eqb _ 0); [reflexivity|].
  destruct (0 <? numEntries); reflexivity.
Qed.

Lemma touch_usage_key now userId deviceId u :
  UsageData.UserId (touch_usage now userId deviceId u) = UsageData.UserId u
  /\ UsageData.DeviceId (touch_usage now userId deviceId u)
     = UsageData.DeviceId u.
Proof. unfold touch_usage. destruct (usage_matches _ _ u); split; reflexivity. Qed.

Lemma count_usage_key numEntries userId deviceId u :
  UsageData.UserId (count_usage numEntries userId deviceId u)
  = UsageData.UserId u
  /\ UsageData.DeviceId (count_usage numEntries userId deviceId u)
     = UsageData.DeviceId u.
Proof. unfold count_usage. destruct (usage_matches _ _ u); split; reflexivity. Qed.

Lemma usage_matches_spec userId deviceId u :
  usage_matches userId deviceId u = true
  <-> (UsageData.UserId u, UsageData.DeviceId u) = (userId, deviceId).
Proof.
  unfold usage_matches. rewrite andb_true_iff, !String.eqb_eq.
  split; [intros [-> ->]; reflexivity|intros H; injection H; auto].
Qed.

Lemma updateUsageData_keys now userId deviceId numEntries g :
  usage_keys (final (updateUsageData now userId deviceId numEntries g))
  = if Nat.eqb (length (filter (usage_matches userId deviceId) (usage_of g))) 0
    then usage_keys g ++ [(userId, deviceId)]
    else usage_keys g.
Proof.
  unfold usage_keys. rewrite updateUsageData_usage.
  destruct (Nat.eqb _ 0).
  - rewrite map_app. reflexivity.
  - destruct (0 <? numEntries); rewrite ?map_map; apply map_ext; intros u.
    + destruct (count_usage_key numEntries userId deviceId
                  (touch_usage now userId deviceId u)) as [-> ->].
      destruct (touch_usage_key now userId deviceId u) as [-> ->].
      reflexivity.
    + destruct (touch_usage_key now userId deviceId u) as [-> ->].
      reflexivity.
Qed.

Lemma updateUsageData_unique now userId deviceId numEntries g :
  NoDup (usage_keys g) ->
  NoDup (usage_keys (final (updateUsageData now userId deviceId numEntries g))).
Proof.
  intros Hnd. rewrite updateUsageData_keys.
  destruct (Nat.eqb _ 0) eqn:Hlen; [|assumption].
  apply length_zero_nil in Hlen.
  apply NoDup_app; [assumption|repeat constructor; intros []|].
  intros key Hin [<-|[]].
  unfold usage_keys in Hin. apply in_map_iff in Hin as (u & Hkey & Hu).
  apply (proj1 (filter_nil_iff _ _) Hlen) in Hu.
  apply usage_matches_spec in Hkey. congruence.
Qed.

Section UsageInvariant.

(** A property of the usage table that every [updateUsageData] keeps. *)
Variable P : list UsageData.t -> Prop.
Hypothesis P_update : forall now userId deviceId numEntries g,
  P (usage_of g) ->
  P (usage_of (final (updateUsageData now userId deviceId numEntries g))).

Lemma submit_entry_usage now entry g :
  usage_of (final (submit_entry now entry g))
  = usage_of (final (updateUsageData now (EncHistoryEntry.UserId entry)
                       (EncHistoryEntry.DeviceId entry) 1 g)).
Proof.
  unfold submit_entry. unfold bind at 1.
  destruct (updateUsageData_run now (EncHistoryEntry.UserId entry)
              (EncHistoryEntry.DeviceId entry) 1 g) as [usage ->].
  unfold bind, get.
  destruct (Nat.eqb _ 0); [reflexivity|].
  rewrite fan_out_loop. reflexivity.
Qed.

Lemma apiSubmitHandler_usage_inv now entries : forall g,
  P (usage_of g) -> P (usage_of (final (apiSubmitHandler now entries g))).
Proof.
  unfold apiSubmitHandler.
  induction entries as [|entry entries IH]; intros g HP; [exact HP|].
  cbn [for_range]. unfold bind.
  assert (H1 : P (usage_of (final (submit_entry now entry g))))
    by (rewrite submit_entry_usage; now apply P_update).
  destruct (submit_entry now entry g) as [g1 [[]|p]]; [|exact H1].
  apply IH. exact H1.
Qed.

Lemma apiBootstrapHandler_usage_inv now r g :
  P (usage_of g) -> P (usage_of (final (apiBootstrapHandler now r g))).
Proof.
  intros HP. unfold apiBootstrapHandler.
  case_param; [|exact HP]. case_param; [|exact HP].
  unfold bind at 1.
  match goal with |- context [updateUsageData ?a ?b ?c ?d ?s] =>
    specialize (P_update a b c d s HP);
    destruct (updateUsageData_run a b c d s) as [usage E]; rewrite E in *
  end.
  exact P_update.
Qed.

Lemma apiQueryHandler_usage_inv now r g :
  P (usage_of g) -> P (usage_of (final (apiQueryHandler now r g))).
Proof.
  intros HP. unfold apiQueryHandler.
  case_param; [|exact HP]. case_param; [|exact HP].
  unfold bind at 1.
  match goal with |- context [updateUsageData ?a ?b ?c ?d ?s] =>
    specialize (P_update a b c d s HP);
    destruct (updateUsageData_run a b c d s) as [usage E]; rewrite E in *
  end.
  unfold bind at 1, modify at 1. unfold bind at 1, get at 1.
  unfold bind at 1. rewrite apply_pending_loop.
  exact P_update.
Qed.

Lemma apiRegisterHandler_usage_inv now r g :
  P (usage_of g) -> P (usage_of (final (apiRegisterHandler now r g))).
Proof.
  intros HP. unfold apiRegisterHandler.
  case_param; [|exact HP]. case_param; [|exact HP].
  unfold bind at 1, get. unfold bind at 1, modify at 1.
  unfold bind at 1.
  destruct (0 <? _); unfold modify, ret; apply P_update; exact HP.
Qed.

Lemma apiSubmitDumpHandler_usage_inv now r entries g :
  P (usage_of g) -> P (usage_of (final (apiSubmitDumpHandler now r entries g))).
Proof.
  intros HP. unfold apiSubmitDumpHandler.
  case_param; [|exact HP]. case_param; [|exact HP].
  case_param; [|exact HP].
  destruct (batch_users_cases (Query_Get r "user_id") entries) as [Hok|Hbad].
  - unfold bind at 1, Transaction.
    rewrite (submitDump_tx_accept _ _ _ _ Hok).
    unfold bind at 1, modify. apply P_update. exact HP.
  - unfold bind, Transaction.
    destruct (submitDump_tx_reject _ (Query_Get r "requesting_device_id")
                _ (GLOBAL_DB g) Hbad) as (tx' & u & -> & _).
    exact HP.
Qed.

Lemma serve_usage_inv c g : P (usage_of g) -> P (usage_of (serve c g)).
Proof.
  intros HP. destruct c as [now entries|now r|now r|now r|r|now r entries
                           |r|request| |]; cbn [serve].
  - now apply apiSubmitHandler_usage_inv.
  - now apply apiBootstrapHandler_usage_inv.
  - now apply apiQueryHandler_usage_inv.
  - now apply apiRegisterHandler_usage_inv.
  - rewrite apiGetPendingDumpRequestsHandler_final. exact HP.
  - now apply apiSubmitDumpHandler_usage_inv.
  - unfold getDeletionRequestsHandler.
    case_param; [|exact HP]. case_param; exact HP.
  - destruct (find_devices (DeletionRequest.UserId request) g) eqn:Hdev.
    + rewrite (addDeletionRequestHandler_no_devices _ _ Hdev). exact HP.
    + rewrite addDeletionRequestHandler_run by congruence. exact HP.
  - exact HP.
  - exact HP.
Qed.

Lemma serve_all_usage_inv calls : forall g,
  P (usage_of g) -> P (usage_of (serve_all calls g)).
Proof.
  induction calls as [|c calls IH]; intros g HP; cbn; [exact HP|].
  apply IH. now apply serve_usage_inv.
Qed.

End UsageInvariant.

(** X9. The usage table never holds two rows for one (user, device) pair:
    starting from an empty store, or from any store where the keys are
    distinct, they stay distinct through every call, so the insertion in
    [updateUsageData] never meets the unique index. *)
Theorem usage_keys_unique (calls : list call) (g : Server) :
  NoDup (usage_keys g) ->
  NoDup (usage_keys (serve_all calls g))
  /\ NoDup (usage_keys (serve_all calls empty_server)).
Proof.
  intros Hnd.
  assert (Hinv : forall g0, NoDup (usage_keys g0) ->
                   NoDup (usage_keys (serve_all calls g0))).
  { intros g0 H0.
    apply (serve_all_usage_inv
             (fun usage => NoDup (map (fun u => (UsageData.UserId u,
                                                 UsageData.DeviceId u)) usage)));
      [|exact H0].
    intros now userId deviceId numEntries g1 H1.
    now apply updateUsageData_unique. }
  split; [now apply Hinv|]. apply Hinv. constructor.
Qed.

Lemma usage_keys_unique_witness :
  NoDup (usage_keys
           (serve_all [Register 1 (query_request "u" "A");
                       Query 2 (query_request "u" "A");
                       Submit 3 [late_entry; late_entry]]
              late_entry_state)).
Proof.
  apply usage_keys_unique.
  repeat constructor; cbn; intuition discriminate.
Defined.

Lemma filter_map_commute {A} (p : A -> bool) (f : A -> A) (l : list A) :
  (forall x, p (f x) = p x) -> filter p (map f l) = map f (filter p l).
Proof.
  intros H. induction l as [|a l IH]; cbn [map filter]; [reflexivity|].
  rewrite H. destruct (p a); cbn [map]; now rewrite IH.
Qed.

Lemma usage_matches_key userId deviceId u u' :
  UsageData.UserId u' = UsageData.UserId u ->
  UsageData.DeviceId u' = UsageData.DeviceId u ->
  usage_matches userId deviceId u' = usage_matches userId deviceId u.
Proof. unfold usage_matches. now intros -> ->. Qed.

Lemma usage_row_unique userId deviceId (l : list UsageData.t) :
  NoDup (map (fun u => (UsageData.UserId u, UsageData.DeviceId u)) l) ->
  (length (filter (usage_matches userId deviceId) l) <= 1)%nat.
Proof.
  induction l as [|a l IH]; cbn [map filter]; intros Hnd; [cbn; lia|].
  inversion Hnd as [|? ? Hnotin Hnd']; subst.
  destruct (usage_matches userId deviceId a) eqn:Ha; [|auto].
  replace (filter (usage_matches userId deviceId) l) with (@nil UsageData.t);
    [cbn; lia|].
  symmetry. apply filter_nil_iff. intros x Hx.
  destruct (usage_matches userId deviceId x) eqn:Hmx; [|reflexivity].
  exfalso. apply Hnotin. apply usage_matches_spec in Ha, Hmx.
  rewrite Ha, <- Hmx.
  apply (in_map (fun u => (UsageData.UserId u, UsageData.DeviceId u)) l x Hx).
Qed.

Lemma updateUsageData_touched now userId deviceId numEntries g :
  usage_of (final (updateUsageData now userId deviceId numEntries g))
  = if Nat.eqb (length (filter (usage_matches userId deviceId) (usage_of g))) 0
    then usage_of g ++ [UsageData.mk userId deviceId now numEntries]
    else map (touched now numEntries userId deviceId) (usage_of g).
Proof.
  rewrite updateUsageData_usage. destruct (Nat.eqb _ 0); [reflexivity|].
  unfold touched. destruct (0 <? numEntries); [|reflexivity].
  now rewrite map_map.
Qed.

Lemma touched_key now numEntries userId deviceId u :
  UsageData.UserId (touched now numEntries userId deviceId u)
  = UsageData.UserId u
  /\ UsageData.DeviceId (touched now numEntries userId deviceId u)
     = UsageData.DeviceId u.
Proof.
  unfold touched. destruct (0 <? numEntries).
  - destruct (count_usage_key numEntries userId deviceId
                (touch_usage now userId deviceId u)) as [-> ->].
    apply touch_usage_key.
  - apply touch_usage_key.
Qed.

Lemma touched_other now numEntries userId deviceId u :
  usage_matches userId deviceId u = false ->
  touched now numEntries userId deviceId u = u.
Proof.
  intros H. unfold touched, count_usage, touch_usage. rewrite H.
  destruct (0 <? numEntries); [rewrite H|]; reflexivity.
Qed.

Lemma touched_own now numEntries userId deviceId u :
  usage_matches userId deviceId u = true ->
  0 <= numEntries ->
  UsageData.NumEntriesHandled (touched now numEntries userId deviceId u)
  = UsageData.NumEntriesHandled u + numEntries
  /\ UsageData.LastUsed (touched now numEntries userId deviceId u) = now.
Proof.
  intros H Hn. unfold touched, count_usage, touch_usage. rewrite H.
  destruct (Z.ltb_spec 0 numEntries).
  - unfold usage_matches in *. cbn. rewrite H. cbn. split; reflexivity.
  - cbn. split; [lia|reflexivity].
Qed.

Lemma updateUsageData_upsert (now : Z) (userId deviceId : string)
  (numEntries : Z) (g : Server) :
  NoDup (usage_keys g) ->
  0 <= numEntries ->
  let g' := final (updateUsageData now userId deviceId numEntries g) in
  entries_handled userId deviceId g'
  = entries_handled userId deviceId g + numEntries
  /\ (forall userId' deviceId',
        (userId', deviceId') <> (userId, deviceId) ->
        entries_handled userId' deviceId' g'
        = entries_handled userId' deviceId' g)
  /\ (exists row,
        filter (usage_matches userId deviceId) (usage_of g') = [row]
        /\ UsageData.LastUsed row = now)
  /\ g' = set_usage_data (usage_of g') g.
Proof.
  intros Hnd Hn g'. subst g'.
  split; [|split; [|split; [|apply updateUsageData_final]]].
  - unfold entries_handled. rewrite updateUsageData_touched.
    assert (Hone := usage_row_unique userId deviceId (usage_of g) Hnd).
    destruct (filter (usage_matches userId deviceId) (usage_of g))
      as [|row [|row' rest]] eqn:Hf; cbn [length Nat.eqb] in *; [| |lia].
    + rewrite filter_app, Hf. cbn [filter app].
      unfold usage_matches at 1. cbn. rewrite !String.eqb_refl. cbn. lia.
    + rewrite filter_map_commute, Hf.
      * cbn [map fold_right].
        assert (Hrow : usage_matches userId deviceId row = true).
        { assert (Hin : In row [row]) by now left.
          rewrite <- Hf in Hin. now apply filter_In in Hin. }
        destruct (touched_own now numEntries userId deviceId row Hrow Hn)
          as [-> _]. lia.
      * intros x. destruct (touched_key now numEntries userId deviceId x).
        now apply usage_matches_key.
  - intros userId' deviceId' Hne. unfold entries_handled.
    rewrite updateUsageData_touched. destruct (Nat.eqb _ 0).
    + rewrite filter_app. cbn [filter].
      replace (usage_matches userId' deviceId'
                 (UsageData.mk userId deviceId now numEntries)) with false.
      * now rewrite app_nil_r.
      * symmetry. destruct (usage_matches userId' deviceId' _) eqn:E;
          [|reflexivity].
        apply usage_matches_spec in E. cbn in E. congruence.
    + rewrite filter_map_commute.
      * f_equal. f_equal. rewrite <- (map_id (filter _ (usage_of g))) at 2.
        apply map_ext_in. intros x Hx. apply filter_In in Hx as [_ Hx].
        apply touched_other.
        destruct (usage_matches userId deviceId x) eqn:E; [|reflexivity].
        apply usage_matches_spec in E, Hx. congruence.
      * intros x. destruct (touched_key now numEntries userId deviceId x).
        now apply usage_matches_key.
  - rewrite updateUsageData_touched.
    assert (Hone := usage_row_unique userId deviceId (usage_of g) Hnd).
    destruct (filter (usage_matches userId deviceId) (usage_of g))
      as [|row [|row' rest]] eqn:Hf; cbn [length Nat.eqb] in *; [| |lia].
    + rewrite filter_app, Hf. cbn [filter app].
      unfold usage_matches at 1. cbn. rewrite !String.eqb_refl. cbn.
      eexists. split; reflexivity.
    + rewrite filter_map_commute, Hf.
      * cbn [map]. eexists. split; [reflexivity|].
        assert (Hrow : usage_matches userId deviceId row = true).
        { assert (Hin : In row [row]) by now left.
          rewrite <- Hf in Hin. now apply filter_In in Hin. }
        now destruct (touched_own now numEntries userId deviceId row Hrow Hn).
      * intros x. destruct (touched_key now numEntries userId deviceId x).
        now apply usage_matches_key.
Qed.

(** Both UPDATE statements of [updateUsageData] carry their WHERE clause:
    the rows of the other pairs stay as they were, field by field and in
    their order. *)
Lemma updateUsageData_other_rows (now : Z) (userId deviceId : string)
  (numEntries : Z) (g : Server) :
  filter (fun u => negb (usage_matches userId deviceId u))
    (usage_of (final (updateUsageData now userId deviceId numEntries g)))
  = filter (fun u => negb (usage_matches userId deviceId u)) (usage_of g).
Proof.
  rewrite updateUsageData_touched. destruct (Nat.eqb _ 0).
  - rewrite filter_app. cbn [filter]. unfold usage_matches at 2. cbn.
    rewrite !String.eqb_refl. cbn. apply app_nil_r.
  - rewrite (filter_map_commute
               (fun u => negb (usage_matches userId deviceId u))).
    + rewrite <- (map_id (filter _ (usage_of g))) at 2.
      apply map_ext_in. intros x Hx. apply filter_In in Hx as [_ Hx].
      apply touched_other. now apply negb_true_iff in Hx.
    + intros x. f_equal.
      destruct (touched_key now numEntries userId deviceId x).
      now apply usage_matches_key.
Qed.

(** X10. [updateUsageData] is an upsert on the key (user, device): with
    distinct keys in the table and a count that is not negative, it adds the
    count to the entries handled for that pair (creating the row when there
    is none), stamps the pair's row with the time of the call, and leaves
    every row of every other pair as it was, in each of its fields, its
    last-used time included, and every other table too. *)
Theorem updateUsageData_counts (now : Z) (userId deviceId : string)
  (numEntries : Z) (g : Server) :
  NoDup (usage_keys g) ->
  0 <= numEntries ->
  let g' := final (updateUsageData now userId deviceId numEntries g) in
  entries_handled userId deviceId g'
  = entries_handled userId deviceId g + numEntries
  /\ (forall userId' deviceId',
        (userId', deviceId') <> (userId, deviceId) ->
        entries_handled userId' deviceId' g'
        = entries_handled userId' deviceId' g)
  /\ (exists row,
        filter (usage_matches userId deviceId) (usage_of g') = [row]
        /\ UsageData.LastUsed row = now)
  /\ g' = set_usage_data (usage_of g') g
  /\ filter (fun u => negb (usage_matches userId deviceId u)) (usage_of g')
     = filter (fun u => negb (usage_matches userId deviceId u)) (usage_of g)
  /\ (forall row,
        In row (usage_of g) ->
        (UsageData.UserId row, UsageData.DeviceId row) <> (userId, deviceId) ->
        In row (usage_of g')).
Proof.
  intros Hnd Hn g'.
  destruct (updateUsageData_upsert now userId deviceId numEntries g Hnd Hn)
    as (Hown & Hother & Hrow & Htables).
  assert (Hrows := updateUsageData_other_rows now userId deviceId numEntries g).
  refine (conj Hown (conj Hother (conj Hrow (conj Htables (conj Hrows _))))).
  intros row Hin Hkey.
  assert (Hkept : In row (filter (fun u =>
                                    negb (usage_matches userId deviceId u))
                            (usage_of g))).
  { apply filter_In. split; [exact Hin|]. apply negb_true_iff.
    destruct (usage_matches userId deviceId row) eqn:E; [|reflexivity].
    apply usage_matches_spec in E. contradiction. }
  rewrite <- Hrows in Hkept. now apply filter_In in Hkept.
Qed.

(** A user's device that has handled nothing yet submits: its counter goes
    from 0 to 1.  When it submits again, the row of the user's other device
    keeps its last-used time. *)
Lemma updateUsageData_counts_witness :
  entries_handled "u" "A"
    (final (updateUsageData 9 "u" "A" 1 empty_server)) = 1
  /\ (let g := set_usage_data
                 [UsageData.mk "u" "A" 9 1; UsageData.mk "u" "B" 5 3]
                 empty_server in
      In (UsageData.mk "u" "B" 5 3)
        (usage_of (final (updateUsageData 12 "u" "A" 1 g)))).
Proof.
  split.
  - destruct (updateUsageData_counts 9 "u" "A" 1 empty_server
                ltac:(constructor) ltac:(lia)) as [H _].
    rewrite H. reflexivity.
  - intros g.
    assert (Hnd : NoDup (usage_keys g)).
    { repeat constructor; cbn; intuition discriminate. }
    destruct (updateUsageData_counts 12 "u" "A" 1 g Hnd ltac:(lia))
      as (_ & _ & _ & _ & _ & Hkept).
    apply Hkept; [right; left; reflexivity|cbn; discriminate].
Defined.

(** ** Delivery, once more *)

(** X11. In a store where the read counts of the user's rows are those of
    the 64-bit column, a bootstrap that carries both parameters returns
    every entry row of the user, with its multiplicity, from whatever
    mailbox and at whatever read count of that column (past the window of 5
    and past the janitor's 10 too), and no row of another user; every
    returned read count is one of the column; the call advances no read
    count and writes nothing but usage telemetry. *)
Theorem apiBootstrapHandler_reads_all (now : Z) (r : Request) (g : Server) :
  Query_Get r "user_id" <> "" ->
  Query_Get r "device_id" <> "" ->
  (forall x,
     In x (entries_of g) ->
     EncHistoryEntry.UserId x = Query_Get r "user_id" ->
     minInt <= EncHistoryEntry.ReadCount x <= maxInt) ->
  let run := apiBootstrapHandler now r g in
  exists rows,
    result run = Returned rows
    /\ (forall x,
          count_rows rows x
          = if String.eqb (EncHistoryEntry.UserId x) (Query_Get r "user_id")
            then count_rows (entries_of g) x else 0%nat)
    /\ (forall x,
          In x rows -> minInt <= EncHistoryEntry.ReadCount x <= maxInt)
    /\ entries_of (final run) = entries_of g
    /\ devices_of (final run) = devices_of g
    /\ dump_requests_of (final run) = dump_requests_of g
    /\ deletion_requests_of (final run) = deletion_requests_of g.
Proof.
  intros Hu Hd Hrange run. subst run.
  destruct (apiBootstrapHandler_run now r g Hu Hd) as [usage ->].
  eexists. split; [reflexivity|]. split; [|split; [|repeat split]].
  - intros x. unfold count_rows. rewrite count_occ_filter. reflexivity.
  - intros x Hx. apply filter_In in Hx as [Hin Hx].
    apply String.eqb_eq in Hx. exact (Hrange x Hin Hx).
Qed.

Lemma apiBootstrapHandler_reads_all_witness :
  exists rows,
    result (apiBootstrapHandler 9 (query_request "u" "B") three_mailboxes)
    = Returned rows
    /\ length rows = 3%nat.
Proof.
  assert (Hrange : forall x,
            In x (entries_of three_mailboxes) ->
            EncHistoryEntry.UserId x
            = Query_Get (query_request "u" "B") "user_id" ->
            minInt <= EncHistoryEntry.ReadCount x <= maxInt).
  { intros x [<-|[<-|[<-|[]]]] _; cbn; unfold minInt, maxInt; lia. }
  destruct (apiBootstrapHandler_reads_all 9 (query_request "u" "B")
              three_mailboxes ltac:(vm_compute; discriminate)
              ltac:(vm_compute; discriminate) Hrange)
    as (rows & Hres & _).
  exists rows. split; [exact Hres|].
  assert (H : result (apiBootstrapHandler 9 (query_request "u" "B")
                        three_mailboxes)
              = Returned (entries_of three_mailboxes)) by reflexivity.
  rewrite H in Hres. injection Hres as <-. reflexivity.
Defined.



Lemma increment_keeps_device deviceId e :
  EncHistoryEntry.DeviceId (increment_read_count deviceId e)
  = EncHistoryEntry.DeviceId e.
Proof.
  unfold increment_read_count.
  destruct (String.eqb (EncHistoryEntry.DeviceId e) deviceId); reflexivity.
Qed.

Lemma count_incremented_elsewhere deviceId (l : list EncHistoryEntry.t) x :
  EncHistoryEntry.DeviceId x <> deviceId ->
  count_rows (map (increment_read_count deviceId) l) x = count_rows l x.
Proof.
  intros Hx. unfold count_rows.
  induction l as [|a l IH]; cbn [map count_occ]; [reflexivity|].
  destruct (EncHistoryEntry.eq_dec (increment_read_count deviceId a) x)
    as [E|E];
    destruct (EncHistoryEntry.eq_dec a x) as [E'|E'];
    rewrite IH; try reflexivity; exfalso.
  - assert (Hd := increment_keeps_device deviceId a). rewrite E in Hd.
    unfold increment_read_count in E.
    destruct (String.eqb_spec (EncHistoryEntry.DeviceId a) deviceId);
      congruence.
  - subst a. unfold increment_read_count in E.
    destruct (String.eqb_spec (EncHistoryEntry.DeviceId x) deviceId);
      congruence.
Qed.

(** X13. Frame of a query of [(userId, deviceId)]: an entry row that sits in
    another mailbox and belongs to another user is untouched, with its
    multiplicity; the entry table never grows; and the Device, DumpRequest
    and DeletionRequest tables are left as they were. *)
Theorem apiQueryHandler_frame (now : Z) (r : Request) (g : Server) :
  Query_Get r "user_id" <> "" ->
  Query_Get r "device_id" <> "" ->
  let run := apiQueryHandler now r g in
  (forall x,
     EncHistoryEntry.DeviceId x <> Query_Get r "device_id" ->
     EncHistoryEntry.UserId x <> Query_Get r "user_id" ->
     count_rows (entries_of (final run)) x = count_rows (entries_of g) x)
  /\ (length (entries_of (final run)) <= length (entries_of g))%nat
  /\ devices_of (final run) = devices_of g
  /\ dump_requests_of (final run) = dump_requests_of g
  /\ deletion_requests_of (final run) = deletion_requests_of g.
Proof.
  intros Hu Hd run. subst run.
  destruct (apiQueryHandler_run now r g Hu Hd) as [usage ->].
  unfold final; cbn [fst].
  change (entries_of (set_entries ?x _)) with x.
  split; [|split; [|repeat split]].
  - intros x Hdev Huser. unfold query_entries.
    unfold count_rows at 1. rewrite count_occ_filter.
    destruct (named_by_pending _ _ g x) eqn:Hn.
    + apply named_by_pending_user in Hn. contradiction.
    + cbn [negb]. now apply count_incremented_elsewhere.
  - unfold query_entries.
    etransitivity; [apply filter_length_le|]. now rewrite length_map.
Qed.

Lemma apiQueryHandler_frame_witness :
  let x := EncHistoryEntry.mk "payload" "B" "u" 7 0 in
  count_rows
    (entries_of (final (apiQueryHandler 9 (query_request "v" "A")
                          three_mailboxes))) x
  = 1%nat.
Proof.
  intros x.
  destruct (apiQueryHandler_frame 9 (query_request "v" "A") three_mailboxes
              ltac:(vm_compute; discriminate) ltac:(vm_compute; discriminate))
    as (H & _).
  rewrite (H x); [reflexivity| |]; vm_compute; discriminate.
Defined.





(** ** Deletion feed *)

Lemma getDeletionRequestsHandler_run r g :
  Query_Get r "user_id" <> "" ->
  Query_Get r "device_id" <> "" ->
  let incremented :=
    map (increment_request_read_count (Query_Get r "user_id")
           (Query_Get r "device_id"))
      (deletion_requests_of g) in
  getDeletionRequestsHandler r g
  = (set_deletion_requests incremented g,
     Returned
       (filter (fun q =>
                  String.eqb (DeletionRequest.UserId q) (Query_Get r "user_id")
                  && String.eqb (DeletionRequest.DestinationDeviceId q)
                       (Query_Get r "device_id"))
          incremented)).
Proof.
  intros Hu Hd. unfold getDeletionRequestsHandler. do 2 run_param.
  reflexivity.
Qed.

Lemma increment_own_request userId deviceId q :
  DeletionRequest.UserId q = userId ->
  DeletionRequest.DestinationDeviceId q = deviceId ->
  increment_request_read_count userId deviceId q
  = DeletionRequest.withReadCount q (DeletionRequest.ReadCount q + 1).
Proof.
  intros Hu Hd. unfold increment_request_read_count.
  now rewrite Hu, Hd, !String.eqb_refl.
Qed.

Lemma deletion_polls_keep userId deviceId polls : forall g q,
  userId <> "" -> deviceId <> "" ->
  (forall r, In r polls ->
     Query_Get r "user_id" = userId /\ Query_Get r "device_id" = deviceId) ->
  In q (deletion_requests_of g) ->
  DeletionRequest.UserId q = userId ->
  DeletionRequest.DestinationDeviceId q = deviceId ->
  In (DeletionRequest.withReadCount q
        (DeletionRequest.ReadCount q + Z.of_nat (length polls)))
    (deletion_requests_of (run_deletion_polls polls g)).
Proof.
  induction polls as [|r polls IH]; intros g q Hu Hd Hall Hin Hqu Hqd.
  - cbn [length Z.of_nat run_deletion_polls fold_left]. rewrite Z.add_0_r.
    destruct q; exact Hin.
  - cbn [run_deletion_polls fold_left].
    destruct (Hall r (or_introl eq_refl)) as [Hru Hrd].
    rewrite getDeletionRequestsHandler_run by congruence.
    unfold final; cbn [fst].
    change (fold_left _ polls ?s) with (run_deletion_polls polls s).
    specialize (IH (set_deletion_requests
                      (map (increment_request_read_count
                              (Query_Get r "user_id") (Query_Get r "device_id"))
                         (deletion_requests_of g)) g)
                  (DeletionRequest.withReadCount q
                     (DeletionRequest.ReadCount q + 1))
                  Hu Hd (fun r' Hr' => Hall r' (or_intror Hr'))).
    cbn [length]. rewrite Nat2Z.inj_succ.
    replace (DeletionRequest.ReadCount q + Z.succ (Z.of_nat (length polls)))
      with (DeletionRequest.ReadCount q + 1 + Z.of_nat (length polls)) by lia.
    apply IH; [|exact Hqu|exact Hqd].
    change (deletion_requests_of (set_deletion_requests ?x _)) with x.
    rewrite <- (increment_own_request (Query_Get r "user_id")
                  (Query_Get r "device_id") q) by congruence.
    now apply in_map.
Qed.

(** X15. Life of a deletion request in the feed of its destination: stored
    for [(userId, deviceId)] with read count 0, it is returned by every poll
    of that device, the [k]-th time with read count [k] (there is no
    delivery window on this feed), and a janitor run that follows the
    [k]-th poll keeps it exactly while [k <= 100]. *)
Theorem deletion_request_lifetime (r : Request) (polls : list Request)
  (g : Server) (q : DeletionRequest.t) :
  Query_Get r "user_id" <> "" ->
  Query_Get r "device_id" <> "" ->
  (forall r', In r' polls ->
     Query_Get r' "user_id" = Query_Get r "user_id"
     /\ Query_Get r' "device_id" = Query_Get r "device_id") ->
  In q (deletion_requests_of g) ->
  DeletionRequest.UserId q = Query_Get r "user_id" ->
  DeletionRequest.DestinationDeviceId q = Query_Get r "device_id" ->
  DeletionRequest.ReadCount q = 0 ->
  let k := Z.of_nat (length polls) + 1 in
  let run := getDeletionRequestsHandler r (run_deletion_polls polls g) in
  let seen := DeletionRequest.withReadCount q k in
  (exists rows, result run = Returned rows /\ In seen rows)
  /\ In seen (deletion_requests_of (final run))
  /\ (In seen (deletion_requests_of (cleanDatabase (final run)))
      <-> k <= 100).
Proof.
  intros Hu Hd Hall Hin Hqu Hqd Hrc k run seen.
  assert (Hbefore := deletion_polls_keep _ _ polls g q Hu Hd Hall Hin Hqu Hqd).
  rewrite Hrc, Z.add_0_l in Hbefore.
  subst run. rewrite getDeletionRequestsHandler_run by assumption.
  unfold result, final; cbn [fst snd].
  change (deletion_requests_of (set_deletion_requests ?x _)) with x.
  assert (Hseen : In seen
            (map (increment_request_read_count (Query_Get r "user_id")
                    (Query_Get r "device_id"))
               (deletion_requests_of (run_deletion_polls polls g)))).
  { apply in_map_iff.
    exists (DeletionRequest.withReadCount q (Z.of_nat (length polls))).
    split; [|exact Hbefore].
    rewrite increment_own_request by assumption. reflexivity. }
  split; [|split].
  - eexists. split; [reflexivity|]. apply filter_In. split; [exact Hseen|].
    subst seen; cbn. now rewrite Hqu, Hqd, !String.eqb_refl.
  - exact Hseen.
  - unfold cleanDatabase, deletion_requests_of at 1; cbn.
    rewrite filter_In. subst seen; cbn.
    rewrite negb_true_iff, Z.ltb_ge. tauto.
Qed.

Lemma deletion_request_lifetime_witness :
  let request := DeletionRequest.mk "u" "" 5 [MessageIdentifier.mk "A" 7] 9 in
  let g := final (addDeletionRequestHandler request three_mailboxes) in
  let stored := DeletionRequest.mk "u" "B" 5 [MessageIdentifier.mk "A" 7] 0 in
  let poll := query_request "u" "B" in
  exists rows,
    result (getDeletionRequestsHandler poll (run_deletion_polls [poll; poll] g))
    = Returned rows
    /\ In (DeletionRequest.withReadCount stored 3) rows.
Proof.
  intros request g stored poll.
  assert (Hall : forall r', In r' [poll; poll] ->
            Query_Get r' "user_id" = Query_Get poll "user_id"
            /\ Query_Get r' "device_id" = Query_Get poll "device_id")
    by (intros r' [<-|[<-|[]]]; split; reflexivity).
  destruct (deletion_request_lifetime poll [poll; poll] g stored
              ltac:(vm_compute; discriminate) ltac:(vm_compute; discriminate)
              Hall ltac:(right; left; reflexivity) eq_refl eq_refl eq_refl)
    as (H & _).
  exact H.
Defined.

(** X16. Fan-out of a deletion request: for a user with Device rows, each
    registered device finds the request in its own feed at its next poll,
    with the sender's time and messages, and with read count 1 whatever
    read count the sender had put in the request. *)
Theorem addDeletionRequestHandler_reaches_devices
  (request : DeletionRequest.t) (g : Server) (device : Device.t)
  (poll : Request) :
  In device (find_devices (DeletionRequest.UserId request) g) ->
  Query_Get poll "user_id" = DeletionRequest.UserId request ->
  Query_Get poll "device_id" = Device.DeviceId device ->
  Query_Get poll "user_id" <> "" ->
  Query_Get poll "device_id" <> "" ->
  let g' := final (addDeletionRequestHandler request g) in
  exists rows,
    result (getDeletionRequestsHandler poll g') = Returned rows
    /\ In (DeletionRequest.mk (DeletionRequest.UserId request)
             (Device.DeviceId device) (DeletionRequest.SendTime request)
             (DeletionRequest.Messages request) 1) rows.
Proof.
  intros Hdev Hpu Hpd Hu Hd g'. subst g'.
  rewrite addDeletionRequestHandler_run
    by (intros E; rewrite E in Hdev; destruct Hdev).
  rewrite getDeletionRequestsHandler_run by assumption.
  unfold result, final; cbn [fst snd]. eexists. split; [reflexivity|].
  apply filter_In. split.
  - change (deletion_requests_of (set_entries _ (set_deletion_requests ?x _)))
      with x.
    apply in_map_iff.
    exists (DeletionRequest.withDestinationDeviceId
              (DeletionRequest.withReadCount request 0)
              (Device.DeviceId device)).
    split.
    + rewrite increment_own_request; [reflexivity| |]; cbn; congruence.
    + apply in_or_app. right.
      exact (in_map
               (fun d => DeletionRequest.withDestinationDeviceId
                           (DeletionRequest.withReadCount request 0)
                           (Device.DeviceId d)) _ device Hdev).
  - cbn. now rewrite Hpu, Hpd, !String.eqb_refl.
Qed.

Lemma addDeletionRequestHandler_reaches_devices_witness :
  let request := DeletionRequest.mk "u" "" 5 [MessageIdentifier.mk "A" 7] 9 in
  exists rows,
    result (getDeletionRequestsHandler (query_request "u" "C")
              (final (addDeletionRequestHandler request three_mailboxes)))
    = Returned rows
    /\ In (DeletionRequest.mk "u" "C" 5 [MessageIdentifier.mk "A" 7] 1) rows.
Proof.
  intros request.
  apply (addDeletionRequestHandler_reaches_devices request three_mailboxes
           (Device.mk "u" "C" "127.0.0.1:1" 3) (query_request "u" "C"));
    try reflexivity; try (vm_compute; discriminate).
  right. right. left. reflexivity.
Defined.

Lemma filter_partition_length {A} (p : A -> bool) (l : list A) :
  (length (filter p l) + length (filter (fun x => negb (p x)) l))%nat
  = length l.
Proof.
  induction l as [|a l IH]; cbn [filter length]; [reflexivity|].
  destruct (p a); cbn [negb length]; lia.
Qed.

(** X17. [applyDeletionRequestsToBackend] reports the number of rows it
    removed, removes only rows of the request's user, removes nothing when
    the request names no message, and is idempotent: applied again to its
    own result it returns 0 and changes nothing. *)
Theorem applyDeletionRequestsToBackend_idempotent
  (request : DeletionRequest.t) (g : Server) :
  let run := applyDeletionRequestsToBackend request g in
  exists numDeleted,
    result run = Returned numDeleted
    /\ Z.of_nat (length (entries_of g))
       = Z.of_nat (length (entries_of (final run))) + numDeleted
    /\ applyDeletionRequestsToBackend request (final run)
       = (final run, Returned 0)
    /\ (forall x,
          EncHistoryEntry.UserId x <> DeletionRequest.UserId request ->
          count_rows (entries_of (final run)) x = count_rows (entries_of g) x)
    /\ (DeletionRequest.Messages request = [] ->
        final run = g /\ numDeleted = 0).
Proof.
  intros run. subst run.
  unfold applyDeletionRequestsToBackend, bind, get, modify, ret, result, final.
  cbn [fst snd]. eexists. split; [reflexivity|].
  change (entries_of (set_entries ?x _)) with x.
  assert (Hkept : filter (fun e => negb (deletion_matches request e))
                    (filter (fun e => negb (deletion_matches request e))
                       (entries_of g))
                  = filter (fun e => negb (deletion_matches request e))
                      (entries_of g)).
  { rewrite filter_filter. apply filter_ext. intros e.
    now destruct (deletion_matches request e). }
  assert (Hnone : filter (deletion_matches request)
                    (filter (fun e => negb (deletion_matches request e))
                       (entries_of g)) = []).
  { rewrite filter_filter. apply filter_nil_iff. intros e _.
    now destruct (deletion_matches request e). }
  split; [|split; [|split]].
  - rewrite <- (filter_partition_length (deletion_matches request)
                  (entries_of g)). lia.
  - rewrite Hnone, Hkept. unfold set_entries; cbn. reflexivity.
  - intros x Hx. unfold count_rows. rewrite count_occ_filter.
    destruct (deletion_matches request x) eqn:E; [|reflexivity].
    apply deletion_matches_spec in E as (_ & _ & Hu & _). contradiction.
  - intros Hm. unfold deletion_matches. rewrite Hm. cbn [existsb negb].
    rewrite filter_true, set_entries_id.
    rewrite (proj2 (filter_nil_iff (fun _ => false) (entries_of g)));
      [split; reflexivity|reflexivity].
Qed.

(** ** Registration and dump exchange, composed *)

(** X18. A device that registers for a user who already has a Device row
    is announced to its peers: the poll of the dump exchange by any other
    device of that user returns the new request, and the poll by the new
    device itself does not return it. *)
Theorem apiRegisterHandler_announces (now : Z) (r poll : Request)
  (g : Server) :
  Query_Get r "user_id" <> "" ->
  Query_Get r "device_id" <> "" ->
  find_devices (Query_Get r "user_id") g <> [] ->
  Query_Get poll "user_id" = Query_Get r "user_id" ->
  Query_Get poll "device_id" <> "" ->
  let g' := final (apiRegisterHandler now r g) in
  let request :=
    DumpRequest.mk (Query_Get r "user_id") (Query_Get r "device_id") now in
  exists rows,
    result (apiGetPendingDumpRequestsHandler poll g') = Returned rows
    /\ (Query_Get poll "device_id" <> Query_Get r "device_id" ->
        In request rows)
    /\ (Query_Get poll "device_id" = Query_Get r "device_id" ->
        ~ In request rows).
Proof.
  intros Hu Hd Hdev Hpu Hpd g' request. subst g'.
  destruct (apiRegisterHandler_run now r g Hu Hd) as [usage ->].
  rewrite apiGetPendingDumpRequestsHandler_run by congruence.
  unfold result, final; cbn [fst snd]. eexists. split; [reflexivity|].
  destruct (find_devices (Query_Get r "user_id") g) as [|d l] eqn:E;
    [contradiction|].
  cbn [length Z.of_nat]. change (0 <? Z.pos _) with true. cbv iota.
  change (dump_requests_of (set_usage_data _ (set_dump_requests ?x _)))
    with x.
  split.
  - intros Hne. apply filter_In. split.
    + apply in_or_app. right. left. reflexivity.
    + subst request; cbn. rewrite Hpu, String.eqb_refl. cbn.
      apply negb_true_iff, String.eqb_neq. congruence.
  - intros Heq Hin. apply filter_In in Hin as [_ Hin].
    subst request; cbn in Hin. rewrite Heq, String.eqb_refl in Hin.
    rewrite andb_false_r in Hin. discriminate.
Qed.

Lemma apiRegisterHandler_announces_witness :
  let g := final (apiRegisterHandler 1 (query_request "u" "A") empty_server) in
  let g' := final (apiRegisterHandler 2 (query_request "u" "B") g) in
  exists rows,
    result (apiGetPendingDumpRequestsHandler (query_request "u" "A") g')
    = Returned rows
    /\ In (DumpRequest.mk "u" "B" 2) rows.
Proof.
  intros g g'.
  destruct (apiRegisterHandler_announces 2 (query_request "u" "B")
              (query_request "u" "A") g
              ltac:(vm_compute; discriminate) ltac:(vm_compute; discriminate)
              ltac:(vm_compute; discriminate) eq_refl
              ltac:(vm_compute; discriminate))
    as (rows & Hres & Hin & _).
  exists rows. split; [exact Hres|]. apply Hin. vm_compute. discriminate.
Defined.

Lemma apiSubmitDumpHandler_rejects now r entries g :
  Query_Get r "user_id" <> "" ->
  Query_Get r "source_device_id" <> "" ->
  Query_Get r "requesting_device_id" <> "" ->
  (exists entry,
     In entry entries
     /\ EncHistoryEntry.UserId entry <> Query_Get r "user_id") ->
  exists p, apiSubmitDumpHandler now r entries g = (g, Panicked p).
Proof.
  intros Hu Hs Hq Hbad. unfold apiSubmitDumpHandler. do 3 run_param.
  destruct (submitDump_tx_reject _ (Query_Get r "requesting_device_id")
              _ (GLOBAL_DB g) Hbad) as (tx' & entryUserId & Htx & Hne).
  unfold bind, Transaction. rewrite Htx. unfold raise. eauto.
Qed.

(** X19. A dump submission that carries its three parameters returns
    exactly when every entry of the batch belongs to the user of the
    request.  It then appends the batch in order to the mailbox of the
    requesting device, each entry with its own read count, and leaves the
    Device and DeletionRequest tables alone; it asks neither for a pending
    request nor for a registered device. *)
Theorem apiSubmitDumpHandler_accepts (now : Z) (r : Request)
  (entries : list EncHistoryEntry.t) (g : Server) :
  Query_Get r "user_id" <> "" ->
  Query_Get r "source_device_id" <> "" ->
  Query_Get r "requesting_device_id" <> "" ->
  let run := apiSubmitDumpHandler now r entries g in
  (result run = Returned tt <->
   forall entry, In entry entries ->
     EncHistoryEntry.UserId entry = Query_Get r "user_id")
  /\ (result run = Returned tt ->
      entries_of (final run)
      = entries_of g
        ++ map (fun e =>
                  EncHistoryEntry.withDeviceId e
                    (Query_Get r "requesting_device_id")) entries
      /\ devices_of (final run) = devices_of g
      /\ deletion_requests_of (final run) = deletion_requests_of g).
Proof.
  intros Hu Hs Hq run. subst run.
  destruct (batch_users_cases (Query_Get r "user_id") entries) as [Hok|Hbad].
  - assert (Hrun : exists usage,
              apiSubmitDumpHandler now r entries g
              = (set_usage_data usage
                   (set_dump_requests
                      (filter (fun q =>
                                 negb (String.eqb (DumpRequest.UserId q)
                                         (Query_Get r "user_id")
                                       && String.eqb
                                            (DumpRequest.RequestingDeviceId q)
                                            (Query_Get r "requesting_device_id")))
                         (dump_requests_of g))
                      (set_entries
                         (entries_of g
                          ++ map (fun e =>
                                    EncHistoryEntry.withDeviceId e
                                      (Query_Get r "requesting_device_id"))
                               entries) g)),
                 Returned tt)).
    { unfold apiSubmitDumpHandler. do 3 run_param.
      unfold bind, Transaction, modify.
      rewrite (submitDump_tx_accept _ _ _ _ Hok). cbv beta iota.
      run_usage. exists usage. reflexivity. }
    destruct Hrun as [usage ->]. unfold result, final; cbn [fst snd].
    split; [tauto|]. intros _. repeat split.
  - destruct (apiSubmitDumpHandler_rejects now r entries g
                Hu Hs Hq Hbad) as (p & ->).
    unfold result; cbn [snd]. split; [|discriminate].
    split; [discriminate|]. intros Hall.
    destruct Hbad as (entry & Hin & Hne). now specialize (Hall entry Hin).
Qed.

Lemma apiSubmitDumpHandler_accepts_witness :
  let entry := EncHistoryEntry.mk "payload" "A" "u" 7 3 in
  let run :=
    apiSubmitDumpHandler 5 (dump_request "u" "A" "B") [entry] empty_server in
  result run = Returned tt
  /\ entries_of (final run) = [EncHistoryEntry.mk "payload" "B" "u" 7 3].
Proof.
  intros entry run.
  destruct (apiSubmitDumpHandler_accepts 5 (dump_request "u" "A" "B") [entry]
              empty_server ltac:(vm_compute; discriminate)
              ltac:(vm_compute; discriminate) ltac:(vm_compute; discriminate))
    as [Hiff Heff].
  assert (Hret : result run = Returned tt).
  { apply Hiff. intros e [<-|[]]. reflexivity. }
  split; [exact Hret|].
  destruct (Heff Hret) as (Hent & _). unfold run. rewrite Hent. reflexivity.
Defined.

(** ** Submission and delivery, composed *)

(** X20. Fan-out as the devices see it, in a store whose read counts are
    those of the 64-bit column and for an entry sent with a read count of
    that column below its largest value, the rows of the polled mailbox
    being below it too: after a submit of one entry whose user has Device
    rows, the next query of each registered device (under any user,
    provided no deletion request stored for that device names the copy)
    finds the copy in its mailbox with the read count raised by one, and
    returns it exactly when the entry was submitted with a read count below
    4; the server stores the read count the client sent, and every read
    count stored after the query is still one of the column. *)
Theorem submit_then_query (now now' : Z) (entry : EncHistoryEntry.t)
  (device : Device.t) (poll : Request) (g : Server) :
  In device (find_devices (EncHistoryEntry.UserId entry) g) ->
  Query_Get poll "device_id" = Device.DeviceId device ->
  Query_Get poll "device_id" <> "" ->
  Query_Get poll "user_id" <> "" ->
  unnamed (Device.DeviceId device) g
    (EncHistoryEntry.withDeviceId entry (Device.DeviceId device)) ->
  minInt <= EncHistoryEntry.ReadCount entry < maxInt ->
  read_counts_fit 1 (Device.DeviceId device) g ->
  let g' := final (apiSubmitHandler now [entry] g) in
  let run := apiQueryHandler now' poll g' in
  let copy :=
    EncHistoryEntry.withReadCount
      (EncHistoryEntry.withDeviceId entry (Device.DeviceId device))
      (EncHistoryEntry.ReadCount entry + 1) in
  exists rows,
    result run = Returned rows
    /\ In copy (entries_of (final run))
    /\ (EncHistoryEntry.ReadCount entry < 4 -> In copy rows)
    /\ (4 <= EncHistoryEntry.ReadCount entry -> ~ In copy rows)
    /\ read_counts_fit 0 (Device.DeviceId device) (final run).
Proof.
  intros Hdev Hpd Hd Hu Hun Hsent Hfit g' run copy.
  assert (Hfit' : read_counts_fit 1 (Device.DeviceId device) g').
  { subst g'. destruct (apiSubmitHandler_run now [entry] g) as [usage ->].
    unfold final; cbn [fst]. intros x Hx.
    change (entries_of (set_entries ?l _)) with l in Hx.
    apply in_app_or in Hx as [Hx|Hx]; [exact (Hfit x Hx)|].
    cbn [served] in Hx. destruct (has_devices g entry);
      cbn [flat_map] in Hx; [|destruct Hx].
    rewrite app_nil_r in Hx. apply in_fan_out in Hx as (d & _ & _ & ->).
    cbn [EncHistoryEntry.withDeviceId EncHistoryEntry.ReadCount].
    split; [lia|]. intros _. lia. }
  assert (Hstored : In (EncHistoryEntry.withDeviceId entry
                          (Device.DeviceId device)) (entries_of g')).
  { subst g'. destruct (apiSubmitHandler_run now [entry] g) as [usage ->].
    unfold final; cbn [fst].
    change (entries_of (set_entries ?x _)) with x.
    apply in_or_app. right. cbn [served].
    assert (Hhas : has_devices g entry = true).
    { apply has_devices_true. intros E. rewrite E in Hdev. destruct Hdev. }
    rewrite Hhas. cbn [flat_map]. rewrite app_nil_r.
    apply in_fan_out. exists device.
    unfold find_devices in Hdev. apply filter_In in Hdev as [Hin Hm].
    apply String.eqb_eq in Hm. auto. }
  assert (Hun' : unnamed (Query_Get poll "device_id") g'
                   (EncHistoryEntry.withDeviceId entry
                      (Device.DeviceId device))).
  { subst g'. destruct (apiSubmitHandler_run now [entry] g) as [usage ->].
    rewrite Hpd. exact Hun. }
  destruct (query_keeps_unnamed now' poll g' _ Hu Hd Hstored
              (eq_sym Hpd) Hun') as [Hin _].
  fold run in Hin. cbn [EncHistoryEntry.withDeviceId
                        EncHistoryEntry.ReadCount] in Hin.
  change (In copy (entries_of (final run))) in Hin.
  assert (Hrun := apiQueryHandler_run now' poll g' Hu Hd).
  cbv zeta in Hrun. destruct Hrun as [usage Hrun]. fold run in Hrun.
  assert (Hent : entries_of (final run)
                 = query_entries (Query_Get poll "user_id")
                     (Query_Get poll "device_id") g')
    by (rewrite Hrun; reflexivity).
  eexists. split; [rewrite Hrun; reflexivity|].
  split; [exact Hin|]. rewrite <- Hent. split; [|split].
  - intros Hrc. apply filter_In. split; [exact Hin|].
    unfold in_window. subst copy; cbn. rewrite <- Hpd, String.eqb_refl.
    cbn. apply Z.ltb_lt. lia.
  - intros Hrc Hrow. apply filter_In in Hrow as [_ Hw].
    unfold in_window in Hw. subst copy; cbn in Hw.
    apply andb_true_iff in Hw as [_ Hw]. apply Z.ltb_lt in Hw. lia.
  - subst run. rewrite <- Hpd. apply apiQueryHandler_fits; [lia|].
    rewrite Hpd. exact Hfit'.
Qed.

Lemma submit_then_query_witness :
  let g1 := final (apiRegisterHandler 1 (query_request "u" "A") empty_server) in
  let g := final (apiRegisterHandler 2 (query_request "u" "B") g1) in
  exists rows,
    result (apiQueryHandler 4 (query_request "u" "B")
              (final (apiSubmitHandler 3 [late_entry] g)))
    = Returned rows
    /\ In (EncHistoryEntry.mk "payload" "B" "u" 7 1) rows.
Proof.
  intros g1 g.
  destruct (submit_then_query 3 4 late_entry
              (Device.mk "u" "B" "127.0.0.1:1" 2) (query_request "u" "B") g
              ltac:(right; left; reflexivity) eq_refl
              ltac:(vm_compute; discriminate) ltac:(vm_compute; discriminate)
              ltac:(intros q [])
              ltac:(cbn; unfold minInt, maxInt; lia)
              ltac:(intros x []))
    as (rows & Hres & _ & Hin & _).
  exists rows. split; [exact Hres|]. apply Hin. cbn. lia.
Defined.

(** ** The registry and the dump exchange along a history *)



Lemma serve_keeps_dump_request userId requestingDeviceId c g q :
  serves userId requestingDeviceId c = false ->
  DumpRequest.UserId q = userId ->
  DumpRequest.RequestingDeviceId q = requestingDeviceId ->
  In q (dump_requests_of g) ->
  In q (dump_requests_of (serve c g)).
Proof.
  intros Hs Hu Hd Hin.
  destruct c as [now entries|now r|now r|now r|r|now r entries
                |r|request| |]; cbn [serve].
  - destruct (apiSubmitHandler_run now entries g) as [usage ->]. exact Hin.
  - now rewrite apiBootstrapHandler_dump_requests.
  - now rewrite apiQueryHandler_dump_requests.
  - destruct (String.eqb_spec (Query_Get r "user_id") "") as [Hru|Hru];
      [|destruct (String.eqb_spec (Query_Get r "device_id") "") as [Hrd|Hrd]].
    + unfold apiRegisterHandler.
      now rewrite (bind_panicked _ _ _ _ _
                     (getRequiredQueryParam_missing _ _ _ Hru)).
    + unfold apiRegisterHandler. run_param.
      now rewrite (bind_panicked _ _ _ _ _
                     (getRequiredQueryParam_missing _ _ _ Hrd)).
    + destruct (apiRegisterHandler_run now r g Hru Hrd) as [usage ->].
      unfold final; cbn [fst]. destruct (0 <? _); cbn; [|exact Hin].
      apply in_or_app. now left.
  - now rewrite apiGetPendingDumpRequestsHandler_final.
  - destruct (apiSubmitDumpHandler_cases now r entries g)
      as [[p ->]|[usage ->]]; [exact Hin|].
    unfold final; cbn [fst].
    change (dump_requests_of (set_usage_data _ (set_dump_requests ?x _)))
      with x.
    apply filter_In. split; [exact Hin|].
    cbn [serves] in Hs. rewrite Hu, Hd.
    rewrite (String.eqb_sym userId), (String.eqb_sym requestingDeviceId).
    now rewrite Hs.
  - now rewrite getDeletionRequestsHandler_dump_requests.
  - now rewrite addDeletionRequestHandler_dump_requests.
  - exact Hin.
  - exact Hin.
Qed.

(** X22. A pending dump request waits without limit: through any history
    of calls that holds no dump submission for its pair (user, requesting
    device) it stays stored, neither the janitor nor any poll removes it,
    and every later poll of the exchange by another device of the user
    returns it. *)
Theorem dump_request_waits (calls : list call) (poll : Request) (g : Server)
  (q : DumpRequest.t) :
  In q (dump_requests_of g) ->
  (forall c, In c calls ->
     serves (DumpRequest.UserId q) (DumpRequest.RequestingDeviceId q) c
     = false) ->
  Query_Get poll "user_id" = DumpRequest.UserId q ->
  Query_Get poll "user_id" <> "" ->
  Query_Get poll "device_id" <> "" ->
  Query_Get poll "device_id" <> DumpRequest.RequestingDeviceId q ->
  In q (dump_requests_of (serve_all calls g))
  /\ exists rows,
       result (apiGetPendingDumpRequestsHandler poll (serve_all calls g))
       = Returned rows
       /\ In q rows.
Proof.
  intros Hin Hcalls Hpu Hu Hd Hne.
  assert (Hstays : In q (dump_requests_of (serve_all calls g))).
  { revert g Hin. induction calls as [|c calls IH]; intros g Hin;
      cbn [serve_all fold_left]; [exact Hin|].
    apply (IH (fun c' Hc' => Hcalls c' (or_intror Hc'))).
    apply (serve_keeps_dump_request _ _ c g q
             (Hcalls c (or_introl eq_refl)) eq_refl eq_refl Hin). }
  split; [exact Hstays|].
  rewrite apiGetPendingDumpRequestsHandler_run by assumption.
  eexists. split; [reflexivity|]. apply filter_In. split; [exact Hstays|].
  rewrite Hpu, String.eqb_refl. cbn.
  apply negb_true_iff, String.eqb_neq. congruence.
Qed.

Lemma dump_request_waits_witness :
  let g1 := final (apiRegisterHandler 1 (query_request "u" "A") empty_server) in
  let g := final (apiRegisterHandler 2 (query_request "u" "B") g1) in
  exists rows,
    result (apiGetPendingDumpRequestsHandler (query_request "u" "A")
              (serve_all [CleanDatabase; Query 3 (query_request "u" "B");
                          GetPendingDumpRequests (query_request "u" "A")] g))
    = Returned rows
    /\ In (DumpRequest.mk "u" "B" 2) rows.
Proof.
  intros g1 g.
  destruct (dump_request_waits
              [CleanDatabase; Query 3 (query_request "u" "B");
               GetPendingDumpRequests (query_request "u" "A")]
              (query_request "u" "A") g (DumpRequest.mk "u" "B" 2)
              ltac:(left; reflexivity)) as [_ H];
    try reflexivity; try (vm_compute; discriminate).
  - intros c [<-|[<-|[<-|[]]]]; reflexivity.
  - exact H.
Defined.

(** * Properties of the client helpers *)

Lemma StronglySorted_app (l1 l2 : list Z) :
  StronglySorted Z.le l1 -> StronglySorted Z.le l2 ->
  (forall a b, In a l1 -> In b l2 -> a <= b) ->
  StronglySorted Z.le (l1 ++ l2).
Proof.
  induction l1 as [|x l1 IH]; intros H1 H2 Hle; cbn [app]; [exact H2|].
  inversion H1 as [|? ? Hs Hall]; subst. constructor.
  - apply IH; [assumption|assumption|]. intros a b Ha Hb.
    apply Hle; [now right|assumption].
  - apply Forall_app. split; [assumption|].
    apply Forall_forall. intros b Hb. apply Hle; [now left|assumption].
Qed.

Lemma boundaries_loop_spec rest : forall idx ret prev ret' prev',
  Tui.boundaries_loop rest idx ret prev = (ret', prev') ->
  exists suffix,
    ret' = ret ++ suffix
    /\ StronglySorted Z.le suffix
    /\ forall b, In b suffix ->
         idx <= b < idx + Tui.len rest
         /\ exists char,
              String.get (Z.to_nat (b - idx)) rest = Some char
              /\ Tui.breaking char = true.
Proof.
  induction rest as [|char rest IH]; intros idx ret prev ret' prev' H.
  - cbn in H. injection H as <- <-. exists []. rewrite app_nil_r.
    split; [reflexivity|]. split; [constructor|intros b []].
  - cbn [Tui.boundaries_loop] in H.
    assert (Hlen : Tui.len (String char rest) = Tui.len rest + 1)
      by (unfold Tui.len; cbn [String.length]; lia).
    assert (Hshift : forall b suffix,
              (forall b', In b' suffix ->
                 idx + 1 <= b' < idx + 1 + Tui.len rest
                 /\ exists c, String.get (Z.to_nat (b' - (idx + 1))) rest
                              = Some c /\ Tui.breaking c = true) ->
              In b suffix ->
              idx <= b < idx + Tui.len (String char rest)
              /\ exists c, String.get (Z.to_nat (b - idx)) (String char rest)
                           = Some c /\ Tui.breaking c = true).
    { intros b suffix Hs Hb. destruct (Hs b Hb) as [Hr (c & Hc & Hbr)].
      split; [lia|]. exists c. split; [|exact Hbr].
      replace (Z.to_nat (b - idx)) with (S (Z.to_nat (b - (idx + 1))))
        by lia.
      exact Hc. }
    destruct (Tui.breaking char) eqn:Hbr.
    + apply IH in H as (suffix & -> & Hsorted & Hin).
      destruct prev; cbn [negb].
      * exists suffix. split; [reflexivity|]. split; [assumption|].
        intros b Hb. exact (Hshift b suffix Hin Hb).
      * exists (idx :: suffix). rewrite <- app_assoc. split; [reflexivity|].
        split.
        -- constructor; [assumption|]. apply Forall_forall. intros b Hb.
           destruct (Hin b Hb). lia.
        -- intros b [<-|Hb]; [|exact (Hshift b suffix Hin Hb)].
           split; [rewrite Hlen; unfold Tui.len; lia|]. exists char.
           rewrite Z.sub_diag. split; [reflexivity|exact Hbr].
    + apply IH in H as (suffix & -> & Hsorted & Hin).
      exists suffix. split; [reflexivity|]. split; [assumption|].
      intros b Hb. exact (Hshift b suffix Hin Hb).
Qed.

(** X23. [calculateWordBoundaries] returns offsets into its input: the
    slice starts with 0, is in non-decreasing order, holds only values
    between 0 and the length of the input, and each of its values is 0, the
    length of the input, or the offset of a space or a hyphen. *)
Theorem calculateWordBoundaries_offsets (input : string) :
  let ret := Tui.calculateWordBoundaries input in
  hd_error ret = Some 0
  /\ StronglySorted Z.le ret
  /\ (forall b, In b ret -> 0 <= b <= Tui.len input)
  /\ (forall b, In b ret ->
        b = 0 \/ b = Tui.len input
        \/ exists char,
             String.get (Z.to_nat b) input = Some char
             /\ Tui.breaking char = true).
Proof.
  intros ret. subst ret. unfold Tui.calculateWordBoundaries.
  destruct (Tui.boundaries_loop input 0 [0] false) as [ret prev] eqn:H.
  apply boundaries_loop_spec in H as (suffix & -> & Hsorted & Hin).
  assert (Hlen : 0 <= Tui.len input) by (unfold Tui.len; lia).
  assert (Hbase : StronglySorted Z.le ([0] ++ suffix)).
  { apply StronglySorted_app; [repeat constructor|assumption|].
    intros a b [<-|[]] Hb. destruct (Hin b Hb). lia. }
  assert (Hrange : forall b, In b ([0] ++ suffix) -> 0 <= b <= Tui.len input).
  { intros b [<-|Hb]; [lia|]. destruct (Hin b Hb). lia. }
  assert (Hkind : forall b, In b ([0] ++ suffix) ->
            b = 0 \/ b = Tui.len input
            \/ exists char,
                 String.get (Z.to_nat b) input = Some char
                 /\ Tui.breaking char = true).
  { intros b [<-|Hb]; [now left|]. right. right.
    destruct (Hin b Hb) as [_ (c & Hc & Hbr)]. rewrite Z.sub_0_r in Hc.
    eauto. }
  destruct prev; cbn [negb].
  - split; [reflexivity|]. split; [exact Hbase|].
    split; [exact Hrange|exact Hkind].
  - split; [reflexivity|]. split; [|split].
    + apply StronglySorted_app; [assumption|repeat constructor|].
      intros a b Ha [<-|[]]. now apply Hrange.
    + intros b Hb. apply in_app_or in Hb as [Hb|[<-|[]]]; [auto|lia].
    + intros b Hb. apply in_app_or in Hb as [Hb|[<-|[]]]; auto.
Qed.

Example calculateWordBoundaries_examples :
  Tui.calculateWordBoundaries "ls -la  foo" = [0; 2; 6; 11]
  /\ Tui.calculateWordBoundaries "" = [0; 0]
  /\ Tui.calculateWordBoundaries " a-" = [0; 0; 2].
Proof. repeat split; reflexivity. Qed.










Example calculateColumnWidths_examples :
  Tui.calculateColumnWidths [["ls"; "/tmp"]; ["git status"]] 2 = Some [10; 4]
  /\ Tui.calculateColumnWidths [["a"; "b"; "c"]] 2 = None
  /\ Tui.calculateColumnWidths [] 3 = Some [0; 0; 0].
Proof. repeat split; reflexivity. Qed.

Lemma Split_space_nonempty s : Tui.Split_space s <> [].
Proof.
  destruct s as [|ch s]; cbn [Tui.Split_space]; [discriminate|].
  destruct (Ascii.eqb ch " "); [discriminate|].
  destruct (Tui.Split_space s); discriminate.
Qed.

Lemma concat_Split_space s : String.concat " " (Tui.Split_space s) = s.
Proof.
  induction s as [|ch s IH]; cbn [Tui.Split_space]; [reflexivity|].
  assert (Hn := Split_space_nonempty s).
  destruct (Tui.Split_space s) as [|p ps]; [contradiction|].
  destruct (Ascii.eqb_spec ch " ") as [->|Hne].
  - change (String.concat " " ("" :: p :: ps))
      with ("" ++ " " ++ String.concat " " (p :: ps))%string.
    rewrite IH. reflexivity.
  - destruct ps as [|p' ps].
    + cbn [String.concat] in *. now rewrite IH.
    + change (String.concat " " (String ch p :: p' :: ps))
        with (String ch (p ++ " " ++ String.concat " " (p' :: ps)))%string.
      change (String.concat " " (p :: p' :: ps))
        with (p ++ " " ++ String.concat " " (p' :: ps))%string in IH.
      now rewrite IH.
Qed.

Lemma Split_space_pieces s : forall piece,
  In piece (Tui.Split_space s) -> has_space piece = false.
Proof.
  induction s as [|ch s IH]; cbn [Tui.Split_space]; intros piece.
  - intros [<-|[]]. reflexivity.
  - destruct (Ascii.eqb ch " ") eqn:E.
    + intros [<-|Hin]; [reflexivity|auto].
    + destruct (Tui.Split_space s) as [|p ps].
      * intros [<-|[]]. cbn [has_space]. now rewrite E.
      * intros [<-|Hin].
        -- cbn [has_space]. rewrite E. apply IH. now left.
        -- apply IH. now right.
Qed.

Lemma string_app_assoc (a b c : string) :
  ((a ++ b) ++ c = a ++ (b ++ c))%string.
Proof. induction a as [|ch a IH]; cbn; [reflexivity|now rewrite IH]. Qed.

Lemma concat_app_nonempty sep (l1 l2 : list string) :
  l1 <> [] -> l2 <> [] ->
  String.concat sep (l1 ++ l2)
  = (String.concat sep l1 ++ sep ++ String.concat sep l2)%string.
Proof.
  intros H1 H2. induction l1 as [|x l1 IH]; [contradiction|].
  destruct l1 as [|y l1].
  - cbn [app String.concat]. destruct l2; [contradiction|reflexivity].
  - change ((x :: y :: l1) ++ l2) with (x :: (y :: l1) ++ l2).
    cbn [String.concat] in *. cbn [app] in *.
    rewrite IH by discriminate.
    now rewrite !string_app_assoc.
Qed.

Lemma splitQueryArray_flat_map l :
  Tui.splitQueryArray l = flat_map Tui.Split_space l.
Proof.
  unfold Tui.splitQueryArray.
  assert (H : forall acc,
            fold_left (fun a chunk => a ++ Tui.Split_space chunk) l acc
            = acc ++ flat_map Tui.Split_space l).
  { induction l as [|x l IH]; intros acc; cbn [fold_left flat_map].
    - now rewrite app_nil_r.
    - now rewrite IH, app_assoc. }
  apply (H []).
Qed.

(** X25. [splitQueryArray] re-cuts the query at every space and loses
    nothing: no chunk of the result holds a space, and joining the result
    with single spaces gives the same text as joining the input. *)
Theorem splitQueryArray_round_trip (initialQueryArray : list string) :
  String.concat " " (Tui.splitQueryArray initialQueryArray)
  = String.concat " " initialQueryArray
  /\ (forall chunk,
        In chunk (Tui.splitQueryArray initialQueryArray) ->
        has_space chunk = false)
  /\ (initialQueryArray <> [] -> Tui.splitQueryArray initialQueryArray <> []).
Proof.
  rewrite splitQueryArray_flat_map.
  assert (Hne : forall l, l <> [] -> flat_map Tui.Split_space l <> []).
  { intros [|x l] H; [contradiction|]. cbn [flat_map].
    assert (Hx := Split_space_nonempty x).
    destruct (Tui.Split_space x); [contradiction|discriminate]. }
  split; [|split; [|apply Hne]].
  - induction initialQueryArray as [|x l IH]; [reflexivity|].
    cbn [flat_map]. destruct l as [|y l].
    + cbn [flat_map]. rewrite app_nil_r. apply concat_Split_space.
    + rewrite concat_app_nonempty;
        [|apply Split_space_nonempty|apply Hne; discriminate].
      rewrite IH, concat_Split_space. reflexivity.
  - intros chunk Hin. apply in_flat_map in Hin as (x & _ & Hin).
    now apply (Split_space_pieces x).
Qed.

Example splitQueryArray_examples :
  Tui.splitQueryArray ["git status"; "-s"] = ["git"; "status"; "-s"]
  /\ Tui.splitQueryArray ["a  b"; ""] = ["a"; ""; "b"; ""]
  /\ Tui.splitQueryArray [] = [].
Proof. repeat split; reflexivity. Qed.

(** * Telemetry of the write paths *)

Lemma entries_handled_usage userId deviceId g g' :
  usage_of g' = usage_of g ->
  entries_handled userId deviceId g' = entries_handled userId deviceId g.
Proof. unfold entries_handled. now intros ->. Qed.

Lemma usage_keys_usage g g' :
  usage_of g' = usage_of g -> usage_keys g' = usage_keys g.
Proof. unfold usage_keys. now intros ->. Qed.

Lemma attempted_ext g g' :
  devices_of g = devices_of g' ->
  forall entries, attempted g entries = attempted g' entries.
Proof.
  intros H entries. induction entries as [|e l IH]; cbn [attempted];
    [reflexivity|].
  now rewrite (has_devices_ext g g' H), IH.
Qed.

Lemma submit_entry_handled now entry g userId deviceId :
  NoDup (usage_keys g) ->
  let g1 := final (submit_entry now entry g) in
  NoDup (usage_keys g1)
  /\ devices_of g1 = devices_of g
  /\ entries_handled userId deviceId g1
     = entries_handled userId deviceId g
       + (if sent_by userId deviceId entry then 1 else 0).
Proof.
  intros Hnd g1.
  assert (Husage := submit_entry_usage now entry g). fold g1 in Husage.
  assert (Hdev : devices_of g1 = devices_of g).
  { subst g1. destruct (submit_entry_run now entry g) as [usage ->].
    destruct (has_devices g entry); reflexivity. }
  split; [|split; [exact Hdev|]].
  - rewrite (usage_keys_usage _ _ Husage). now apply updateUsageData_unique.
  - rewrite (entries_handled_usage _ _ _ _ Husage).
    destruct (updateUsageData_upsert now (EncHistoryEntry.UserId entry)
                (EncHistoryEntry.DeviceId entry) 1 g Hnd ltac:(lia))
      as (Hown & Hother & _).
    unfold sent_by.
    destruct (String.eqb_spec (EncHistoryEntry.UserId entry) userId)
      as [Eu|Eu];
      [destruct (String.eqb_spec (EncHistoryEntry.DeviceId entry) deviceId)
         as [Ed|Ed]|]; cbn [andb].
    + subst userId deviceId. exact Hown.
    + rewrite Hother by congruence. lia.
    + rewrite Hother by congruence. lia.
Qed.

(** X26. Submit counts what it starts: with distinct keys in the usage
    table, the entries handled for a (user, source device) pair grow by the
    number of entries of that sender that the handler began to process,
    which includes the entry on which a submit panics for want of a
    device, and excludes the entries after it. *)
Theorem apiSubmitHandler_counts (now : Z) (entries : list EncHistoryEntry.t)
  (g : Server) (userId deviceId : string) :
  NoDup (usage_keys g) ->
  entries_handled userId deviceId (final (apiSubmitHandler now entries g))
  = entries_handled userId deviceId g
    + Z.of_nat (length (filter (sent_by userId deviceId)
                          (attempted g entries))).
Proof.
  unfold apiSubmitHandler. revert g.
  induction entries as [|entry entries IH]; intros g Hnd.
  - cbn. lia.
  - cbn [for_range attempted]. unfold bind.
    destruct (submit_entry_handled now entry g userId deviceId Hnd)
      as (Hnd1 & Hdev1 & Hcount1).
    assert (Hout : result (submit_entry now entry g)
                   = if has_devices g entry then Returned tt
                     else Panicked (NoDevices (EncHistoryEntry.UserId entry))).
    { destruct (submit_entry_run now entry g) as [usage ->].
      destruct (has_devices g entry); reflexivity. }
    destruct (submit_entry now entry g) as [g1 [[]|p]] eqn:E;
      unfold final, result in *; cbn [fst snd] in *;
      destruct (has_devices g entry); try discriminate.
    + rewrite (IH g1 Hnd1), Hcount1.
      rewrite (attempted_ext g1 g Hdev1). cbn [filter].
      destruct (sent_by userId deviceId entry); cbn [length]; lia.
    + rewrite Hcount1. cbn [filter].
      destruct (sent_by userId deviceId entry); cbn [length filter]; lia.
Qed.

(** A batch of three from device [A]: the second entry belongs to a user
    without device, so two are counted and the third is not. *)
Lemma apiSubmitHandler_counts_witness :
  let g := final (apiRegisterHandler 1 (query_request "u" "A") empty_server) in
  let mine := EncHistoryEntry.mk "payload" "A" "u" 7 0 in
  let orphan := EncHistoryEntry.mk "payload" "A" "nobody" 8 0 in
  entries_handled "u" "A" (final (apiSubmitHandler 2 [mine; orphan; mine] g))
  = entries_handled "u" "A" g + 1.
Proof.
  intros g mine orphan.
  rewrite (apiSubmitHandler_counts 2 [mine; orphan; mine] g "u" "A").
  - reflexivity.
  - repeat constructor; cbn; intuition discriminate.
Defined.

(** X27. A dump submission that returns adds the size of its batch to the
    entries handled for the source device, not for the requesting one; one
    that panics adds nothing. *)
Theorem apiSubmitDumpHandler_counts (now : Z) (r : Request)
  (entries : list EncHistoryEntry.t) (g : Server) :
  NoDup (usage_keys g) ->
  let run := apiSubmitDumpHandler now r entries g in
  let userId := Query_Get r "user_id" in
  let srcDeviceId := Query_Get r "source_device_id" in
  (result run = Returned tt ->
   entries_handled userId srcDeviceId (final run)
   = entries_handled userId srcDeviceId g + Z.of_nat (length entries)
   /\ forall userId' deviceId',
        (userId', deviceId') <> (userId, srcDeviceId) ->
        entries_handled userId' deviceId' (final run)
        = entries_handled userId' deviceId' g)
  /\ (result run <> Returned tt -> usage_of (final run) = usage_of g).
Proof.
  intros Hnd run userId srcDeviceId. subst run userId srcDeviceId.
  assert (Hcases :
    (exists p, apiSubmitDumpHandler now r entries g = (g, Panicked p))
    \/ exists g2,
         usage_of g2 = usage_of g
         /\ apiSubmitDumpHandler now r entries g
            = (final (updateUsageData now (Query_Get r "user_id")
                        (Query_Get r "source_device_id")
                        (Z.of_nat (length entries)) g2), Returned tt)).
  { unfold apiSubmitDumpHandler.
    case_param; [|left; eauto]. case_param; [|left; eauto].
    case_param; [|left; eauto].
    destruct (batch_users_cases (Query_Get r "user_id") entries)
      as [Hok|Hbad].
    - right. unfold bind, Transaction, modify.
      rewrite (submitDump_tx_accept _ _ _ _ Hok). cbv beta iota.
      match goal with
      | |- context [updateUsageData ?a ?b ?c ?d ?s] =>
          exists s; split; [reflexivity|];
          destruct (updateUsageData_run a b c d s) as [usage ->]; reflexivity
      end.
    - left. unfold bind, Transaction.
      destruct (submitDump_tx_reject _ (Query_Get r "requesting_device_id")
                  _ (GLOBAL_DB g) Hbad) as (tx' & u & -> & _).
      eexists. reflexivity. }
  destruct Hcases as [[p ->]|(g2 & Hu2 & ->)];
    unfold result, final; cbn [fst snd].
  - split; [discriminate|reflexivity].
  - split; [|intros H; now contradiction H].
    intros _.
    assert (Hnd2 : NoDup (usage_keys g2))
      by (rewrite (usage_keys_usage _ _ Hu2); exact Hnd).
    destruct (updateUsageData_upsert now (Query_Get r "user_id")
                (Query_Get r "source_device_id")
                (Z.of_nat (length entries)) g2 Hnd2 ltac:(lia))
      as (Hown & Hother & _).
    unfold final in Hown, Hother.
    rewrite Hown, (entries_handled_usage _ _ _ _ Hu2). split; [reflexivity|].
    intros u' d' Hne.
    rewrite (Hother u' d' Hne). apply entries_handled_usage. exact Hu2.
Qed.

Lemma apiSubmitDumpHandler_counts_witness :
  let g1 := final (apiRegisterHandler 1 (query_request "u" "A") empty_server) in
  let g := final (apiRegisterHandler 2 (query_request "u" "B") g1) in
  let batch := [late_entry; late_entry; late_entry] in
  entries_handled "u" "A"
    (final (apiSubmitDumpHandler 3 (dump_request "u" "A" "B") batch g)) = 3
  /\ entries_handled "u" "B"
       (final (apiSubmitDumpHandler 3 (dump_request "u" "A" "B") batch g)) = 0.
Proof.
  intros g1 g batch.
  assert (Hnd : NoDup (usage_keys g))
    by (repeat constructor; cbn; intuition discriminate).
  destruct (apiSubmitDumpHandler_counts 3 (dump_request "u" "A" "B") batch g
              Hnd) as [Hok _].
  destruct (Hok eq_refl) as [Hown Hother].
  split.
  - exact Hown.
  - rewrite (Hother "u" "B"); [reflexivity|]. vm_compute. discriminate.
Defined.
